(** * Portfolio analytics engine: a shallow embedding of the quantitative core

    The development embeds the numerical core of [portfolio_management.analytics]
    (modules [risk], [optimization], [attribution] and [stress_testing]) and
    proves properties of it.

    Numeric conventions.
    - A finite [float64] is modelled by an exact rational ([Q]); rounding is
      not modelled.  Equalities between computed numbers are therefore stated
      with [==] ([Qeq]) unless both sides are the same computation.  A
      property that rests on an exact sum or mean (an order between two
      means, a variance that is exactly zero) holds of the code up to
      rounding only; module [Binary64] embeds the historical VaR and CVaR
      over IEEE 754 binary64 to show where rounding changes an outcome.
    - A result that numpy may deliver as a non-finite number (a division by
      zero, the mean of an empty array) has type [float64], which adds [PInf],
      [NInf] and [NaN] to the finite values.  Signed zeros are not modelled.
    - Python exceptions are values of [exn], carried by [outcome].
    - Array arguments are lists.  The element-wise operations and [np_dot]
      are meant for operands of conforming shapes (numpy raises [ValueError]
      otherwise) and stop at the shorter operand; where the code reaches
      such a product with shapes it has not checked, the embedding tests the
      shapes first ([shapes_aligned]) and raises, and the theorems about it
      assume conforming shapes.
    - A [dict] with string keys is a [gmap string _]; a [set] is a [gset]. *)

From Stdlib Require Import QArith Qabs Qround Lqa ZArith List Permutation Sorted.
From stdpp Require Import gmap strings list fin_maps.
From Corelib Require PrimFloat.

Local Open Scope Q_scope.

(** ** Python outcomes *)

Inductive exn : Type :=
  | ValueError (msg : string)
  | ZeroDivisionError
  | IndexError (msg : string).

Inductive outcome (A : Type) : Type :=
  | Return (a : A)
  | Raise (e : exn).
Arguments Return {A} a.
Arguments Raise {A} e.

(** Sequencing stops at the first exception; [x ← m; k] is stdpp's notation
    for [mbind]. *)
#[global] Instance outcome_bind : MBind outcome := fun A B k m =>
  match m with
  | Return a => k a
  | Raise e => Raise e
  end.

#[global] Instance outcome_ret : MRet outcome := fun A a => Return a.

(** ** Floating-point results *)

Inductive float64 : Type :=
  | Fin (q : Q)
  | PInf
  | NInf
  | NaN.

Definition f_opp (x : float64) : float64 :=
  match x with
  | Fin a => Fin (- a)
  | PInf => NInf
  | NInf => PInf
  | NaN => NaN
  end.

Definition f_inf (positive : bool) : float64 := if positive then PInf else NInf.

Definition f_add (x y : float64) : float64 :=
  match x, y with
  | Fin a, Fin b => Fin (a + b)
  | NaN, _ | _, NaN => NaN
  | PInf, NInf | NInf, PInf => NaN
  | PInf, _ | _, PInf => PInf
  | NInf, _ | _, NInf => NInf
  end.

Definition f_sub (x y : float64) : float64 := f_add x (f_opp y).

(** [0 < a] as a boolean. *)
Definition Qpos_bool (a : Q) : bool := negb (Qle_bool a 0).

Definition f_scale_inf (positive : bool) (a : Q) : float64 :=
  if Qeq_bool a 0 then NaN else f_inf (Bool.eqb positive (Qpos_bool a)).

Definition f_mul (x y : float64) : float64 :=
  match x, y with
  | Fin a, Fin b => Fin (a * b)
  | NaN, _ | _, NaN => NaN
  | PInf, Fin b | Fin b, PInf => f_scale_inf true b
  | NInf, Fin b | Fin b, NInf => f_scale_inf false b
  | PInf, PInf | NInf, NInf => PInf
  | PInf, NInf | NInf, PInf => NInf
  end.

(** numpy's true division of two finite floats: [x/0] is [inf], [-inf] or
    [nan] (with a runtime warning), never an exception. *)
Definition np_true_divide (a b : Q) : float64 :=
  if Qeq_bool b 0 then
    (if Qeq_bool a 0 then NaN else f_inf (Qpos_bool a))
  else Fin (a / b).

Definition f_div (x y : float64) : float64 :=
  match x, y with
  | Fin a, Fin b => np_true_divide a b
  | NaN, _ | _, NaN => NaN
  | Fin _, (PInf | NInf) => Fin 0
  | (PInf | NInf), (PInf | NInf) => NaN
  | PInf, Fin b => f_inf (Qle_bool 0 b)
  | NInf, Fin b => f_inf (negb (Qle_bool 0 b))
  end.

(** [x == 0] on floats: false for [nan] and the infinities. *)
Definition f_is_zero (x : float64) : bool :=
  match x with
  | Fin a => Qeq_bool a 0
  | _ => false
  end.

(** [x <= t] for a finite [x] and a float threshold [t]. *)
Definition f_le_q (x : Q) (t : float64) : bool :=
  match t with
  | Fin b => Qle_bool x b
  | PInf => true
  | NInf | NaN => false
  end.

(** ** numpy reductions over arrays of finite floats *)

Definition np_sum (a : list Q) : Q := fold_left Qplus a 0.

Definition np_len (a : list Q) : Q := inject_Z (Z.of_nat (length a)).

(** [np.mean]: the mean of an empty array is [nan].  The mean is the exact
    one; the float that numpy computes is the rounded sum over the length,
    which can differ from it in the last place (see [Binary64.np_mean]). *)
Definition np_mean (a : list Q) : float64 :=
  match a with
  | [] => NaN
  | _ => Fin (np_sum a / np_len a)
  end.

(** [np.diff] of a one-dimensional array. *)
Fixpoint np_diff (a : list Q) : list Q :=
  match a with
  | x :: ((y :: _) as rest) => (y - x) :: np_diff rest
  | _ => []
  end.

(** Element-wise product of two arrays of the same length (for lengths that
    differ numpy raises [ValueError]; the product here stops at the shorter
    array). *)
Fixpoint np_multiply (a b : list Q) : list Q :=
  match a, b with
  | x :: a', y :: b' => (x * y) :: np_multiply a' b'
  | _, _ => []
  end.

(** [np.dot] of two vectors of the same length, and of a matrix (a list of
    rows) with a vector that has one entry per column. *)
Definition np_dot (a b : list Q) : Q := np_sum (np_multiply a b).

Definition np_matvec (m : list (list Q)) (v : list Q) : list Q :=
  List.map (fun row => np_dot row v) m.

(** [np.sort]: insertion into an ascending list. *)
Fixpoint sort_insert (x : Q) (l : list Q) : list Q :=
  match l with
  | [] => [x]
  | y :: l' => if Qle_bool x y then x :: l else y :: sort_insert x l'
  end.

Fixpoint np_sort (a : list Q) : list Q :=
  match a with
  | [] => []
  | x :: a' => sort_insert x (np_sort a')
  end.

(** [np.percentile(a, q)] with the default linear interpolation: the virtual
    index [(n-1)*q/100] is split into its floor and the fraction [gamma],
    both neighbours are clipped to the array, and the two order statistics
    are interpolated as numpy's [_lerp] does.  A percentage outside
    [[0, 100]] raises [ValueError]; an empty array then raises
    [IndexError]. *)
Definition lerp (a b t : Q) : Q :=
  if Qle_bool (1 # 2) t then b - (b - a) * (1 - t) else a + (b - a) * t.

Definition np_percentile (a : list Q) (q : Q) : outcome float64 :=
  let quantile := q / 100 in
  if negb (Qle_bool 0 quantile && Qle_bool quantile 1) then
    Raise (ValueError "Percentiles must be in the range [0, 100]")
  else
    match a with
    | [] => Raise (IndexError "index -1 is out of bounds for axis 0 with size 0")
    | _ =>
      let arr := np_sort a in
      let last := (Z.of_nat (length a) - 1)%Z in
      let virtual_index := inject_Z last * quantile in
      let floor_index := Qfloor virtual_index in
      let '(previous_index, next_index) :=
        if Qle_bool (inject_Z last) virtual_index then (last, last)
        else if Qpos_bool (- virtual_index) then (0%Z, 0%Z)
        else (floor_index, (floor_index + 1)%Z) in
      let gamma := virtual_index - inject_Z floor_index in
      Return (Fin (lerp (nth (Z.to_nat previous_index) arr 0)
                        (nth (Z.to_nat next_index) arr 0) gamma))
    end.

(** Sample variance with Bessel's correction, [np.var(a, ddof=1)]: [nan]
    when fewer than two observations are given.  It is the exact variance:
    zero for a constant series, where the float computed by numpy is zero
    only if the rounded mean is the constant itself. *)
Definition np_var_ddof1 (a : list Q) : float64 :=
  match np_mean a with
  | Fin m =>
    if (length a <=? 1)%nat then NaN
    else Fin (np_sum (List.map (fun x => (x - m) * (x - m)) a) / (np_len a - 1))
  | _ => NaN
  end.

(** The off-diagonal entry of [np.cov(x, y)]: stacking the two series needs
    equal lengths; [nan] when fewer than two observations are given. *)
Definition np_cov01 (x y : list Q) : outcome float64 :=
  if negb (length x =? length y)%nat then
    Raise (ValueError "all the input array dimensions must match exactly")
  else
    match np_mean x, np_mean y with
    | Fin mx, Fin my =>
      if (length x <=? 1)%nat then Return NaN
      else Return (Fin (np_dot (List.map (fun v => v - mx) x) (List.map (fun v => v - my) y)
                        / (np_len x - 1)))
    | _, _ => Return NaN
    end.

(** Element-wise division of two arrays, and the difference of an array of
    float results. *)
Fixpoint np_divide (a b : list Q) : list float64 :=
  match a, b with
  | x :: a', y :: b' => np_true_divide x y :: np_divide a' b'
  | _, _ => []
  end.

Fixpoint f_diff (a : list float64) : list float64 :=
  match a with
  | x :: ((y :: _) as rest) => f_sub y x :: f_diff rest
  | _ => []
  end.

(** ** Order on float results and index reductions *)

(** [x < y] on floats: false as soon as one side is [nan]. *)
Definition f_ltb (x y : float64) : bool :=
  match x, y with
  | NaN, _ | _, NaN => false
  | Fin a, Fin b => negb (Qle_bool b a)
  | NInf, NInf | PInf, _ | _, NInf => false
  | NInf, _ | _, PInf => true
  end.

Definition f_is_nan (x : float64) : bool :=
  match x with
  | NaN => true
  | _ => false
  end.

(** [np.minimum] of two floats: [nan] wins. *)
Definition f_minimum (x y : float64) : float64 :=
  match x, y with
  | NaN, _ | _, NaN => NaN
  | _, _ => if f_ltb y x then y else x
  end.

(** [np.min] and [np.argmin] of an array of float results: both refuse an
    empty array; [argmin] answers the first index of the least entry, or of
    the first [nan]. *)
Definition np_min (a : list float64) : outcome float64 :=
  match a with
  | [] => Raise (ValueError "zero-size array to reduction operation minimum which has no identity")
  | x :: a' => Return (fold_left f_minimum a' x)
  end.

Fixpoint argmin_scan (a : list float64) (i best_i : nat) (best : float64) : nat :=
  match a with
  | [] => best_i
  | x :: a' =>
    if negb (f_is_nan best) && (f_is_nan x || f_ltb x best)
    then argmin_scan a' (S i) i x
    else argmin_scan a' (S i) best_i best
  end.

Definition np_argmin (a : list float64) : outcome nat :=
  match a with
  | [] => Raise (ValueError "attempt to get argmin of an empty sequence")
  | x :: a' => Return (argmin_scan a' 1 0 x)
  end.

(** [np.argmax] of an array of finite floats: the first index of the
    greatest entry. *)
Fixpoint argmax_scan (a : list Q) (i best_i : nat) (best : Q) : nat :=
  match a with
  | [] => best_i
  | x :: a' =>
    if negb (Qle_bool x best) then argmax_scan a' (S i) i x
    else argmax_scan a' (S i) best_i best
  end.

Definition np_argmax (a : list Q) : outcome nat :=
  match a with
  | [] => Raise (ValueError "attempt to get argmax of an empty sequence")
  | x :: a' => Return (argmax_scan a' 1 0 x)
  end.

(** [np.maximum.accumulate]: the running maximum. *)
Fixpoint running_max (current : Q) (a : list Q) : list Q :=
  match a with
  | [] => []
  | x :: a' =>
    let m := if Qle_bool current x then x else current in
    m :: running_max m a'
  end.

Definition np_maximum_accumulate (a : list Q) : list Q :=
  match a with
  | [] => []
  | x :: a' => x :: running_max x a'
  end.

(** Element-wise difference of two arrays. *)
Fixpoint np_subtract (a b : list Q) : list Q :=
  match a, b with
  | x :: a', y :: b' => (x - y) :: np_subtract a' b'
  | _, _ => []
  end.

(** Boolean-mask indexing [a[mask]]. *)
Fixpoint mask_select (a : list Q) (mask : list bool) : list Q :=
  match a, mask with
  | x :: a', m :: mask' => if m then x :: mask_select a' mask' else mask_select a' mask'
  | _, _ => []
  end.

(** [abs] of a float result. *)
Definition f_abs (x : float64) : float64 :=
  match x with
  | Fin a => Fin (Qabs a)
  | PInf | NInf => PInf
  | NaN => NaN
  end.

(** * risk.py: [RiskAnalyzer] *)

Module RiskAnalyzer.
Section RiskAnalyzer.

(** The library functions the class calls and that have no rational
    counterpart: [np.log], [np.sqrt] (on a non-negative argument),
    [scipy.stats.norm.ppf], and the sample that [np.random.normal(mu,
    sigma, size)] draws. *)
Variable np_log : Q -> float64.
Variable np_sqrt : Q -> Q.
Variable norm_ppf : Q -> float64.
Variable np_random_normal : Q -> Q -> N -> list Q.

Definition TRADING_DAYS_PER_YEAR : Q := 252.

Definition calculate_returns (prices : list Q) (method : string) : list float64 :=
  if String.eqb method "log" then f_diff (List.map np_log prices)
  else np_divide (np_diff prices) (removelast prices).

Definition np_std_ddof1 (a : list Q) : float64 :=
  match np_var_ddof1 a with
  | Fin v => Fin (np_sqrt v)
  | other => other
  end.

Definition calculate_volatility (returns : list Q) (annualize : bool) : float64 :=
  let vol := np_std_ddof1 returns in
  if annualize then f_mul vol (Fin (np_sqrt TRADING_DAYS_PER_YEAR)) else vol.

Definition calculate_var (returns : list Q) (confidence_level : Q)
    (method : string) (portfolio_value : Q) : outcome float64 :=
  var ← (if String.eqb method "historical" then
           p ← np_percentile returns ((1 - confidence_level) * 100);
           Return (f_opp p)
         else if String.eqb method "parametric" then
           let mu := np_mean returns in
           let sigma := np_std_ddof1 returns in
           Return (f_opp (f_add mu (f_mul (norm_ppf (1 - confidence_level)) sigma)))
         else if String.eqb method "monte_carlo" then
           match np_mean returns, np_std_ddof1 returns with
           | Fin mu, Fin sigma =>
             let simulated := np_random_normal mu sigma 10000%N in
             p ← np_percentile simulated ((1 - confidence_level) * 100);
             Return (f_opp p)
           | _, _ => Return NaN
           end
         else Raise (ValueError ("Unknown VaR method: " +:+ method)));
  Return (f_mul var (Fin portfolio_value)).

Definition calculate_cvar (returns : list Q) (confidence_level : Q)
    (portfolio_value : Q) : outcome float64 :=
  threshold ← np_percentile returns ((1 - confidence_level) * 100);
  let tail_returns := List.filter (fun r => f_le_q r threshold) returns in
  if (length tail_returns =? 0)%nat then
    calculate_var returns confidence_level "historical" 1
  else
    let cvar := f_opp (np_mean tail_returns) in
    Return (f_mul cvar (Fin portfolio_value)).

Definition calculate_beta (returns benchmark_returns : list Q) : outcome float64 :=
  let '(returns, benchmark_returns) :=
    if negb (length returns =? length benchmark_returns)%nat then
      let min_len := Nat.min (length returns) (length benchmark_returns) in
      (firstn min_len returns, firstn min_len benchmark_returns)
    else (returns, benchmark_returns) in
  covariance ← np_cov01 returns benchmark_returns;
  let benchmark_variance := np_var_ddof1 benchmark_returns in
  if f_is_zero benchmark_variance then Return (Fin 0)
  else Return (f_div covariance benchmark_variance).


(** The attribute [self.risk_free_rate]. *)
Variable risk_free_rate : Q.

(** [beta] is an optional float. *)
Definition calculate_alpha (returns benchmark_returns : list Q)
    (beta : option float64) : outcome float64 :=
  beta ← match beta with
         | None => calculate_beta returns benchmark_returns
         | Some b => Return b
         end;
  let rf_daily := risk_free_rate / TRADING_DAYS_PER_YEAR in
  let portfolio_excess := f_sub (np_mean returns) (Fin rf_daily) in
  let benchmark_excess := f_sub (np_mean benchmark_returns) (Fin rf_daily) in
  let daily_alpha := f_sub portfolio_excess (f_mul beta benchmark_excess) in
  Return (f_mul daily_alpha (Fin TRADING_DAYS_PER_YEAR)).

Definition calculate_max_drawdown (prices : list Q) : outcome (float64 * nat * nat) :=
  let cumulative_max := np_maximum_accumulate prices in
  let drawdowns := np_divide (np_subtract prices cumulative_max) cumulative_max in
  max_dd ← np_min drawdowns;
  trough_idx ← np_argmin drawdowns;
  peak_idx ← np_argmax (firstn (trough_idx + 1) prices);
  Return (max_dd, peak_idx, trough_idx).

Definition calculate_capture_ratios (returns benchmark_returns : list Q)
    : float64 * float64 :=
  let '(returns, benchmark_returns) :=
    if negb (length returns =? length benchmark_returns)%nat then
      let min_len := Nat.min (length returns) (length benchmark_returns) in
      (firstn min_len returns, firstn min_len benchmark_returns)
    else (returns, benchmark_returns) in
  let up_mask := List.map Qpos_bool benchmark_returns in
  let upside_capture :=
    if existsb id up_mask then
      let portfolio_up := np_mean (mask_select returns up_mask) in
      let benchmark_up := np_mean (mask_select benchmark_returns up_mask) in
      f_div (f_add (Fin 1) portfolio_up) (f_add (Fin 1) benchmark_up)
    else Fin 1 in
  let down_mask := List.map (fun b => Qpos_bool (- b)) benchmark_returns in
  let downside_capture :=
    if existsb id down_mask then
      let portfolio_down := np_mean (mask_select returns down_mask) in
      let benchmark_down := np_mean (mask_select benchmark_returns down_mask) in
      f_div (f_add (Fin 1) portfolio_down) (f_add (Fin 1) benchmark_down)
    else Fin 1 in
  (upside_capture, downside_capture).

Definition calculate_sharpe_ratio (returns : list Q) : float64 :=
  let rf_daily := risk_free_rate / TRADING_DAYS_PER_YEAR in
  let excess_returns := List.map (fun r => r - rf_daily) returns in
  let mean_excess := np_mean excess_returns in
  let std_excess := np_std_ddof1 excess_returns in
  if f_is_zero std_excess then Fin 0
  else
    let sharpe := f_div mean_excess std_excess in
    f_mul sharpe (Fin (np_sqrt TRADING_DAYS_PER_YEAR)).

Definition calculate_calmar_ratio (returns prices : list Q) : outcome float64 :=
  let annual_return := f_mul (np_mean returns) (Fin TRADING_DAYS_PER_YEAR) in
  '(max_dd, _, _) ← calculate_max_drawdown prices;
  if f_is_zero max_dd then
    Return (if f_ltb (Fin 0) annual_return then PInf else Fin 0)
  else Return (f_div annual_return (f_abs max_dd)).

Definition calculate_tracking_error (returns benchmark_returns : list Q) : float64 :=
  let '(returns, benchmark_returns) :=
    if negb (length returns =? length benchmark_returns)%nat then
      let min_len := Nat.min (length returns) (length benchmark_returns) in
      (firstn min_len returns, firstn min_len benchmark_returns)
    else (returns, benchmark_returns) in
  let excess_returns := np_subtract returns benchmark_returns in
  let te := np_std_ddof1 excess_returns in
  f_mul te (Fin (np_sqrt TRADING_DAYS_PER_YEAR)).

Definition calculate_information_ratio (returns benchmark_returns : list Q) : float64 :=
  let '(returns, benchmark_returns) :=
    if negb (length returns =? length benchmark_returns)%nat then
      let min_len := Nat.min (length returns) (length benchmark_returns) in
      (firstn min_len returns, firstn min_len benchmark_returns)
    else (returns, benchmark_returns) in
  let excess_returns := np_subtract returns benchmark_returns in
  let mean_excess := np_mean excess_returns in
  let tracking_error := np_std_ddof1 excess_returns in
  if f_is_zero tracking_error then
    (if f_ltb (Fin 0) mean_excess then PInf else Fin 0)
  else
    let ir := f_div mean_excess tracking_error in
    f_mul ir (Fin (np_sqrt TRADING_DAYS_PER_YEAR)).

End RiskAnalyzer.
End RiskAnalyzer.

(** * risk.py over binary64: historical VaR and CVaR

    A second embedding of [calculate_var] (historical method) and of
    [calculate_cvar], in which a float is an IEEE 754 binary64 number: Rocq's
    primitive floats, whose operations round to the nearest value as Python's
    and numpy's do.  It serves to observe what rounding does to the order of
    the two results, which the embedding over the rationals cannot show.
    Arrays are assumed free of [nan]. *)

Module Binary64.
Import PrimFloat.
Local Open Scope float_scope.

(** [float(n)] and [float(z)] for small integers: counting up from zero is
    exact below [2^53]. *)
Fixpoint of_nat (n : nat) : float :=
  match n with
  | O => 0
  | S n' => of_nat n' + 1
  end.

Definition of_Z (z : Z) : float :=
  if (z <? 0)%Z then - of_nat (Z.abs_nat z) else of_nat (Z.to_nat z).


(** [np.sum] of a contiguous array.  numpy adds the items of an array of
    fewer than eight in order, starting from zero; longer arrays are summed
    pairwise in blocks.  This definition keeps the plain order throughout, so
    it is numpy's sum for arrays of up to seven items. *)
Definition np_sum (a : list float) : float := fold_left add a 0.

(** [np.mean]: the sum over the length ([nan] for an empty array). *)
Definition np_mean (a : list float) : float := np_sum a / of_nat (length a).

Fixpoint sort_insert (x : float) (l : list float) : list float :=
  match l with
  | [] => [x]
  | y :: l' => if x <=? y then x :: l else y :: sort_insert x l'
  end.

Fixpoint np_sort (a : list float) : list float :=
  match a with
  | [] => []
  | x :: a' => sort_insert x (np_sort a')
  end.

(** [np.floor] of a virtual index between [0] and [k]. *)
Fixpoint floor_index (v : float) (k : nat) : nat :=
  match k with
  | O => O
  | S k' => if of_nat k <=? v then k else floor_index v k'
  end.

Definition lerp (a b t : float) : float :=
  if 0.5 <=? t then b - (b - a) * (1 - t) else a + (b - a) * t.

(** [np.percentile(a, q)], linear method: an index of [-1] is numpy's
    position of the last item, and [gamma] is taken from the clipped index
    as numpy takes it. *)
Definition np_percentile (a : list float) (q : float) : outcome float :=
  let quantile := q / 100 in
  if negb ((0 <=? quantile) && (quantile <=? 1)) then
    Raise (ValueError "Percentiles must be in the range [0, 100]")
  else
    match a with
    | [] => Raise (IndexError "index -1 is out of bounds for axis 0 with size 0")
    | first :: _ =>
      let arr := np_sort a in
      let last := (length a - 1)%nat in
      let virtual_index := of_nat last * quantile in
      let '(previous_index, next_index) :=
        if of_nat last <=? virtual_index then ((-1)%Z, (-1)%Z)
        else if virtual_index <? 0 then (0%Z, 0%Z)
        else
          let k := Z.of_nat (floor_index virtual_index last) in
          (k, (k + 1)%Z) in
      let position (i : Z) : nat := if (i <? 0)%Z then last else Z.to_nat i in
      let gamma := virtual_index - of_Z previous_index in
      Return (lerp (nth (position previous_index) arr first)
                   (nth (position next_index) arr first) gamma)
    end.

(** [calculate_var] with [method="historical"]. *)
Definition calculate_var_historical (returns : list float)
    (confidence_level portfolio_value : float) : outcome float :=
  p ← np_percentile returns ((1 - confidence_level) * 100);
  let var := - p in
  Return (var * portfolio_value).

Definition calculate_cvar (returns : list float)
    (confidence_level portfolio_value : float) : outcome float :=
  threshold ← np_percentile returns ((1 - confidence_level) * 100);
  let tail_returns := List.filter (fun r => r <=? threshold) returns in
  if (length tail_returns =? 0)%nat then
    calculate_var_historical returns confidence_level 1
  else
    let cvar := - np_mean tail_returns in
    Return (cvar * portfolio_value).

End Binary64.

(** * optimization.py: [PortfolioOptimizer] *)

(** A dictionary built from its items in order, as a display [{k1: v1, ...}]
    or [dict(pairs)] does: later pairs overwrite earlier ones. *)
Definition py_dict {V : Type} (items : list (string * V)) : gmap string V :=
  fold_left (fun d kv => <[kv.1 := kv.2]> d) items ∅.

(** [dict(zip(keys, values))]. *)
Definition dict_zip (keys : list string) (values : list Q) : gmap string Q :=
  py_dict (zip keys values).


(** [np.linspace(start, stop, num)] with the end point included. *)
Definition np_linspace (start stop : Q) (num : Z) : outcome (list Q) :=
  if (num <? 0)%Z then Raise (ValueError "Number of samples must be non-negative")
  else
    let div := (num - 1)%Z in
    let delta := stop - start in
    let step := if (0 <? div)%Z then delta / inject_Z div else delta in
    let y := List.map (fun i => inject_Z (Z.of_nat i) * step + start)
                      (seq 0 (Z.to_nat num)) in
    Return (if (1 <? num)%Z then removelast y ++ [stop] else y).

(** What [scipy.optimize.minimize] is given and what it hands back. *)
Module scipy.

(** A constraint dictionary [{"type": ..., "fun": ...}]. *)
Record Constraint : Type := {
  ctype : string;
  cfun : list Q -> Q;
}.

Record OptimizeResult : Type := {
  x : list Q;
  success : bool;
  message : string;
  nit : Z;
}.

(** [minimize(fun, x0, method, bounds, constraints, maxiter, ftol)]. *)
Definition minimize_t : Type :=
  (list Q -> Q) -> list Q -> string -> list (Q * Q) -> list Constraint ->
  Z -> Q -> OptimizeResult.

End scipy.

Module PortfolioOptimizer.

Inductive OptimizationObjective : Type :=
  | MAX_SHARPE
  | MIN_VARIANCE
  | MAX_RETURN
  | RISK_PARITY
  | TARGET_RETURN
  | TARGET_VOLATILITY.

Record OptimizationConstraints : Type := {
  min_weight : Q;
  max_weight : Q;
  max_sector_weight : option Q;
  max_factor_exposure : option (gmap string Q);
  target_return : option Q;
  target_volatility : option Q;
  long_only : bool;
  max_turnover : option Q;
  min_positions : option Z;
  max_positions : option Z;
}.

(** [OptimizationConstraints(min_weight=.., max_weight=.., long_only=..)],
    every other field at its default. *)
Definition make_constraints (min_w max_w : Q) (long : bool) : OptimizationConstraints :=
  {| min_weight := min_w; max_weight := max_w; max_sector_weight := None;
     max_factor_exposure := None; target_return := None;
     target_volatility := None; long_only := long; max_turnover := None;
     min_positions := None; max_positions := None |}.

(** [OptimizationConstraints()]. *)
Definition default_constraints : OptimizationConstraints := make_constraints 0 1 true.

(** The assignment [cons.target_return = target]. *)
Definition set_target_return (cons : OptimizationConstraints) (target : Q)
    : OptimizationConstraints :=
  {| min_weight := min_weight cons; max_weight := max_weight cons;
     max_sector_weight := max_sector_weight cons;
     max_factor_exposure := max_factor_exposure cons;
     target_return := Some target;
     target_volatility := target_volatility cons; long_only := long_only cons;
     max_turnover := max_turnover cons; min_positions := min_positions cons;
     max_positions := max_positions cons |}.

Record OptimizationResult : Type := {
  weights : gmap string Q;
  expected_return : Q;
  expected_volatility : Q;
  sharpe_ratio : Q;
  success : bool;
  message : string;
  iterations : Z;
}.

(** Truth value of an [Optional[float]] in a condition: [None] and [0.0]
    are false. *)
Definition truthy (v : option Q) : bool :=
  match v with
  | None => false
  | Some q => negb (Qeq_bool q 0)
  end.

(** Python's [max(0, w)]. *)
Definition py_max (a b : Q) : Q := if Qpos_bool (b - a) then b else a.

Section PortfolioOptimizer.

(** [np.sqrt] on a non-negative argument, the solver, and the attribute
    [self.risk_free_rate]. *)
Variable np_sqrt : Q -> Q.
Variable minimize : scipy.minimize_t.
Variable risk_free_rate : Q.

Definition portfolio_variance (cov_matrix : list (list Q)) (w : list Q) : Q :=
  np_dot w (np_matvec cov_matrix w).

(** [np.dot] of two vectors needs equal lengths, and of a matrix with a
    vector as many columns as the vector has entries: otherwise it raises
    [ValueError].  These are the shapes the three products of
    [calculate_portfolio_stats] need. *)
Definition shapes_aligned (w expected_returns : list Q) (cov_matrix : list (list Q))
    : bool :=
  (length expected_returns =? length w)%nat
  && (length cov_matrix =? length w)%nat
  && forallb (fun row => (length row =? length w)%nat) cov_matrix.

Definition calculate_portfolio_stats (w expected_returns : list Q)
    (cov_matrix : list (list Q)) : outcome (Q * Q * Q) :=
  if negb (shapes_aligned w expected_returns cov_matrix) then
    Raise (ValueError "shapes not aligned")
  else
    let portfolio_return := np_dot w expected_returns in
    let portfolio_vol := np_sqrt (portfolio_variance cov_matrix w) in
    let sharpe :=
      if Qeq_bool portfolio_vol 0 then 0
      else (portfolio_return - risk_free_rate) / portfolio_vol in
    Return (portfolio_return, portfolio_vol, sharpe).

(** The per-asset bounds. *)
Definition bounds (n_assets : nat) (constraints : OptimizationConstraints) : list (Q * Q) :=
  if long_only constraints then
    repeat (py_max 0 (min_weight constraints), max_weight constraints) n_assets
  else repeat (min_weight constraints, max_weight constraints) n_assets.

(** The constraint list handed to the solver: the budget constraint, then
    the target constraints guarded as in the source. *)
Definition budget_constraint : scipy.Constraint :=
  {| scipy.ctype := "eq"; scipy.cfun := fun x => np_sum x - 1 |}.

Definition return_constraint (expected_returns : list Q) (target : Q) : scipy.Constraint :=
  {| scipy.ctype := "eq"; scipy.cfun := fun x => np_dot x expected_returns - target |}.

Definition volatility_constraint (cov_matrix : list (list Q)) (target : Q)
    : scipy.Constraint :=
  {| scipy.ctype := "eq";
     scipy.cfun := fun x => np_sqrt (portfolio_variance cov_matrix x) - target |}.

Definition opt_constraints (expected_returns : list Q) (cov_matrix : list (list Q))
    (objective : OptimizationObjective) (constraints : OptimizationConstraints)
    : list scipy.Constraint :=
  [budget_constraint]
  ++ (match objective, target_return constraints with
      | TARGET_RETURN, Some target =>
        if truthy (target_return constraints)
        then [return_constraint expected_returns target] else []
      | _, _ => []
      end)
  ++ (match objective, target_volatility constraints with
      | TARGET_VOLATILITY, Some target =>
        if truthy (target_volatility constraints)
        then [volatility_constraint cov_matrix target] else []
      | _, _ => []
      end).

Definition neg_sharpe (expected_returns : list Q) (cov_matrix : list (list Q))
    (w : list Q) : Q :=
  let ret := np_dot w expected_returns in
  let vol := np_sqrt (portfolio_variance cov_matrix w) in
  if Qeq_bool vol 0 then 0 else - (ret - risk_free_rate) / vol.

Definition neg_return (expected_returns : list Q) (w : list Q) : Q :=
  - np_dot w expected_returns.

(** The objective function, or [ValueError] for an unsupported objective. *)
Definition obj_func (expected_returns : list Q) (cov_matrix : list (list Q))
    (objective : OptimizationObjective) : outcome (list Q -> Q) :=
  match objective with
  | MAX_SHARPE => Return (neg_sharpe expected_returns cov_matrix)
  | MIN_VARIANCE => Return (portfolio_variance cov_matrix)
  | MAX_RETURN => Return (neg_return expected_returns)
  | TARGET_RETURN | TARGET_VOLATILITY => Return (portfolio_variance cov_matrix)
  | RISK_PARITY => Raise (ValueError "Unsupported objective: OptimizationObjective.RISK_PARITY")
  end.

(** [[1.0 / n_assets] * n_assets]: the division is evaluated first. *)
Definition init_weights (n_assets : nat) : outcome (list Q) :=
  if (n_assets =? 0)%nat then Raise ZeroDivisionError
  else Return (repeat (1 / inject_Z (Z.of_nat n_assets)) n_assets).

Definition mean_variance_optimization (symbols : list string)
    (expected_returns : list Q) (cov_matrix : list (list Q))
    (objective : OptimizationObjective)
    (constraints : option OptimizationConstraints) : outcome OptimizationResult :=
  let n_assets := length symbols in
  let constraints := default default_constraints constraints in
  w0 ← init_weights n_assets;
  let bnds := bounds n_assets constraints in
  let cons := opt_constraints expected_returns cov_matrix objective constraints in
  f ← obj_func expected_returns cov_matrix objective;
  let result := minimize f w0 "SLSQP" bnds cons 1000%Z (1 # 1000000000) in
  if scipy.success result then
    let optimal_weights := scipy.x result in
    '(exp_ret, exp_vol, sharpe) ←
      calculate_portfolio_stats optimal_weights expected_returns cov_matrix;
    Return {| weights := dict_zip symbols optimal_weights;
              expected_return := exp_ret;
              expected_volatility := exp_vol;
              sharpe_ratio := sharpe;
              success := true;
              message := "Optimization successful";
              iterations := scipy.nit result |}
  else
    Return {| weights := dict_zip symbols w0;
              expected_return := 0;
              expected_volatility := 0;
              sharpe_ratio := 0;
              success := false;
              message := scipy.message result;
              iterations := scipy.nit result |}.

(** The solver invocation of a call of [mean_variance_optimization]: the
    function above up to [optimize.minimize], giving what the solver
    answers when the call gets that far. *)
Definition solver_call (symbols : list string) (expected_returns : list Q)
    (cov_matrix : list (list Q)) (objective : OptimizationObjective)
    (constraints : option OptimizationConstraints) : outcome scipy.OptimizeResult :=
  let n_assets := length symbols in
  let constraints := default default_constraints constraints in
  w0 ← init_weights n_assets;
  f ← obj_func expected_returns cov_matrix objective;
  Return (minimize f w0 "SLSQP" (bounds n_assets constraints)
            (opt_constraints expected_returns cov_matrix objective constraints)
            1000%Z (1 # 1000000000)).

(** The loop body of [efficient_frontier]: solve for one target and keep
    the result when the solve succeeded. *)
Definition frontier_step (symbols : list string) (expected_returns : list Q)
    (cov_matrix : list (list Q)) (constraints : option OptimizationConstraints)
    (frontier : list OptimizationResult) (target : Q)
    : outcome (list OptimizationResult) :=
  let cons :=
    match constraints with
    | None => default_constraints
    | Some c => make_constraints (min_weight c) (max_weight c) (long_only c)
    end in
  let cons := set_target_return cons target in
  result ← mean_variance_optimization symbols expected_returns cov_matrix
             TARGET_RETURN (Some cons);
  Return (if success result then frontier ++ [result] else frontier).

Fixpoint frontier_loop (symbols : list string) (expected_returns : list Q)
    (cov_matrix : list (list Q)) (constraints : option OptimizationConstraints)
    (frontier : list OptimizationResult) (target_returns : list Q)
    : outcome (list OptimizationResult) :=
  match target_returns with
  | [] => Return frontier
  | target :: rest =>
    frontier' ← frontier_step symbols expected_returns cov_matrix constraints
                  frontier target;
    frontier_loop symbols expected_returns cov_matrix constraints frontier' rest
  end.

Definition efficient_frontier (symbols : list string) (expected_returns : list Q)
    (cov_matrix : list (list Q)) (n_points : Z)
    (constraints : option OptimizationConstraints)
    : outcome (list OptimizationResult) :=
  min_ret_result ← mean_variance_optimization symbols expected_returns cov_matrix
                     MIN_VARIANCE constraints;
  max_ret_result ← mean_variance_optimization symbols expected_returns cov_matrix
                     MAX_RETURN constraints;
  let min_ret := expected_return min_ret_result in
  let max_ret := expected_return max_ret_result in
  if Qle_bool max_ret min_ret then Return [min_ret_result]
  else
    target_returns ← np_linspace min_ret max_ret n_points;
    frontier_loop symbols expected_returns cov_matrix constraints [] target_returns.



End PortfolioOptimizer.
End PortfolioOptimizer.

(** * attribution.py: [AttributionAnalyzer] *)

(** Python's built-in [sum] over floats, and [d.get(key, 0.0)]. *)
Definition py_sum (l : list Q) : Q := fold_left Qplus l 0.

Definition dict_get (d : gmap string Q) (key : string) : Q := default 0 (d !! key).

Module AttributionAnalyzer.

Record SectorAttribution : Type := {
  sector : string;
  portfolio_weight : Q;
  benchmark_weight : Q;
  portfolio_return : Q;
  benchmark_return : Q;
  allocation_effect : Q;
  selection_effect : Q;
  interaction_effect : Q;
  total_effect : Q;
}.

(** [set(portfolio_weights.keys()) | set(benchmark_weights.keys())]. *)
Definition all_sectors (portfolio_weights benchmark_weights : gmap string Q)
    : gset string :=
  dom portfolio_weights ∪ dom benchmark_weights.

Definition total_benchmark_return (portfolio_weights benchmark_weights
    benchmark_returns : gmap string Q) : Q :=
  py_sum (List.map (fun s => dict_get benchmark_weights s * dict_get benchmark_returns s)
                   (elements (all_sectors portfolio_weights benchmark_weights))).

Definition calculate_brinson_fachler_attribution
    (portfolio_weights benchmark_weights portfolio_returns benchmark_returns
       : gmap string Q) : list SectorAttribution :=
  let total_bench :=
    total_benchmark_return portfolio_weights benchmark_weights benchmark_returns in
  List.map
    (fun sector =>
       let pw := dict_get portfolio_weights sector in
       let bw := dict_get benchmark_weights sector in
       let pr := dict_get portfolio_returns sector in
       let br := dict_get benchmark_returns sector in
       let allocation := (pw - bw) * (br - total_bench) in
       let selection := bw * (pr - br) in
       let interaction := (pw - bw) * (pr - br) in
       let total := allocation + selection + interaction in
       {| sector := sector;
          portfolio_weight := pw;
          benchmark_weight := bw;
          portfolio_return := pr;
          benchmark_return := br;
          allocation_effect := allocation;
          selection_effect := selection;
          interaction_effect := interaction;
          total_effect := total |})
    (elements (all_sectors portfolio_weights benchmark_weights)).


Section Analyzer.

(** The attributes [self.risk_free_rate] and [self.trading_days_per_year]. *)
Variable risk_free_rate : Q.
Definition trading_days_per_year : Q := 252.

Definition calculate_alpha_beta_decomposition (portfolio_returns benchmark_returns : list Q)
    : outcome (float64 * float64 * float64) :=
  let '(portfolio_returns, benchmark_returns) :=
    if negb (length portfolio_returns =? length benchmark_returns)%nat then
      let min_len := Nat.min (length portfolio_returns) (length benchmark_returns) in
      (firstn min_len portfolio_returns, firstn min_len benchmark_returns)
    else (portfolio_returns, benchmark_returns) in
  covariance ← np_cov01 portfolio_returns benchmark_returns;
  let benchmark_variance := np_var_ddof1 benchmark_returns in
  let beta :=
    if f_is_zero benchmark_variance then Fin 0
    else f_div covariance benchmark_variance in
  let rf_daily := risk_free_rate / trading_days_per_year in
  let portfolio_excess := f_sub (np_mean portfolio_returns) (Fin rf_daily) in
  let benchmark_excess := f_sub (np_mean benchmark_returns) (Fin rf_daily) in
  let daily_alpha := f_sub portfolio_excess (f_mul beta benchmark_excess) in
  let alpha := f_mul daily_alpha (Fin trading_days_per_year) in
  let beta_contribution :=
    f_mul (f_mul beta (np_mean benchmark_returns)) (Fin trading_days_per_year) in
  Return (alpha, beta, beta_contribution).

End Analyzer.

(** The inner loop of [calculate_timing_contribution], over the sectors of
    the current weights. *)
Definition timing_period (current_weights prev_weights returns : gmap string Q)
    (timing_contribution : Q) : Q :=
  fold_left
    (fun acc sector =>
       let weight_change := dict_get current_weights sector - dict_get prev_weights sector in
       let sector_return := dict_get returns sector in
       acc + weight_change * sector_return)
    (List.map fst (map_to_list current_weights)) timing_contribution.

(** One turn of the outer loop; [None] stands for the [IndexError] of
    [sector_returns_series[i]]. *)
Definition timing_step (portfolio_weights_series sector_returns_series : list (gmap string Q))
    (acc : option Q) (i : nat) : option Q :=
  timing_contribution ← acc;
  current_weights ← portfolio_weights_series !! i;
  prev_weights ← portfolio_weights_series !! (i - 1)%nat;
  returns ← sector_returns_series !! i;
  Some (timing_period current_weights prev_weights returns timing_contribution).

Definition calculate_timing_contribution
    (portfolio_weights_series sector_returns_series : list (gmap string Q)) : option Q :=
  if (length portfolio_weights_series <? 2)%nat then Some 0
  else
    fold_left (timing_step portfolio_weights_series sector_returns_series)
              (seq 1 (length portfolio_weights_series - 1)) (Some 0).

(** Trades are triples [(symbol, shares, cost_per_share)]. *)
Definition calculate_transaction_cost_impact (trades : list (string * Q * Q))
    (total_nav : Q) : Q :=
  if Qeq_bool total_nav 0 then 0
  else
    let total_cost := py_sum (List.map (fun t => Qabs (t.1.2) * t.2) trades) in
    - total_cost / total_nav.

End AttributionAnalyzer.

(** * stress_testing.py: scenarios and [StressTestEngine] *)

(** [d.update(other)]: the entries of [other] win. *)
Definition dict_update {V : Type} (d other : gmap string V) : gmap string V := other ∪ d.

Module StressTestEngine.

Inductive ScenarioType : Type :=
  | HISTORICAL
  | HYPOTHETICAL
  | CUSTOM.

Record date : Type := { year : Z; month : Z; day : Z }.

Record Scenario : Type := {
  name : string;
  scenario_type : ScenarioType;
  description : string;
  equity_shock : Q;
  rates_shock_bps : Q;
  credit_spread_shock_bps : Q;
  fx_shocks : gmap string Q;
  commodity_shocks : gmap string Q;
  volatility_shock : Q;
  start_date : option date;
  end_date : option date;
}.

Definition period (y1 m1 d1 y2 m2 d2 : Z) : option date * option date :=
  (Some {| year := y1; month := m1; day := d1 |},
   Some {| year := y2; month := m2; day := d2 |}).

Definition no_period : option date * option date := (None, None).

(** A scenario with its keyword arguments in the order of the fields. *)
Definition scenario (nm : string) (ty : ScenarioType) (descr : string)
    (equity rates credit : Q) (fx commodity : list (string * Q)) (vol : Q)
    (dates : option date * option date) : Scenario :=
  {| name := nm; scenario_type := ty; description := descr;
     equity_shock := equity; rates_shock_bps := rates;
     credit_spread_shock_bps := credit;
     fx_shocks := py_dict fx; commodity_shocks := py_dict commodity;
     volatility_shock := vol;
     start_date := dates.1; end_date := dates.2 |}.

Definition HISTORICAL_SCENARIOS : gmap string Scenario := py_dict [
  ("GFC_2008",
   scenario "Global Financial Crisis 2008" HISTORICAL
     "Sept-Nov 2008 financial crisis period"
     (-0.45) (-200) 500 [] [] 60 (period 2008 9 15 2008 11 20));
  ("COVID_2020",
   scenario "COVID Crash 2020" HISTORICAL "Feb-Mar 2020 pandemic crash"
     (-0.35) (-150) 350 [] [] 65 (period 2020 2 19 2020 3 23));
  ("DOTCOM_2000",
   scenario "Dot-Com Crash 2000" HISTORICAL "Tech bubble burst 2000-2002"
     (-0.50) (-300) 200 [] [] 30 (period 2000 3 10 2002 10 9));
  ("INFLATION_2022",
   scenario "Inflation Spike 2022" HISTORICAL
     "2022 inflation and rate hiking cycle"
     (-0.25) 300 150 [] [] 15 (period 2022 1 1 2022 10 12));
  ("FED_TAPER_2013",
   scenario "Taper Tantrum 2013" HISTORICAL "Fed tightening announcement shock"
     (-0.08) 100 50 [] [] 8 (period 2013 5 22 2013 8 30));
  ("OIL_CRASH_2014",
   scenario "Oil Price Crash 2014-2015" HISTORICAL
     "Oil price collapse from $100+ to below $30"
     (-0.10) (-50) 200 [] [("OIL", -0.70); ("NATURAL_GAS", -0.30)] 0
     (period 2014 6 20 2016 2 11));
  ("CHINA_DEVALUATION_2015",
   scenario "China Devaluation 2015" HISTORICAL
     "China CNY devaluation and growth concerns"
     (-0.12) (-25) 100 [("USD/CNY", 0.05); ("USD/EUR", -0.03)] [] 0
     (period 2015 8 11 2016 2 11))
].

Definition HYPOTHETICAL_SCENARIOS : gmap string Scenario := py_dict [
  ("RATES_UP_200",
   scenario "Rates +200bps" HYPOTHETICAL
     "Parallel shift up in rates by 200 basis points"
     (-0.10) 200 50 [] [] 0 no_period);
  ("RATES_DOWN_200",
   scenario "Rates -200bps" HYPOTHETICAL
     "Parallel shift down in rates by 200 basis points"
     0.05 (-200) (-25) [] [] 0 no_period);
  ("EQUITY_VOL_40",
   scenario "Equity Vol +40" HYPOTHETICAL "VIX spike to 40"
     (-0.15) 0 100 [] [] 40 no_period);
  ("EQUITY_VOL_80",
   scenario "Equity Vol +80" HYPOTHETICAL "VIX spike to 80 (crisis level)"
     (-0.30) 0 250 [] [] 80 no_period);
  ("EQUITY_VOL_120",
   scenario "Equity Vol +120" HYPOTHETICAL "VIX spike to 120 (extreme crisis)"
     (-0.45) 0 500 [] [] 120 no_period);
  ("CREDIT_CRISIS",
   scenario "Credit Crisis" HYPOTHETICAL "Major credit spread widening"
     (-0.20) (-100) 400 [] [] 0 no_period);
  ("STAGFLATION",
   scenario "Stagflation" HYPOTHETICAL "High inflation with weak growth"
     (-0.25) 150 200 [] [("OIL", 0.40); ("GOLD", 0.20)] 0 no_period);
  ("USD_CRISIS",
   scenario "USD Crisis" HYPOTHETICAL "Major USD weakness"
     (-0.10) 50 0 [("USD/EUR", -0.15); ("USD/JPY", -0.10); ("USD/GBP", -0.12)] [] 0
     no_period);
  ("EM_CONTAGION",
   scenario "EM Contagion" HYPOTHETICAL "Emerging market crisis with contagion"
     (-0.20) (-50) 300 [("USD/BRL", 0.25); ("USD/MXN", 0.20); ("USD/ZAR", 0.30)] [] 0
     no_period);
  ("COMMODITY_CRASH",
   scenario "Commodity Crash" HYPOTHETICAL "Broad commodity price collapse"
     (-0.15) (-100) 0 [] [("OIL", -0.40); ("COPPER", -0.30); ("IRON_ORE", -0.35)] 0
     no_period)
].

(** The engine's state: the attribute [self.scenarios]. *)
Record t : Type := { scenarios : gmap string Scenario }.

Definition _load_default_scenarios (self : t) : t :=
  let self := {| scenarios := dict_update (scenarios self) HISTORICAL_SCENARIOS |} in
  {| scenarios := dict_update (scenarios self) HYPOTHETICAL_SCENARIOS |}.

Definition __init__ : t := _load_default_scenarios {| scenarios := ∅ |}.

Definition add_scenario (self : t) (key : string) (sc : Scenario) : t :=
  {| scenarios := <[key := sc]> (scenarios self) |}.

Definition get_scenario (self : t) (key : string) : option Scenario :=
  scenarios self !! key.

(** One turn of the loop over [positions.items()]. *)
Definition equity_step (equity_shock : Q) (acc : Q * gmap string Q)
    (item : string * (Q * Q)) : Q * gmap string Q :=
  let '(symbol, (value, beta)) := item in
  let impact := value * beta * equity_shock in
  (acc.1 + impact, <[symbol := impact]> acc.2).

Definition calculate_equity_impact (positions : gmap string (Q * Q))
    (equity_shock : Q) : Q * gmap string Q :=
  fold_left (equity_step equity_shock) (map_to_list positions) (0, ∅).



(** One turn of the loop of [calculate_fixed_income_impact]; positions are
    triples [(value, duration, convexity)]. *)
Definition fixed_income_step (total_shock_decimal : Q) (acc : Q * gmap string Q)
    (item : string * (Q * Q * Q)) : Q * gmap string Q :=
  let '(symbol, (value, duration, convexity)) := item in
  let duration_impact := - duration * total_shock_decimal * value in
  let convexity_impact := 0.5 * convexity * (total_shock_decimal ^ 2) * value in
  let impact := duration_impact + convexity_impact in
  (acc.1 + impact, <[symbol := impact]> acc.2).

Definition calculate_fixed_income_impact (positions : gmap string (Q * Q * Q))
    (rates_shock_bps credit_spread_shock_bps : Q) : Q * gmap string Q :=
  let total_shock_decimal := (rates_shock_bps + credit_spread_shock_bps) / 10000 in
  fold_left (fixed_income_step total_shock_decimal) (map_to_list positions) (0, ∅).

Definition fx_step (fx_shocks : gmap string Q) (acc : Q * gmap string Q)
    (item : string * Q) : Q * gmap string Q :=
  let '(ccy_pair, exposure) := item in
  let shock := dict_get fx_shocks ccy_pair in
  let impact := exposure * shock in
  (acc.1 + impact, <[ccy_pair := impact]> acc.2).

Definition calculate_fx_impact (exposures fx_shocks : gmap string Q) : Q * gmap string Q :=
  fold_left (fx_step fx_shocks) (map_to_list exposures) (0, ∅).

Definition commodity_step (commodity_shocks : gmap string Q) (acc : Q * gmap string Q)
    (item : string * Q) : Q * gmap string Q :=
  let '(commodity, exposure) := item in
  let shock := dict_get commodity_shocks commodity in
  let impact := exposure * shock in
  (acc.1 + impact, <[commodity := impact]> acc.2).

Definition calculate_commodity_impact (exposures commodity_shocks : gmap string Q)
    : Q * gmap string Q :=
  fold_left (commodity_step commodity_shocks) (map_to_list exposures) (0, ∅).

Module ScenarioResult.
Record t : Type := {
  scenario : Scenario;
  portfolio_impact : Q;
  equity_impact : Q;
  fixed_income_impact : Q;
  fx_impact : Q;
  commodity_impact : Q;
  position_impacts : gmap string Q;
  risk_metrics_change : gmap string Q;
}.
End ScenarioResult.

(** Truth value of a dictionary, and of an optional one ([None] and the
    empty dictionary are false). *)
Definition dict_truthy {V : Type} (d : gmap string V) : bool := negb (size d =? 0)%nat.

Definition optional_dict_truthy {V : Type} (d : option (gmap string V)) : bool :=
  match d with
  | Some d => dict_truthy d
  | None => false
  end.

Definition run_scenario (sc : Scenario)
    (equity_positions : option (gmap string (Q * Q)))
    (fixed_income_positions : option (gmap string (Q * Q * Q)))
    (fx_exposures commodity_exposures : option (gmap string Q)) : ScenarioResult.t :=
  let position_impacts : gmap string Q := ∅ in
  let '(equity_impact, position_impacts) :=
    match equity_positions with
    | Some positions =>
      if dict_truthy positions then
        let '(impact, eq_positions) := calculate_equity_impact positions (equity_shock sc) in
        (impact, dict_update position_impacts eq_positions)
      else (0, position_impacts)
    | None => (0, position_impacts)
    end in
  let '(fi_impact, position_impacts) :=
    match fixed_income_positions with
    | Some positions =>
      if dict_truthy positions then
        let '(impact, fi_positions) :=
          calculate_fixed_income_impact positions (rates_shock_bps sc)
            (credit_spread_shock_bps sc) in
        (impact, dict_update position_impacts fi_positions)
      else (0, position_impacts)
    | None => (0, position_impacts)
    end in
  let '(fx_impact, position_impacts) :=
    match fx_exposures with
    | Some exposures =>
      if dict_truthy exposures && dict_truthy (fx_shocks sc) then
        let '(impact, fx_positions) := calculate_fx_impact exposures (fx_shocks sc) in
        (impact, dict_update position_impacts fx_positions)
      else (0, position_impacts)
    | None => (0, position_impacts)
    end in
  let '(commodity_impact, position_impacts) :=
    match commodity_exposures with
    | Some exposures =>
      if dict_truthy exposures && dict_truthy (commodity_shocks sc) then
        let '(impact, comm_positions) :=
          calculate_commodity_impact exposures (commodity_shocks sc) in
        (impact, dict_update position_impacts comm_positions)
      else (0, position_impacts)
    | None => (0, position_impacts)
    end in
  let total_impact := equity_impact + fi_impact + fx_impact + commodity_impact in
  {| ScenarioResult.scenario := sc;
     ScenarioResult.portfolio_impact := total_impact;
     ScenarioResult.equity_impact := equity_impact;
     ScenarioResult.fixed_income_impact := fi_impact;
     ScenarioResult.fx_impact := fx_impact;
     ScenarioResult.commodity_impact := commodity_impact;
     ScenarioResult.position_impacts := position_impacts;
     ScenarioResult.risk_metrics_change := ∅ |}.

Definition scenario_type_eqb (a b : ScenarioType) : bool :=
  match a, b with
  | HISTORICAL, HISTORICAL | HYPOTHETICAL, HYPOTHETICAL | CUSTOM, CUSTOM => true
  | _, _ => false
  end.

(** The keys of the catalog, all of them or those of one type.  The order
    of a Python dictionary (insertion order) is not kept by the model: the
    keys come in the order of [map_to_list]. *)
Definition list_scenarios (self : t) (ty : option ScenarioType) : list string :=
  match ty with
  | None => List.map fst (map_to_list (scenarios self))
  | Some ty =>
    List.map fst
      (List.filter (fun kv => scenario_type_eqb (scenario_type kv.2) ty)
                   (map_to_list (scenarios self)))
  end.

(** [self.scenarios[key]] raises [KeyError] for a missing key: [None] here. *)
Fixpoint run_keys (self : t) (keys : list string)
    (equity_positions : option (gmap string (Q * Q)))
    (fixed_income_positions : option (gmap string (Q * Q * Q)))
    (fx_exposures commodity_exposures : option (gmap string Q))
    : option (list ScenarioResult.t) :=
  match keys with
  | [] => Some []
  | key :: keys' =>
    sc ← scenarios self !! key;
    let result := run_scenario sc equity_positions fixed_income_positions
                    fx_exposures commodity_exposures in
    results ← run_keys self keys' equity_positions fixed_income_positions
                fx_exposures commodity_exposures;
    Some (result :: results)
  end.

Definition run_all_scenarios (self : t)
    (equity_positions : option (gmap string (Q * Q)))
    (fixed_income_positions : option (gmap string (Q * Q * Q)))
    (fx_exposures commodity_exposures : option (gmap string Q))
    (ty : option ScenarioType) : option (list ScenarioResult.t) :=
  run_keys self (list_scenarios self ty) equity_positions fixed_income_positions
    fx_exposures commodity_exposures.

End StressTestEngine.

(** * optimization.py: [LiquidityAnalyzer] *)

Module LiquidityAnalyzer.

Definition BASIS_POINTS_PER_UNIT : Q := 10000.

(** The dictionary that [estimate_market_impact] returns. *)
Record MarketImpact : Type := {
  pct_adv : float64;
  days_to_trade : float64;
  spread_cost_bps : Q;
  market_impact_bps : float64;
  total_cost_bps : float64;
}.

(** The dictionary that [calculate_liquidity_score] returns. *)
Record LiquidityScore : Type := {
  weighted_pct_adv : Q;
  max_pct_adv : Q;
  days_to_liquidate_100pct : Q;
  days_to_liquidate_10pct_participation : float64;
  liquidity_score : Z;
}.

(** [p != float("inf")] keeps an entry; the entries built below are finite
    or [inf]. *)
Fixpoint finite_entries (pct_advs : list (Q * float64)) : list (Q * Q) :=
  match pct_advs with
  | [] => []
  | (w, Fin p) :: rest => (w, p) :: finite_entries rest
  | _ :: rest => finite_entries rest
  end.

(** Python's [max(iterable, default=d)]: the first of the greatest items. *)
Definition py_max_default (l : list Q) (d : Q) : Q :=
  match l with
  | [] => d
  | x :: l' => fold_left (fun m y => if negb (Qle_bool y m) then y else m) l' x
  end.

Section LiquidityAnalyzer.

(** [np.sqrt] on a non-negative argument. *)
Variable np_sqrt : Q -> Q.

(** The share counts are Python integers and the rates floats: the two
    divisions raise [ZeroDivisionError] on a zero divisor, and [np.sqrt] of a
    negative number is [nan].  Share counts beyond the range of a float,
    for which the divisions raise [OverflowError], are outside the
    embedding. *)
Definition estimate_market_impact (shares_to_trade adv : Z)
    (spread_bps volatility participation_rate : Q) : outcome MarketImpact :=
  if (adv =? 0)%Z then
    Return {| pct_adv := PInf;
              days_to_trade := PInf;
              spread_cost_bps := spread_bps;
              market_impact_bps := Fin 0;
              total_cost_bps := Fin spread_bps |}
  else
    let pct := inject_Z shares_to_trade / inject_Z adv in
    if Qeq_bool (inject_Z adv * participation_rate) 0 then Raise ZeroDivisionError
    else
      let days := inject_Z shares_to_trade / (inject_Z adv * participation_rate) in
      let impact :=
        if Qle_bool 0 pct then Fin (volatility * np_sqrt pct * BASIS_POINTS_PER_UNIT)
        else NaN in
      let total := f_add (Fin (spread_bps / 2)) impact in
      Return {| pct_adv := Fin pct;
                days_to_trade := Fin days;
                spread_cost_bps := spread_bps / 2;
                market_impact_bps := impact;
                total_cost_bps := total |}.

End LiquidityAnalyzer.

(** The answer for a portfolio without positions or without value. *)
Definition fully_liquid : LiquidityScore :=
  {| weighted_pct_adv := 0;
     max_pct_adv := 0;
     days_to_liquidate_100pct := 0;
     days_to_liquidate_10pct_participation := Fin 0;
     liquidity_score := 100 |}.

(** One turn of the loop over the positions: the weight of the position and
    its value as a fraction of the daily volume. *)
Definition pct_adv_entry (total_value : Q) (position : Q * Z) : Q * float64 :=
  let '(value, adv) := position in
  if (0 <? adv)%Z then (value / total_value, Fin (value / inject_Z adv))
  else (value / total_value, PInf).

Definition score_of (weighted_pct_adv : Q) : Z :=
  if Qeq_bool weighted_pct_adv 0 then 100
  else if negb (Qle_bool 0.01 weighted_pct_adv) then 95
  else if negb (Qle_bool 0.05 weighted_pct_adv) then 80
  else if negb (Qle_bool 0.10 weighted_pct_adv) then 60
  else if negb (Qle_bool 0.25 weighted_pct_adv) then 40
  else 20.

(** The sums and quotients are exact here; in floating point the weighted
    fraction is rounded, which matters next to a threshold of the score. *)
Definition calculate_liquidity_score (positions : gmap string (Q * Z)) : LiquidityScore :=
  if (size positions =? 0)%nat then fully_liquid
  else
    let total_value := py_sum (List.map (fun kv => kv.2.1) (map_to_list positions)) in
    if Qeq_bool total_value 0 then fully_liquid
    else
      let pct_advs :=
        List.map (fun kv => pct_adv_entry total_value kv.2) (map_to_list positions) in
      let weighted := py_sum (List.map (fun wp => wp.1 * wp.2) (finite_entries pct_advs)) in
      let max_pct := py_max_default (List.map snd (finite_entries pct_advs)) 0 in
      let days_100pct := max_pct in
      let days_10pct :=
        if f_ltb (Fin days_100pct) PInf then Fin (days_100pct / 0.10) else PInf in
      {| weighted_pct_adv := weighted;
         max_pct_adv := max_pct;
         days_to_liquidate_100pct := days_100pct;
         days_to_liquidate_10pct_participation := days_10pct;
         liquidity_score := score_of weighted |}.

(** The score of one position from the hedge-fund ownership of its symbol. *)
Definition crowding_score (hf_ownership : Q) : Z :=
  if negb (Qle_bool hf_ownership 0.30) then 90
  else if negb (Qle_bool hf_ownership 0.20) then 70
  else if negb (Qle_bool hf_ownership 0.10) then 50
  else if negb (Qle_bool hf_ownership 0.05) then 30
  else 10.

Definition crowding_step (hedge_fund_ownership : gmap string Q)
    (crowding_scores : gmap string Z) (item : string * Q) : gmap string Z :=
  let hf_ownership := dict_get hedge_fund_ownership item.1 in
  <[item.1 := crowding_score hf_ownership]> crowding_scores.

Definition crowding_analysis (portfolio_positions hedge_fund_ownership : gmap string Q)
    : gmap string Z :=
  fold_left (crowding_step hedge_fund_ownership) (map_to_list portfolio_positions) ∅.

End LiquidityAnalyzer.

(** * attribution.py: [IdeaTracker] *)

Module IdeaTracker.

Record Idea : Type := {
  id : string;
  symbol : string;
  thesis : string;
  catalysts : list string;
  kpis : gmap string Q;
  conviction : Z;
  entry_date : option StressTestEngine.date;
  entry_price : option Q;
  target_price : option Q;
  stop_price : option Q;
  current_price : option Q;
  status : string;
  analyst : option string;
  notes : string;
}.

(** The assignment [idea.current_price = price]. *)
Definition set_current_price (idea : Idea) (price : Q) : Idea :=
  {| id := id idea; symbol := symbol idea; thesis := thesis idea;
     catalysts := catalysts idea; kpis := kpis idea; conviction := conviction idea;
     entry_date := entry_date idea; entry_price := entry_price idea;
     target_price := target_price idea; stop_price := stop_price idea;
     current_price := Some price;
     status := status idea; analyst := analyst idea; notes := notes idea |}.

(** The three properties: a price that is [None] or [0.0] is false in a
    condition. *)
Definition return_pct (self : Idea) : option Q :=
  match entry_price self, current_price self with
  | Some entry, Some current =>
    if PortfolioOptimizer.truthy (Some entry) && PortfolioOptimizer.truthy (Some current)
    then Some ((current - entry) / entry) else None
  | _, _ => None
  end.

Definition upside_pct (self : Idea) : option Q :=
  match target_price self, current_price self with
  | Some target, Some current =>
    if PortfolioOptimizer.truthy (Some target) && PortfolioOptimizer.truthy (Some current)
    then Some ((target - current) / current) else None
  | _, _ => None
  end.

Definition risk_reward_ratio (self : Idea) : option Q :=
  match entry_price self, target_price self, stop_price self with
  | Some entry, Some target, Some stop =>
    if PortfolioOptimizer.truthy (Some entry) && PortfolioOptimizer.truthy (Some target)
       && PortfolioOptimizer.truthy (Some stop)
    then
      let upside := target - entry in
      let downside := entry - stop in
      if Qpos_bool downside then Some (upside / downside) else None
    else None
  | _, _, _ => None
  end.

Record t : Type := { ideas : gmap string Idea }.

Definition __init__ : t := {| ideas := ∅ |}.

Definition add_idea (self : t) (idea : Idea) : t :=
  {| ideas := <[id idea := idea]> (ideas self) |}.

Definition get_idea (self : t) (idea_id : string) : option Idea := ideas self !! idea_id.

(** The loop assigns to each stored idea in place: every value of the
    dictionary is replaced by its updated version. *)
Definition update_idea (prices : gmap string Q) (idea : Idea) : Idea :=
  match prices !! symbol idea with
  | Some price => set_current_price idea price
  | None => idea
  end.

Definition update_prices (self : t) (prices : gmap string Q) : t :=
  {| ideas := update_idea prices <$> ideas self |}.

(** The two listings, in the order of [map_to_list] (the insertion order of
    the Python dictionary is not kept). *)
Definition get_active_ideas (self : t) : list Idea :=
  List.filter (fun i => String.eqb (status i) "active")
    (List.map snd (map_to_list (ideas self))).

Definition get_ideas_by_conviction (self : t) (min_conviction : Z) : list Idea :=
  List.filter (fun i => (min_conviction <=? conviction i)%Z)
    (List.map snd (map_to_list (ideas self))).

End IdeaTracker.

(** * Concrete instances of the library parameters

    The embedding takes [np.log], [np.sqrt], the normal quantile function,
    the random sample and the solver as parameters.  Where the model is
    evaluated on an input they are instantiated as follows. *)

(** [sqrt_Q] is the floor square root carried to the rationals: it is the
    square root exactly where the root is rational with the argument's
    denominator (so on 0, 1, 4, ...), and a stand-in below the root
    elsewhere.  It instantiates [np.sqrt] in closed examples only; each of
    them either takes roots that [sqrt_Q] gives exactly or states facts that
    do not depend on the value of the root.  [log_undefined] and
    [ppf_undefined] answer [nan] and [no_sample] draws nothing: the
    historical VaR and CVaR and the simple returns use none of the three. *)
Definition sqrt_Q (q : Q) : Q := Z.sqrt (Qnum q * Zpos (Qden q)) # Qden q.
Definition log_undefined (q : Q) : float64 := NaN.
Definition ppf_undefined (q : Q) : float64 := NaN.
Definition no_sample (mu sigma : Q) (size : N) : list Q := [].

(** An exact solver for two assets.  It assumes that the first constraint
    is the budget [w1 + w2 = 1], so that the candidates are the points
    [(1 - s, s)] with [s] between the bounds.  With the budget alone it
    minimises the objective along that line, read as a quadratic through
    three of its values; with one more equality it takes the root of that
    constraint, read as affine.  It reports success only after checking the
    candidate against every constraint and bound. *)
Module exact_solver.

Definition line_point (s : Q) : list Q := [1 - s; s].

Definition clamp (lo hi s : Q) : Q :=
  if Qle_bool s lo then lo else if Qle_bool hi s then hi else s.

Definition line_minimum (f : list Q -> Q) (lo hi : Q) : Q :=
  let q0 := f (line_point 0) in
  let q1 := f (line_point 1) in
  let qh := f (line_point (1 # 2)) in
  let a := 2 * (q0 + q1 - 2 * qh) in
  let b := q1 - q0 - a in
  if Qpos_bool a then clamp lo hi (- b / (2 * a))
  else if Qle_bool (f (line_point lo)) (f (line_point hi)) then lo else hi.

Definition line_root (g : list Q -> Q) : option Q :=
  let g0 := g (line_point 0) in
  let g1 := g (line_point 1) in
  if Qeq_bool g1 g0 then None else Some (- g0 / (g1 - g0)).

Definition satisfies (x : list Q) (cons : list scipy.Constraint) : bool :=
  forallb (fun c => Qeq_bool (scipy.cfun c x) 0) cons.

Definition in_bounds (x : list Q) (bnds : list (Q * Q)) : bool :=
  (length x =? length bnds)%nat
  && forallb (fun vb => Qle_bool (vb.2.1) (vb.1) && Qle_bool (vb.1) (vb.2.2))
             (zip x bnds).

Definition failure (x0 : list Q) (msg : string) : scipy.OptimizeResult :=
  {| scipy.x := x0; scipy.success := false; scipy.message := msg; scipy.nit := 0 |}.

Definition minimize : scipy.minimize_t :=
  fun f x0 method bnds cons maxiter ftol =>
    match bnds with
    | [(l1, u1); (l2, u2)] =>
      let lo := if Qle_bool l2 (1 - u1) then 1 - u1 else l2 in
      let hi := if Qle_bool u2 (1 - l1) then u2 else 1 - l1 in
      let candidate :=
        match cons with
        | [_] => Some (line_minimum f lo hi)
        | [_; c] => line_root (scipy.cfun c)
        | _ => None
        end in
      match candidate with
      | Some s =>
        let x := line_point s in
        if satisfies x cons && in_bounds x bnds then
          {| scipy.x := x; scipy.success := true;
             scipy.message := "Optimization terminated successfully";
             scipy.nit := 1 |}
        else failure x0 "Inequality constraints incompatible"
      | None => failure x0 "Singular matrix C in LSQ subproblem"
      end
    | _ => failure x0 "Iteration limit reached"
    end.

End exact_solver.

(** * Properties *)

(** ** Sorting and order statistics *)

Lemma Qle_bool_false (a b : Q) : Qle_bool a b = false -> b < a.
Proof.
  intros H. destruct (Qlt_le_dec b a) as [Hlt | Hle]; [exact Hlt |].
  apply Qle_bool_iff in Hle. congruence.
Qed.







(** ** Interpolation and the percentile *)



Lemma Qpos_bool_false (a : Q) : Qpos_bool a = false -> a <= 0.
Proof.
  unfold Qpos_bool. intros H. apply Qle_bool_iff.
  destruct (Qle_bool a 0); [reflexivity | discriminate].
Qed.


(** ** Sums and means *)

Lemma fold_left_Qplus_acc (l : list Q) (acc : Q) :
  fold_left Qplus l acc == acc + fold_left Qplus l 0.
Proof.
  revert acc. induction l as [| x l IH]; intros acc; simpl; [ring |].
  rewrite (IH (acc + x)), (IH (0 + x)). ring.
Qed.

Lemma np_sum_cons (x : Q) (l : list Q) : np_sum (x :: l) == x + np_sum l.
Proof. unfold np_sum. simpl. rewrite fold_left_Qplus_acc. ring. Qed.

Lemma np_len_cons (x : Q) (l : list Q) : np_len (x :: l) == 1 + np_len l.
Proof.
  unfold np_len. simpl length. rewrite Nat2Z.inj_succ, <- Z.add_1_l, inject_Z_plus.
  reflexivity.
Qed.

Lemma np_len_nonneg (l : list Q) : 0 <= np_len l.
Proof.
  unfold np_len. change 0 with (inject_Z 0). rewrite <- Zle_Qle. lia.
Qed.





(** ** Risk metrics *)

Section RiskProperties.

Variable np_sqrt : Q -> Q.
Variable norm_ppf : Q -> float64.
Variable np_random_normal : Q -> Q -> N -> list Q.

Let calculate_var := RiskAnalyzer.calculate_var np_sqrt norm_ppf np_random_normal.
Let calculate_cvar := RiskAnalyzer.calculate_cvar np_sqrt norm_ppf np_random_normal.


End RiskProperties.



(** ** Beta: truncation to the shorter series *)

Lemma np_cov01_returns (x y : list Q) :
  length x = length y -> exists v, np_cov01 x y = Return v.
Proof.
  intros Hlen. unfold np_cov01.
  rewrite (proj2 (Nat.eqb_eq _ _) Hlen). simpl negb. cbv iota.
  destruct (np_mean x), (np_mean y); try destruct (length x <=? 1)%nat; eauto.
Qed.

Lemma firstn_min_lengths (r b : list Q) :
  let m := Nat.min (length r) (length b) in
  length (firstn m r) = length (firstn m b).
Proof. cbv zeta. rewrite !length_firstn. lia. Qed.

(** The truncated pair on which [calculate_beta] computes. *)
Lemma calculate_beta_truncates (r b : list Q) :
  let m := Nat.min (length r) (length b) in
  RiskAnalyzer.calculate_beta r b
  = RiskAnalyzer.calculate_beta (firstn m r) (firstn m b).
Proof.
  cbv zeta. pose proof (firstn_min_lengths r b) as Hlen. cbv zeta in Hlen.
  unfold RiskAnalyzer.calculate_beta at 2.
  rewrite (proj2 (Nat.eqb_eq _ _) Hlen). simpl negb. cbv iota.
  unfold RiskAnalyzer.calculate_beta.
  destruct (length r =? length b)%nat eqn:E; simpl negb; cbv iota; [| reflexivity].
  apply Nat.eqb_eq in E. rewrite <- E, Nat.min_id.
  rewrite firstn_all. rewrite E, firstn_all. reflexivity.
Qed.

(** C7.  [calculate_beta] returns for every pair of series, it computes on
    both series cut to the shorter length, and cutting the returns to 100
    and the benchmark to 80 observations gives the same beta as cutting both
    to 80. *)
Theorem calculate_beta_truncation_symmetry (returns benchmark : list Q) :
  (exists beta, RiskAnalyzer.calculate_beta returns benchmark = Return beta) /\
  (let min_len := Nat.min (length returns) (length benchmark) in
   RiskAnalyzer.calculate_beta returns benchmark
   = RiskAnalyzer.calculate_beta (firstn min_len returns) (firstn min_len benchmark)) /\
  RiskAnalyzer.calculate_beta (firstn 100 returns) (firstn 80 benchmark)
  = RiskAnalyzer.calculate_beta (firstn 80 returns) (firstn 80 benchmark).
Proof.
  split; [| split].
  - rewrite calculate_beta_truncates. cbv zeta.
    pose proof (firstn_min_lengths returns benchmark) as Hlen. cbv zeta in Hlen.
    unfold RiskAnalyzer.calculate_beta.
    rewrite (proj2 (Nat.eqb_eq _ _) Hlen). simpl negb. cbv iota.
    destruct (np_cov01_returns _ _ Hlen) as [v Hv]. rewrite Hv. simpl mbind.
    destruct (f_is_zero _); eauto.
  - apply calculate_beta_truncates.
  - rewrite (calculate_beta_truncates (firstn 100 returns)).
    rewrite (calculate_beta_truncates (firstn 80 returns)).
    cbv zeta. rewrite !length_firstn, !firstn_firstn.
    f_equal; f_equal; lia.
Qed.

(** ** Returns from prices *)

Lemma simple_returns_length (prices : list Q) :
  length (np_divide (np_diff prices) (removelast prices)) = (length prices - 1)%nat.
Proof.
  induction prices as [| x [| y rest] IH]; [reflexivity | reflexivity |].
  change (S (length (np_divide (np_diff (y :: rest)) (removelast (y :: rest))))
          = (length (x :: y :: rest) - 1)%nat).
  rewrite IH. simpl. lia.
Qed.

Lemma simple_returns_nth (prices : list Q) (i : nat) :
  (i + 1 < length prices)%nat ->
  nth i (np_divide (np_diff prices) (removelast prices)) NaN
  = np_true_divide (nth (i + 1) prices 0 - nth i prices 0) (nth i prices 0).
Proof.
  revert i. induction prices as [| x [| y rest] IH]; intros i Hi;
    [simpl in Hi; lia | simpl in Hi; lia |].
  change (nth i (np_true_divide (y - x) x
                 :: np_divide (np_diff (y :: rest)) (removelast (y :: rest))) NaN
          = np_true_divide (nth (i + 1) (x :: y :: rest) 0 - nth i (x :: y :: rest) 0)
                           (nth i (x :: y :: rest) 0)).
  destruct i as [| i]; [reflexivity |].
  change (nth i (np_divide (np_diff (y :: rest)) (removelast (y :: rest))) NaN
          = np_true_divide (nth (i + 1) (y :: rest) 0 - nth i (y :: rest) 0)
                           (nth i (y :: rest) 0)).
  apply IH. simpl in Hi |- *. lia.
Qed.

(** C9.  With any method string other than ["log"], [calculate_returns]
    returns the simple returns: one entry fewer than there are prices, the
    entry at [i] being [(prices[i+1] - prices[i]) / prices[i]]; the answer
    is the one for ["simple"], whatever the string. *)
Theorem calculate_returns_unknown_method_is_simple
    (np_log : Q -> float64) (prices : list Q) (method : string) :
  method <> "log" ->
  RiskAnalyzer.calculate_returns np_log prices method
    = np_divide (np_diff prices) (removelast prices) /\
  RiskAnalyzer.calculate_returns np_log prices method
    = RiskAnalyzer.calculate_returns np_log prices "simple" /\
  length (RiskAnalyzer.calculate_returns np_log prices method)
    = (length prices - 1)%nat /\
  forall i, (i + 1 < length prices)%nat ->
    nth i (RiskAnalyzer.calculate_returns np_log prices method) NaN
    = np_true_divide (nth (i + 1) prices 0 - nth i prices 0) (nth i prices 0).
Proof.
  intros Hmethod.
  assert (E : RiskAnalyzer.calculate_returns np_log prices method
              = np_divide (np_diff prices) (removelast prices)).
  { unfold RiskAnalyzer.calculate_returns.
    destruct (String.eqb method "log") eqn:Eq; [| reflexivity].
    apply String.eqb_eq in Eq. contradiction. }
  rewrite E. split; [reflexivity |]. split; [reflexivity |].
  split; [apply simple_returns_length |].
  intros i Hi. now apply simple_returns_nth.
Qed.

Lemma calculate_returns_unknown_method_witness :
  RiskAnalyzer.calculate_returns log_undefined [100; 110; 99] "LOG"
    = np_divide (np_diff [100; 110; 99]) (removelast [100; 110; 99]) /\
  RiskAnalyzer.calculate_returns log_undefined [100; 110; 99] "LOG"
    = RiskAnalyzer.calculate_returns log_undefined [100; 110; 99] "simple" /\
  length (RiskAnalyzer.calculate_returns log_undefined [100; 110; 99] "LOG")
    = (length [100; 110; 99] - 1)%nat /\
  forall i, (i + 1 < length [100; 110; 99])%nat ->
    nth i (RiskAnalyzer.calculate_returns log_undefined [100; 110; 99] "LOG") NaN
    = np_true_divide (nth (i + 1) [100; 110; 99] 0 - nth i [100; 110; 99] 0)
                     (nth i [100; 110; 99] 0).
Proof.
  apply (calculate_returns_unknown_method_is_simple log_undefined [100; 110; 99] "LOG").
  discriminate.
Defined.

(** ** Risk contributions *)




(** ** Dictionaries built from their items *)

Lemma py_dict_lookup_fold {V : Type} (items : list (string * V)) (d : gmap string V)
    (k : string) (v : V) :
  (forall k' v', (k', v') ∈ items -> k' = k -> v' = v) ->
  fold_left (fun d kv => <[kv.1 := kv.2]> d) items d !! k
  = if decide (k ∈ items.*1) then Some v else d !! k.
Proof.
  revert d. induction items as [| [k0 v0] items IH]; intros d Hv.
  - cbn [fold_left]. rewrite decide_False; [reflexivity |].
    rewrite fmap_nil. apply not_elem_of_nil.
  - simpl fold_left. rewrite IH by (intros; eapply Hv; [right |]; eauto).
    rewrite fmap_cons. cbn [fst].
    destruct (decide (k ∈ items.*1)) as [Hin | Hnin].
    + rewrite decide_True by (now right). reflexivity.
    + destruct (decide (k0 = k)) as [-> | Hne].
      * rewrite lookup_insert_eq, decide_True by (now left).
        f_equal. eapply Hv; [left |]; reflexivity.
      * rewrite lookup_insert_ne by exact Hne.
        rewrite decide_False; [reflexivity |].
        intros Hin. apply elem_of_cons in Hin as [-> | Hin]; contradiction.
Qed.

Lemma dict_zip_repeat_lookup (symbols : list string) (v : Q) (s : string) :
  dict_zip symbols (repeat v (length symbols)) !! s
  = if decide (s ∈ symbols) then Some v else None.
Proof.
  unfold dict_zip, py_dict.
  assert (Hitems : forall k' v', (k', v') ∈ zip symbols (repeat v (length symbols))
                                 -> v' = v).
  { intros k' v' Hin. apply elem_of_zip_r in Hin.
    apply list_elem_of_In in Hin. now apply repeat_spec in Hin. }
  rewrite (py_dict_lookup_fold _ _ s v) by (intros; eapply Hitems; eauto).
  rewrite lookup_empty.
  assert (Hfst : (zip symbols (repeat v (length symbols))).*1 = symbols).
  { apply fst_zip. rewrite repeat_length. lia. }
  rewrite Hfst. reflexivity.
Qed.

(** ** Mean-variance optimisation *)

Section OptimizerProperties.

Import PortfolioOptimizer.

Variable np_sqrt : Q -> Q.
Variable minimize : scipy.minimize_t.
Variable risk_free_rate : Q.

Let mvo := mean_variance_optimization np_sqrt minimize risk_free_rate.
Let solver := solver_call np_sqrt minimize risk_free_rate.

(** The solver is reached when there is an asset and the objective is
    supported; without assets the call raises before it. *)
Lemma solver_call_reached symbols expected_returns cov_matrix objective constraints :
  symbols <> [] -> objective <> RISK_PARITY ->
  exists res, solver symbols expected_returns cov_matrix objective constraints = Return res.
Proof.
  intros Hs Ho. unfold solver, solver_call, init_weights.
  destruct symbols as [| s symbols]; [congruence |].
  destruct objective; try congruence; simpl; eauto.
Qed.

Lemma no_assets_raises expected_returns cov_matrix objective constraints :
  mvo [] expected_returns cov_matrix objective constraints = Raise ZeroDivisionError.
Proof. reflexivity. Qed.

(** C3.  When the solver is reached and reports failure, the call returns
    (it does not raise) a result whose weights give every symbol [1/N],
    whose success flag is [False] and whose message is the solver's. *)
Theorem solver_failure_returns_equal_weights
    symbols expected_returns cov_matrix objective constraints res :
  solver symbols expected_returns cov_matrix objective constraints = Return res ->
  scipy.success res = false ->
  let n_assets := inject_Z (Z.of_nat (length symbols)) in
  exists result,
    mvo symbols expected_returns cov_matrix objective constraints = Return result /\
    success result = false /\
    message result = scipy.message res /\
    weights result = dict_zip symbols (repeat (1 / n_assets) (length symbols)) /\
    (forall s, s ∈ symbols -> weights result !! s = Some (1 / n_assets)) /\
    (forall s, s ∉ symbols -> weights result !! s = None).
Proof.
  intros Hcall Hfail. cbv zeta.
  unfold solver, solver_call in Hcall. unfold mvo, mean_variance_optimization.
  unfold init_weights in *.
  destruct (length symbols =? 0)%nat eqn:En; [discriminate |].
  simpl mbind in *.
  destruct (obj_func _ _ _ _ objective) as [f | e]; [| discriminate].
  simpl mbind in *. injection Hcall as Hres. rewrite Hres, Hfail.
  eexists. split; [reflexivity |]. cbn [success message weights].
  split; [reflexivity |]. split; [reflexivity |]. split; [reflexivity |].
  split; intros s Hs; rewrite dict_zip_repeat_lookup.
  - now rewrite decide_True.
  - now rewrite decide_False.
Qed.

(** With a non-zero target the return is pinned by a second equality
    constraint. *)
Lemma nonzero_target_return_is_pinned expected_returns cov_matrix cons target :
  ~ target == 0 ->
  opt_constraints np_sqrt expected_returns cov_matrix TARGET_RETURN
    (set_target_return cons target)
  = [budget_constraint; return_constraint expected_returns target] /\
  forall x, scipy.cfun (return_constraint expected_returns target) x
            = np_dot x expected_returns - target.
Proof.
  intros Hne. split; [| reflexivity].
  unfold opt_constraints, set_target_return, truthy. cbn [target_return].
  destruct (Qeq_bool target 0) eqn:E; [| reflexivity].
  apply Qeq_bool_iff in E. contradiction.
Qed.

(** C2 at the target return 0.0: the guard [constraints.target_return] is
    false, only the budget constraint is handed to the solver, and the
    call is the one made for the [MIN_VARIANCE] objective. *)
Theorem zero_target_return_is_not_pinned
    symbols expected_returns cov_matrix (cons : OptimizationConstraints) :
  let constraints := set_target_return cons 0 in
  target_return constraints = Some 0 /\
  opt_constraints np_sqrt expected_returns cov_matrix TARGET_RETURN constraints
    = [budget_constraint] /\
  mvo symbols expected_returns cov_matrix TARGET_RETURN (Some constraints)
    = mvo symbols expected_returns cov_matrix MIN_VARIANCE (Some constraints).
Proof. cbv zeta. split; [reflexivity |]. split; reflexivity. Qed.

End OptimizerProperties.

Lemma solver_failure_returns_equal_weights_witness :
  exists result,
    PortfolioOptimizer.mean_variance_optimization sqrt_Q exact_solver.minimize 0.05
      ["A"; "B"]%string [-1; 1] [[1; 1]; [1; 4]] PortfolioOptimizer.MIN_VARIANCE
      (Some (PortfolioOptimizer.make_constraints 0 (1 # 4) true)) = Return result /\
    PortfolioOptimizer.success result = false /\
    PortfolioOptimizer.message result = "Inequality constraints incompatible"%string /\
    PortfolioOptimizer.weights result
      = dict_zip ["A"; "B"]%string (repeat (1 / 2) 2) /\
    (forall s, s ∈ ["A"; "B"]%string ->
        PortfolioOptimizer.weights result !! s = Some (1 / 2)) /\
    (forall s, s ∉ ["A"; "B"]%string -> PortfolioOptimizer.weights result !! s = None).
Proof.
  apply (solver_failure_returns_equal_weights sqrt_Q exact_solver.minimize 0.05
           ["A"; "B"]%string [-1; 1] [[1; 1]; [1; 4]] PortfolioOptimizer.MIN_VARIANCE
           (Some (PortfolioOptimizer.make_constraints 0 (1 # 4) true))
           (exact_solver.failure [1 # 2; 1 # 2] "Inequality constraints incompatible")).
  - vm_compute. reflexivity.
  - reflexivity.
Defined.

(** ** The efficient frontier *)

(** The two-asset solver only reports success at a point that meets every
    constraint and bound it was given. *)
Lemma exact_solver_feasible f x0 method bnds cons maxiter ftol :
  let res := exact_solver.minimize f x0 method bnds cons maxiter ftol in
  scipy.success res = true ->
  exact_solver.satisfies (scipy.x res) cons = true /\
  exact_solver.in_bounds (scipy.x res) bnds = true.
Proof.
  cbv zeta. unfold exact_solver.minimize.
  destruct bnds as [| [l1 u1] [| [l2 u2] [| ? ?]]]; try discriminate.
  match goal with
  | |- context [match ?c with Some _ => _ | None => _ end] => destruct c as [s |]
  end; [| discriminate].
  destruct (exact_solver.satisfies _ cons && exact_solver.in_bounds _ _) eqn:E;
    [| discriminate].
  intros _. cbn [scipy.x]. now apply andb_true_iff in E.
Qed.

(** On the instance below the solver's answers are the true optima: among
    the long-only fully invested portfolios, [(1, 0)] has the least variance
    and [(0, 1)] the greatest expected return. *)
Lemma example_min_variance_optimal (w1 w2 : Q) :
  w1 + w2 == 1 -> 0 <= w1 -> 0 <= w2 ->
  PortfolioOptimizer.portfolio_variance [[1; 1]; [1; 4]] [1; 0]
  <= PortfolioOptimizer.portfolio_variance [[1; 1]; [1; 4]] [w1; w2].
Proof.
  intros Hsum H1 H2.
  unfold PortfolioOptimizer.portfolio_variance, np_dot, np_matvec, np_sum.
  cbn [List.map np_multiply fold_left]. unfold np_dot, np_sum.
  cbn [np_multiply fold_left].
  assert (Hsq : (w1 + w2) * (w1 + w2) == 1) by (rewrite Hsum; reflexivity).
  pose proof (Qmult_le_0_compat w2 w2 H2 H2) as Hw2.
  lra.
Qed.

Lemma example_max_return_optimal (w1 w2 : Q) :
  w1 + w2 == 1 -> 0 <= w1 -> 0 <= w2 ->
  PortfolioOptimizer.neg_return [-1; 1] [0; 1]
  <= PortfolioOptimizer.neg_return [-1; 1] [w1; w2].
Proof.
  intros Hsum H1 H2.
  unfold PortfolioOptimizer.neg_return, np_dot, np_sum.
  cbn [np_multiply fold_left]. lra.
Qed.

(** C4 at a failing input.  Two assets with expected returns [-1, 1] and
    covariance [[1, 1], [1, 4]], five points: the targets are
    [-1, -1/2, 0, 1/2, 1]; at the target 0 the return constraint is dropped
    and the solve yields the minimum-variance portfolio again, whose return
    is -1, after a point of return -1/2. *)
Theorem efficient_frontier_zero_target_breaks_order :
  exists frontier,
    PortfolioOptimizer.efficient_frontier sqrt_Q exact_solver.minimize 0.05
      ["A"; "B"]%string [-1; 1] [[1; 1]; [1; 4]] 5 None = Return frontier /\
    Forall2 Qeq (List.map PortfolioOptimizer.expected_return frontier)
                [-1; -(1 # 2); -1; 1 # 2; 1] /\
    ~ Sorted Qle (List.map PortfolioOptimizer.expected_return frontier).
Proof.
  eexists. split; [vm_compute; reflexivity |].
  cbn [List.map PortfolioOptimizer.expected_return].
  split.
  - repeat constructor.
  - intros Hsorted.
    apply Sorted_inv in Hsorted as [Hsorted _].
    apply Sorted_inv in Hsorted as [_ Hhd].
    apply HdRel_inv in Hhd. vm_compute in Hhd. contradiction.
Qed.

(** The solver's answers at the two end points of that instance. *)
Lemma example_end_point_solutions :
  exists lowest highest,
    PortfolioOptimizer.solver_call sqrt_Q exact_solver.minimize 0.05
      ["A"; "B"]%string [-1; 1] [[1; 1]; [1; 4]] PortfolioOptimizer.MIN_VARIANCE None
      = Return lowest /\
    PortfolioOptimizer.solver_call sqrt_Q exact_solver.minimize 0.05
      ["A"; "B"]%string [-1; 1] [[1; 1]; [1; 4]] PortfolioOptimizer.MAX_RETURN None
      = Return highest /\
    scipy.success lowest = true /\ Forall2 Qeq (scipy.x lowest) [1; 0] /\
    scipy.success highest = true /\ Forall2 Qeq (scipy.x highest) [0; 1].
Proof.
  eexists _, _. split; [vm_compute; reflexivity |]. split; [vm_compute; reflexivity |].
  cbn [scipy.success scipy.x]. repeat split; repeat constructor.
Qed.

(** ** Brinson-Fachler attribution *)

Section AttributionProperties.

Import AttributionAnalyzer.

Variables portfolio_weights benchmark_weights : gmap string Q.
Variables portfolio_returns benchmark_returns : gmap string Q.

Let result := calculate_brinson_fachler_attribution
                portfolio_weights benchmark_weights portfolio_returns benchmark_returns.
Let total_bench := total_benchmark_return
                     portfolio_weights benchmark_weights benchmark_returns.

Lemma attribution_sectors :
  List.map sector result = elements (all_sectors portfolio_weights benchmark_weights).
Proof.
  unfold result, calculate_brinson_fachler_attribution.
  rewrite List.map_map. cbn [sector]. apply List.map_id.
Qed.

(** C6.  The result holds exactly one record for every sector of the
    union of the two weight maps, and no other; in each record the weights
    and returns are the map entries (0 when missing), the three effects
    are the Brinson-Fachler products, and the total is their sum. *)
Theorem brinson_fachler_effects :
  (forall s, s ∈ dom portfolio_weights ∪ dom benchmark_weights <->
             In s (List.map sector result)) /\
  NoDup (List.map sector result) /\
  forall a, In a result ->
    let pw := dict_get portfolio_weights (sector a) in
    let bw := dict_get benchmark_weights (sector a) in
    let pr := dict_get portfolio_returns (sector a) in
    let br := dict_get benchmark_returns (sector a) in
    portfolio_weight a = pw /\ benchmark_weight a = bw /\
    portfolio_return a = pr /\ benchmark_return a = br /\
    allocation_effect a = (pw - bw) * (br - total_bench) /\
    selection_effect a = bw * (pr - br) /\
    interaction_effect a = (pw - bw) * (pr - br) /\
    total_effect a = allocation_effect a + selection_effect a + interaction_effect a.
Proof.
  split; [| split].
  - intros s. rewrite attribution_sectors, <- list_elem_of_In, elem_of_elements.
    reflexivity.
  - rewrite attribution_sectors. apply NoDup_elements.
  - intros a Ha. unfold result, calculate_brinson_fachler_attribution in Ha.
    apply List.in_map_iff in Ha as (s & <- & _). cbv zeta.
    cbn [sector portfolio_weight benchmark_weight portfolio_return benchmark_return
         allocation_effect selection_effect interaction_effect total_effect].
    repeat split; reflexivity.
Qed.

End AttributionProperties.

(** ** Stress scenarios *)

Lemma py_sum_cons (x : Q) (l : list Q) : py_sum (x :: l) == x + py_sum l.
Proof. exact (np_sum_cons x l). Qed.

Lemma py_sum_perm (l l' : list Q) : Permutation l l' -> py_sum l == py_sum l'.
Proof.
  induction 1 as [| x l l' _ IH | x y l | l l' l'' _ IH1 _ IH2].
  - reflexivity.
  - rewrite !py_sum_cons, IH. reflexivity.
  - rewrite !py_sum_cons. ring.
  - now rewrite IH1.
Qed.

(** The 2008 scenario of a fresh engine applied to one position. *)
Lemma gfc_2008_equity_impact :
  exists sc impact,
    StressTestEngine.get_scenario StressTestEngine.__init__ "GFC_2008" = Some sc /\
    StressTestEngine.equity_shock sc == -0.45 /\
    (StressTestEngine.calculate_equity_impact
       {["AAPL"%string := (100000, 1.2)]} (StressTestEngine.equity_shock sc)).1 == -54000 /\
    (StressTestEngine.calculate_equity_impact
       {["AAPL"%string := (100000, 1.2)]} (StressTestEngine.equity_shock sc)).2
      !! "AAPL"%string = Some impact /\
    impact == -54000.
Proof.
  eexists _, _. split; [vm_compute; reflexivity |].
  split; [reflexivity |]. split; [vm_compute; reflexivity |].
  split; [vm_compute; reflexivity |]. reflexivity.
Qed.

Section EquityImpact.

Import StressTestEngine.

Variable shock : Q.

(** The impact of one position. *)
Let impact (vb : Q * Q) : Q := vb.1 * vb.2 * shock.

(** The loop over the items adds every impact to the running total and
    stores it under the position's symbol. *)
Lemma equity_loop (items : list (string * (Q * Q))) (total : Q) (d : gmap string Q) :
  NoDup items.*1 ->
  let r := fold_left (equity_step shock) items (total, d) in
  r.1 == total + py_sum (List.map (fun item => impact item.2) items) /\
  forall s, r.2 !! s
            = match (list_to_map items : gmap string (Q * Q)) !! s with
              | Some vb => Some (impact vb)
              | None => d !! s
              end.
Proof.
  revert total d. induction items as [| [k [v b]] items IH]; intros total d Hnd.
  - cbv zeta. cbn [fold_left List.map fst snd]. split.
    + unfold py_sum. cbn [fold_left]. ring.
    + intros s. rewrite list_to_map_nil, lookup_empty. reflexivity.
  - rewrite fmap_cons in Hnd. apply NoDup_cons in Hnd as [Hk Hnd].
    cbv zeta. cbn [fold_left]. unfold equity_step at 2. cbn [fst snd].
    specialize (IH (total + v * b * shock) (<[k := v * b * shock]> d) Hnd).
    cbv zeta in IH. destruct IH as [IHt IHd]. split.
    + rewrite IHt. cbn [List.map]. rewrite py_sum_cons. unfold impact. cbn [fst snd].
      ring.
    + intros s. rewrite IHd, list_to_map_cons.
      destruct (decide (k = s)) as [-> | Hne].
      * cbn [fst] in Hk.
        rewrite (not_elem_of_list_to_map_1 _ _ Hk), !lookup_insert_eq.
        reflexivity.
      * rewrite !lookup_insert_ne by exact Hne. reflexivity.
Qed.

Lemma impacts_of_items (items : list (string * (Q * Q))) :
  List.map snd (prod_map id impact <$> items)
  = List.map (fun item => impact item.2) items.
Proof.
  induction items as [| [k vb] items IH]; [reflexivity |].
  rewrite fmap_cons. cbn [List.map]. now rewrite IH.
Qed.

(** C8.  Every position's impact is [value * beta * shock], the positions
    without an entry have none, and the total is the sum of the impacts;
    the scenario [GFC_2008] of a fresh engine has equity shock -0.45 and
    applied to [{"AAPL": (100000, 1.2)}] gives the impact -54000. *)
Theorem equity_impact_per_position_and_total (positions : gmap string (Q * Q)) :
  let total_impact := (calculate_equity_impact positions shock).1 in
  let position_impacts := (calculate_equity_impact positions shock).2 in
  position_impacts = (fun vb => vb.1 * vb.2 * shock) <$> positions /\
  (forall symbol value beta, positions !! symbol = Some (value, beta) ->
     position_impacts !! symbol = Some (value * beta * shock)) /\
  (forall symbol, positions !! symbol = None -> position_impacts !! symbol = None) /\
  total_impact == py_sum (List.map snd (map_to_list position_impacts)) /\
  exists sc impact,
    get_scenario __init__ "GFC_2008" = Some sc /\
    equity_shock sc == -0.45 /\
    (calculate_equity_impact {["AAPL"%string := (100000, 1.2)]} (equity_shock sc)).1
      == -54000 /\
    (calculate_equity_impact {["AAPL"%string := (100000, 1.2)]} (equity_shock sc)).2
      !! "AAPL"%string = Some impact /\
    impact == -54000.
Proof.
  cbv zeta. unfold calculate_equity_impact.
  destruct (equity_loop (map_to_list positions) 0 ∅ (NoDup_fst_map_to_list positions))
    as [Htotal Hd].
  assert (E : (fold_left (equity_step shock) (map_to_list positions) (0, ∅)).2
              = impact <$> positions).
  { apply map_eq. intros s. rewrite Hd, list_to_map_to_list, lookup_fmap, lookup_empty.
    destruct (positions !! s); reflexivity. }
  rewrite E. split; [reflexivity |]. split; [| split; [| split]];
    [| | | exact gfc_2008_equity_impact].
  - intros s v b Hs. rewrite lookup_fmap, Hs. reflexivity.
  - intros s Hs. rewrite lookup_fmap, Hs. reflexivity.
  - rewrite Htotal, map_to_list_fmap.
    rewrite impacts_of_items. ring.
Qed.

End EquityImpact.

(** The catalog of a fresh engine holds the predefined scenarios. *)
Lemma predefined_scenarios_loaded :
  exists gfc rates_up,
    StressTestEngine.get_scenario StressTestEngine.__init__ "GFC_2008" = Some gfc /\
    StressTestEngine.scenario_type gfc = StressTestEngine.HISTORICAL /\
    StressTestEngine.name gfc = "Global Financial Crisis 2008"%string /\
    StressTestEngine.get_scenario StressTestEngine.__init__ "RATES_UP_200" = Some rates_up /\
    StressTestEngine.scenario_type rates_up = StressTestEngine.HYPOTHETICAL.
Proof.
  eexists _, _. split; [vm_compute; reflexivity |].
  split; [reflexivity |]. split; [reflexivity |].
  split; [vm_compute; reflexivity |]. reflexivity.
Qed.

(** C10.  After [add_scenario(key, scenario)] the key maps to that
    scenario and every other key maps to what it mapped to before; a
    scenario already stored under the key, a predefined one included, is
    replaced. *)
Theorem add_scenario_replaces_and_frames
    (self : StressTestEngine.t) (key : string) (sc : StressTestEngine.Scenario) :
  let self' := StressTestEngine.add_scenario self key sc in
  StressTestEngine.get_scenario self' key = Some sc /\
  (forall other, other <> key ->
     StressTestEngine.get_scenario self' other = StressTestEngine.get_scenario self other) /\
  (forall previous, StressTestEngine.get_scenario self key = Some previous ->
     sc <> previous -> StressTestEngine.get_scenario self' key <> Some previous) /\
  exists predefined,
    StressTestEngine.get_scenario StressTestEngine.__init__ "GFC_2008" = Some predefined /\
    StressTestEngine.scenario_type predefined = StressTestEngine.HISTORICAL /\
    StressTestEngine.get_scenario
      (StressTestEngine.add_scenario StressTestEngine.__init__ "GFC_2008" sc) "GFC_2008"
    = Some sc.
Proof.
  cbv zeta. unfold StressTestEngine.get_scenario, StressTestEngine.add_scenario.
  cbn [StressTestEngine.scenarios].
  split; [apply lookup_insert_eq |]. split; [| split].
  - intros other Hne. apply lookup_insert_ne. congruence.
  - intros previous _ Hne. rewrite lookup_insert_eq. congruence.
  - destruct predefined_scenarios_loaded as (gfc & _ & Hgfc & Hty & _).
    exists gfc. split; [exact Hgfc |]. split; [exact Hty |]. apply lookup_insert_eq.
Qed.

(** * Further properties of the risk metrics *)

(** X1.  An unknown VaR method is refused with [ValueError], whatever the data. *)
Theorem calculate_var_unknown_method_raises
    (np_sqrt : Q -> Q) (norm_ppf : Q -> float64) (np_random_normal : Q -> Q -> N -> list Q)
    (returns : list Q) (confidence_level portfolio_value : Q) (method : string) :
  method <> "historical" -> method <> "parametric" -> method <> "monte_carlo" ->
  RiskAnalyzer.calculate_var np_sqrt norm_ppf np_random_normal
    returns confidence_level method portfolio_value
  = Raise (ValueError ("Unknown VaR method: " +:+ method)).
Proof.
  intros H1 H2 H3. unfold RiskAnalyzer.calculate_var.
  rewrite (proj2 (String.eqb_neq _ _) H1), (proj2 (String.eqb_neq _ _) H2),
    (proj2 (String.eqb_neq _ _) H3).
  reflexivity.
Qed.

Lemma calculate_var_unknown_method_witness :
  RiskAnalyzer.calculate_var sqrt_Q ppf_undefined no_sample [0.01; -0.02] 0.95 "Historical" 1
  = Raise (ValueError ("Unknown VaR method: " +:+ "Historical")).
Proof.
  apply calculate_var_unknown_method_raises; discriminate.
Defined.

(** ** Running maximum, least and greatest entries *)

Lemma running_max_length (a : list Q) (current : Q) :
  length (running_max current a) = length a.
Proof.
  revert current. induction a as [| x a IH]; intros current; [reflexivity |].
  simpl. now rewrite IH.
Qed.

Lemma running_max_spec (a : list Q) (current : Q) (j : nat) :
  (j < length a)%nat ->
  let M := nth j (running_max current a) 0 in
  current <= M /\
  (forall i, (i <= j)%nat -> nth i a 0 <= M) /\
  (M = current \/ exists i, (i <= j)%nat /\ M = nth i a 0).
Proof.
  revert current j. induction a as [| x a IH]; intros current j Hj; [simpl in Hj; lia |].
  cbv zeta. cbn [running_max].
  set (m := if Qle_bool current x then x else current).
  assert (Hm : current <= m /\ x <= m /\ (m = current \/ m = x)).
  { unfold m. destruct (Qle_bool current x) eqn:E.
    - apply Qle_bool_iff in E. repeat split; [exact E | lra | now right].
    - apply Qle_bool_false in E. repeat split; [lra | lra | now left]. }
  destruct Hm as (Hcm & Hxm & Hm).
  destruct j as [| j]; cbn [nth].
  - split; [exact Hcm |]. split.
    + intros i Hi. assert (i = 0)%nat as -> by lia. exact Hxm.
    + destruct Hm as [-> | ->]; [now left | right; exists 0%nat; split; [lia | reflexivity]].
  - simpl in Hj. destruct (IH m j ltac:(lia)) as (H1 & H2 & H3). cbv zeta in H1, H2, H3.
    split; [lra |]. split.
    + intros [| i] Hi; cbn [nth]; [lra | apply H2; lia].
    + destruct H3 as [H3 | (i & Hi & H3)].
      * rewrite H3. destruct Hm as [-> | ->]; [now left |].
        right. exists 0%nat. split; [lia | reflexivity].
      * right. exists (S i). split; [lia | exact H3].
Qed.

(** Entry [j] of the running maximum is an entry of the array at or before
    [j], and no entry up to [j] exceeds it. *)
Lemma np_maximum_accumulate_spec (a : list Q) (j : nat) :
  (j < length a)%nat ->
  let M := nth j (np_maximum_accumulate a) 0 in
  (forall i, (i <= j)%nat -> nth i a 0 <= M) /\
  exists i, (i <= j)%nat /\ M = nth i a 0.
Proof.
  destruct a as [| x a]; intros Hj; [simpl in Hj; lia |].
  cbv zeta. cbn [np_maximum_accumulate]. destruct j as [| j]; cbn [nth].
  - split; [| exists 0%nat; split; [lia | reflexivity]].
    intros i Hi. assert (i = 0)%nat as -> by lia. cbn [nth]. lra.
  - simpl in Hj. destruct (running_max_spec a x j ltac:(lia)) as (H1 & H2 & H3).
    cbv zeta in H1, H2, H3. split.
    + intros [| i] Hi; cbn [nth]; [exact H1 | apply H2; lia].
    + destruct H3 as [H3 | (i & Hi & H3)].
      * exists 0%nat. split; [lia | exact H3].
      * exists (S i). split; [lia | exact H3].
Qed.

Lemma np_maximum_accumulate_length (a : list Q) :
  length (np_maximum_accumulate a) = length a.
Proof. destruct a as [| x a]; [reflexivity |]. simpl. now rewrite running_max_length. Qed.

Lemma np_subtract_nth (a b : list Q) (j : nat) :
  (j < length a)%nat -> (j < length b)%nat ->
  nth j (np_subtract a b) 0 = nth j a 0 - nth j b 0.
Proof.
  revert b j. induction a as [| x a IH]; intros [| y b] j Ha Hb;
    simpl in Ha, Hb; try lia.
  destruct j as [| j]; [reflexivity |]. cbn [np_subtract nth]. apply IH; lia.
Qed.

Lemma np_subtract_length (a b : list Q) :
  length (np_subtract a b) = Nat.min (length a) (length b).
Proof.
  revert b. induction a as [| x a IH]; intros [| y b]; simpl; try reflexivity.
  now rewrite IH.
Qed.

(** The least entry and its first index, on an array of finite floats. *)
Lemma min_scan_finite (ds : list Q) (x : Q) (i best_i : nat) :
  exists m t,
    fold_left f_minimum (List.map Fin ds) (Fin x) = Fin m /\
    argmin_scan (List.map Fin ds) i best_i (Fin x) = t /\
    m <= x /\
    (forall k, (k < length ds)%nat -> m <= nth k ds 0) /\
    ((t = best_i /\ m = x) \/
     exists k, (k < length ds)%nat /\ t = (i + k)%nat /\ m = nth k ds 0).
Proof.
  revert x i best_i. induction ds as [| d ds IH]; intros x i best_i.
  - exists x, best_i. cbn. repeat split; [lra | intros; lia | now left].
  - cbn [List.map fold_left argmin_scan f_is_nan negb andb orb].
    unfold f_minimum at 2. cbn [f_ltb].
    destruct (negb (Qle_bool x d)) eqn:E.
    + apply negb_true_iff, Qle_bool_false in E.
      destruct (IH d (S i) i) as (m & t & Hf & Ha & Hm & Hall & Hpos).
      exists m, t. split; [exact Hf |]. split; [exact Ha |]. split; [lra |]. split.
      * intros [| k] Hk; cbn [nth]; [exact Hm | apply Hall; simpl in Hk; lia].
      * right. destruct Hpos as [[-> ->] | (k & Hk & -> & ->)].
        -- exists 0%nat. cbn [nth length]. repeat split; lia.
        -- exists (S k). cbn [nth length]. repeat split; lia.
    + apply negb_false_iff, Qle_bool_iff in E.
      destruct (IH x (S i) best_i) as (m & t & Hf & Ha & Hm & Hall & Hpos).
      exists m, t. split; [exact Hf |]. split; [exact Ha |]. split; [exact Hm |]. split.
      * intros [| k] Hk; cbn [nth]; [lra | apply Hall; simpl in Hk; lia].
      * destruct Hpos as [[-> ->] | (k & Hk & -> & ->)]; [now left |].
        right. exists (S k). cbn [nth length]. repeat split; lia.
Qed.

Lemma np_min_argmin_finite (ds : list Q) :
  ds <> [] ->
  exists t,
    np_min (List.map Fin ds) = Return (Fin (nth t ds 0)) /\
    np_argmin (List.map Fin ds) = Return t /\
    (t < length ds)%nat /\
    forall k, (k < length ds)%nat -> nth t ds 0 <= nth k ds 0.
Proof.
  destruct ds as [| d ds]; [congruence |]. intros _.
  destruct (min_scan_finite ds d 1 0) as (m & t & Hf & Ha & Hm & Hall & Hpos).
  exists t. cbn [List.map np_min np_argmin]. rewrite Hf, Ha.
  destruct Hpos as [[-> ->] | (k & Hk & -> & ->)]; cbn [nth length Nat.add].
  - repeat split; [lia |]. intros [| k] Hk; cbn [nth]; [lra | apply Hall; simpl in Hk; lia].
  - repeat split; [lia |].
    intros [| j] Hj; cbn [nth]; [exact Hm | apply Hall; simpl in Hj; lia].
Qed.

Lemma argmax_scan_spec (a : list Q) (best : Q) (i best_i : nat) :
  let t := argmax_scan a i best_i best in
  exists v,
    best <= v /\
    (forall k, (k < length a)%nat -> nth k a 0 <= v) /\
    ((t = best_i /\ v = best) \/
     exists k, (k < length a)%nat /\ t = (i + k)%nat /\ v = nth k a 0).
Proof.
  revert best i best_i. induction a as [| x a IH]; intros best i best_i; cbv zeta.
  - exists best. cbn. repeat split; [lra | intros; lia | now left].
  - cbn [argmax_scan]. destruct (negb (Qle_bool x best)) eqn:E.
    + apply negb_true_iff, Qle_bool_false in E.
      destruct (IH x (S i) i) as (v & Hv & Hall & Hpos). cbv zeta in Hpos.
      exists v. split; [lra |]. split.
      * intros [| k] Hk; cbn [nth]; [exact Hv | apply Hall; simpl in Hk; lia].
      * right. destruct Hpos as [[-> ->] | (k & Hk & -> & ->)].
        -- exists 0%nat. cbn [nth length]. repeat split; lia.
        -- exists (S k). cbn [nth length]. repeat split; lia.
    + apply negb_false_iff, Qle_bool_iff in E.
      destruct (IH best (S i) best_i) as (v & Hv & Hall & Hpos). cbv zeta in Hpos.
      exists v. split; [exact Hv |]. split.
      * intros [| k] Hk; cbn [nth]; [lra | apply Hall; simpl in Hk; lia].
      * destruct Hpos as [[-> ->] | (k & Hk & -> & ->)]; [now left |].
        right. exists (S k). cbn [nth length]. repeat split; lia.
Qed.

Lemma np_argmax_spec (a : list Q) :
  a <> [] ->
  exists t,
    np_argmax a = Return t /\ (t < length a)%nat /\
    forall k, (k < length a)%nat -> nth k a 0 <= nth t a 0.
Proof.
  destruct a as [| x a]; [congruence |]. intros _.
  destruct (argmax_scan_spec a x 1 0) as (v & Hv & Hall & Hpos). cbv zeta in Hpos.
  exists (argmax_scan a 1 0 x). split; [reflexivity |].
  destruct Hpos as [[-> ->] | (k & Hk & -> & ->)]; cbn [nth length Nat.add].
  - split; [lia |]. intros [| k] Hk; cbn [nth]; [lra | apply Hall; simpl in Hk; lia].
  - split; [lia |].
    intros [| j] Hj; cbn [nth]; [exact Hv | apply Hall; simpl in Hj; lia].
Qed.

(** ** Maximum drawdown *)

(** Division of two arrays whose divisors are not zero stays finite. *)
Fixpoint quotients (a b : list Q) : list Q :=
  match a, b with
  | x :: a', y :: b' => (x / y) :: quotients a' b'
  | _, _ => []
  end.

Lemma np_divide_finite (a b : list Q) :
  (forall j, (j < length b)%nat -> 0 < nth j b 0) ->
  np_divide a b = List.map Fin (quotients a b).
Proof.
  revert b. induction a as [| x a IH]; intros [| y b] Hb; try reflexivity.
  cbn [np_divide quotients List.map]. f_equal.
  - unfold np_true_divide. pose proof (Hb 0%nat ltac:(simpl; lia)) as Hy. cbn [nth] in Hy.
    destruct (Qeq_bool y 0) eqn:E; [| reflexivity].
    apply Qeq_bool_iff in E. lra.
  - apply IH. intros j Hj. apply (Hb (S j)). simpl. lia.
Qed.

Lemma quotients_nth (a b : list Q) (j : nat) :
  (j < length a)%nat -> (j < length b)%nat ->
  nth j (quotients a b) 0 = nth j a 0 / nth j b 0.
Proof.
  revert b j. induction a as [| x a IH]; intros [| y b] j Ha Hb;
    simpl in Ha, Hb; try lia.
  destruct j as [| j]; [reflexivity |]. cbn [quotients nth]. apply IH; lia.
Qed.

Lemma quotients_length (a b : list Q) :
  length (quotients a b) = Nat.min (length a) (length b).
Proof.
  revert b. induction a as [| x a IH]; intros [| y b]; simpl; try reflexivity.
  now rewrite IH.
Qed.

(** The decline from a running maximum is at most the decline from any
    earlier price. *)
Lemma decline_bound (p_i p_j M : Q) :
  0 < p_i -> p_i <= M -> 0 < p_j -> (p_j - M) / M <= (p_j - p_i) / p_i.
Proof.
  intros Hi HM Hj. apply Qle_shift_div_l; [exact Hi |].
  assert (E : (p_j - M) / M * p_i == (p_j - M) * p_i / M) by (field; lra).
  rewrite E. apply Qle_shift_div_r; [lra |]. nra.
Qed.

(** X2.  On a non-empty series of positive prices [calculate_max_drawdown]
    returns a finite drawdown with its peak at or before its trough; the
    drawdown is the relative decline from the peak to the trough, it is at
    most 0, and no decline from an earlier to a later price is worse. *)
Theorem max_drawdown_is_worst_decline (prices : list Q) :
  prices <> [] -> (forall p, In p prices -> 0 < p) ->
  exists max_dd peak_idx trough_idx,
    RiskAnalyzer.calculate_max_drawdown prices
      = Return (Fin max_dd, peak_idx, trough_idx) /\
    (peak_idx <= trough_idx)%nat /\ (trough_idx < length prices)%nat /\
    max_dd == (nth trough_idx prices 0 - nth peak_idx prices 0) / nth peak_idx prices 0 /\
    max_dd <= 0 /\
    forall i j, (i <= j)%nat -> (j < length prices)%nat ->
      max_dd <= (nth j prices 0 - nth i prices 0) / nth i prices 0.
Proof.
  intros Hne Hpos.
  assert (Hp : forall i, (i < length prices)%nat -> 0 < nth i prices 0).
  { intros i Hi. apply Hpos, nth_In, Hi. }
  set (M := np_maximum_accumulate prices).
  assert (HMlen : length M = length prices) by apply np_maximum_accumulate_length.
  assert (HM : forall j, (j < length prices)%nat ->
             (forall i, (i <= j)%nat -> nth i prices 0 <= nth j M 0) /\
             exists i, (i <= j)%nat /\ nth j M 0 = nth i prices 0).
  { intros j Hj. exact (np_maximum_accumulate_spec prices j Hj). }
  assert (HMpos : forall j, (j < length M)%nat -> 0 < nth j M 0).
  { intros j Hj. destruct (HM j ltac:(lia)) as (_ & i & Hi & ->). apply Hp. lia. }
  set (ds := quotients (np_subtract prices M) M).
  assert (Hdslen : length ds = length prices).
  { unfold ds. rewrite quotients_length, np_subtract_length. lia. }
  assert (Hds : forall j, (j < length prices)%nat ->
              nth j ds 0 = (nth j prices 0 - nth j M 0) / nth j M 0).
  { intros j Hj. unfold ds.
    rewrite quotients_nth by (rewrite ?np_subtract_length; lia).
    rewrite np_subtract_nth by lia. reflexivity. }
  assert (Hdsne : ds <> []).
  { intros E. rewrite E in Hdslen. destruct prices; [congruence | simpl in Hdslen; lia]. }
  destruct (np_min_argmin_finite ds Hdsne) as (t & Hmin & Hargmin & Ht & Hleast).
  rewrite Hdslen in Ht.
  assert (Hfirst : firstn (t + 1) prices <> []).
  { destruct prices; [congruence |]. rewrite Nat.add_1_r. discriminate. }
  destruct (np_argmax_spec _ Hfirst) as (k & Hargmax & Hk & Hgreatest).
  rewrite length_firstn in Hk, Hgreatest.
  assert (Hnth : forall i, (i <= t)%nat -> nth i (firstn (t + 1) prices) 0 = nth i prices 0).
  { intros i Hi. rewrite nth_firstn.
    destruct (i <? t + 1)%nat eqn:E; [reflexivity |]. apply Nat.ltb_ge in E. lia. }
  assert (Hpeak : nth t M 0 == nth k prices 0).
  { destruct (HM t Ht) as (Hup & i & Hi & Hi').
    apply Qle_antisym.
    - rewrite Hi', <- (Hnth i Hi), <- (Hnth k ltac:(lia)). apply Hgreatest. lia.
    - apply Hup. lia. }
  exists (nth t ds 0), k, t. split; [| split; [lia | split; [exact Ht | split; [| split]]]].
  - unfold RiskAnalyzer.calculate_max_drawdown. fold M.
    rewrite (np_divide_finite _ M HMpos). fold ds.
    rewrite Hmin, Hargmin. simpl mbind. rewrite Hargmax. reflexivity.
  - rewrite (Hds t Ht), Hpeak. reflexivity.
  - assert (H0 : nth t ds 0 <= nth 0 ds 0) by (apply Hleast; lia).
    assert (Hlen0 : (0 < length prices)%nat) by lia.
    rewrite (Hds 0%nat Hlen0) in H0.
    destruct (HM 0%nat Hlen0) as (_ & i & Hi & Hi').
    assert (i = 0)%nat as -> by lia. rewrite Hi' in H0.
    assert (E : (nth 0 prices 0 - nth 0 prices 0) / nth 0 prices 0 == 0).
    { field. pose proof (Hp 0%nat Hlen0). lra. }
    lra.
  - intros i j Hij Hj.
    apply Qle_trans with (nth j ds 0); [apply Hleast; lia |].
    rewrite (Hds j Hj). destruct (HM j Hj) as (Hup & _).
    apply decline_bound; [apply Hp; lia | apply Hup; lia | apply Hp; lia].
Qed.

Lemma max_drawdown_witness :
  exists max_dd peak_idx trough_idx,
    RiskAnalyzer.calculate_max_drawdown [100; 120; 90; 110]
      = Return (Fin max_dd, peak_idx, trough_idx) /\
    (peak_idx <= trough_idx)%nat /\ (trough_idx < length [100; 120; 90; 110])%nat /\
    max_dd == (nth trough_idx [100; 120; 90; 110] 0 - nth peak_idx [100; 120; 90; 110] 0)
              / nth peak_idx [100; 120; 90; 110] 0 /\
    max_dd <= 0 /\
    forall i j, (i <= j)%nat -> (j < length [100; 120; 90; 110])%nat ->
      max_dd <= (nth j [100; 120; 90; 110] 0 - nth i [100; 120; 90; 110] 0)
                / nth i [100; 120; 90; 110] 0.
Proof.
  apply (max_drawdown_is_worst_decline [100; 120; 90; 110]).
  - discriminate.
  - intros p Hp. simpl in Hp.
    destruct Hp as [<- | [<- | [<- | [<- | []]]]]; reflexivity.
Defined.

(** Without prices there is nothing to reduce: the call raises. *)
Example max_drawdown_empty :
  exists msg, RiskAnalyzer.calculate_max_drawdown [] = Raise (ValueError msg).
Proof. eexists. reflexivity. Qed.

(** ** Capture ratios *)

Lemma mask_select_filter (P : Q -> bool) (a : list Q) :
  mask_select a (List.map P a) = List.filter P a.
Proof.
  induction a as [| x a IH]; [reflexivity |].
  cbn [List.map mask_select List.filter]. destruct (P x); now rewrite IH.
Qed.

Lemma existsb_filter_nonempty (P : Q -> bool) (a : list Q) :
  existsb id (List.map P a) = true -> List.filter P a <> [].
Proof.
  induction a as [| x a IH]; [discriminate |].
  cbn [List.map existsb List.filter]. unfold id at 1.
  destruct (P x); [discriminate | exact IH].
Qed.

Lemma np_sum_gt_bound (l : list Q) (t : Q) :
  l <> [] -> List.Forall (fun x => t < x) l -> np_len l * t < np_sum l.
Proof.
  intros Hne Hall. induction Hall as [| x l Hx Hl IH]; [congruence |].
  rewrite np_sum_cons, np_len_cons. simpl in Hx.
  destruct l as [| y l].
  - unfold np_sum, np_len. cbn [fold_left length]. change (inject_Z (Z.of_nat 0)) with 0.
    lra.
  - specialize (IH ltac:(discriminate)). lra.
Qed.

(** The mean of a non-empty array whose entries all exceed [t] exceeds [t]. *)
Lemma mean_gt_bound (l : list Q) (t : Q) :
  l <> [] -> List.Forall (fun x => t < x) l -> t < np_sum l / np_len l.
Proof.
  intros Hne Hall.
  assert (Hpos : 0 < np_len l).
  { destruct l as [| x l]; [congruence |].
    rewrite np_len_cons. pose proof (np_len_nonneg l). lra. }
  apply Qlt_shift_div_l; [exact Hpos |].
  rewrite Qmult_comm. now apply np_sum_gt_bound.
Qed.

(** The ratio [(1 + m) / (1 + m)] for a mean [m] above -1. *)
Lemma capture_of_equal_means (l : list Q) :
  l <> [] -> List.Forall (fun x => -1 < x) l ->
  exists u,
    f_div (f_add (Fin 1) (np_mean l)) (f_add (Fin 1) (np_mean l)) = Fin u /\ u == 1.
Proof.
  intros Hne Hall. pose proof (mean_gt_bound l (-1) Hne Hall) as Hmean.
  destruct l as [| x l]; [congruence |]. cbn [np_mean f_add f_div].
  set (m := np_sum (x :: l) / np_len (x :: l)) in *.
  unfold np_true_divide.
  destruct (Qeq_bool (1 + m) 0) eqn:E.
  - apply Qeq_bool_iff in E. lra.
  - eexists. split; [reflexivity |]. field. lra.
Qed.

(** X3.  A portfolio that is its own benchmark captures all of the upside, and
    all of the downside when no return is a total loss or worse. *)
Theorem capture_ratios_of_the_benchmark_itself (returns : list Q) :
  (exists up, (RiskAnalyzer.calculate_capture_ratios returns returns).1 = Fin up /\ up == 1) /\
  ((forall r, In r returns -> -1 < r) ->
   exists down,
     (RiskAnalyzer.calculate_capture_ratios returns returns).2 = Fin down /\ down == 1).
Proof.
  unfold RiskAnalyzer.calculate_capture_ratios.
  rewrite Nat.eqb_refl. cbn [negb fst snd].
  rewrite !mask_select_filter. split.
  - destruct (existsb id (List.map Qpos_bool returns)) eqn:E;
      [| exists 1; split; reflexivity].
    apply capture_of_equal_means; [now apply existsb_filter_nonempty |].
    apply List.Forall_forall. intros x Hx. apply List.filter_In in Hx as [_ Hx].
    unfold Qpos_bool in Hx. apply negb_true_iff, Qle_bool_false in Hx. lra.
  - intros Hloss.
    destruct (existsb id (List.map (fun b => Qpos_bool (- b)) returns)) eqn:E;
      [| exists 1; split; reflexivity].
    apply capture_of_equal_means; [now apply existsb_filter_nonempty |].
    apply List.Forall_forall. intros x Hx. apply List.filter_In in Hx as [Hx _].
    now apply Hloss.
Qed.

(** * Further properties of the attribution *)

(** The cut to the shorter series, as the analyzers apply it. *)
Lemma truncated_pair (p b : list Q) :
  (if negb (length p =? length b)%nat
   then (firstn (Nat.min (length p) (length b)) p, firstn (Nat.min (length p) (length b)) b)
   else (p, b))
  = (firstn (Nat.min (length p) (length b)) p, firstn (Nat.min (length p) (length b)) b).
Proof.
  destruct (length p =? length b)%nat eqn:E; [| reflexivity].
  apply Nat.eqb_eq in E. cbn [negb]. rewrite <- E, Nat.min_id, firstn_all.
  rewrite E, firstn_all. reflexivity.
Qed.

(** X4.  The beta of [calculate_alpha_beta_decomposition] is the beta of
    [RiskAnalyzer.calculate_beta] on the same series, and its alpha is the
    alpha of [RiskAnalyzer.calculate_alpha] when the series have the same
    length and the risk-free rates agree. *)
Theorem decomposition_agrees_with_risk_analyzer
    (risk_free_rate : Q) (portfolio_returns benchmark_returns : list Q) :
  exists alpha beta beta_contribution,
    AttributionAnalyzer.calculate_alpha_beta_decomposition risk_free_rate
      portfolio_returns benchmark_returns = Return (alpha, beta, beta_contribution) /\
    RiskAnalyzer.calculate_beta portfolio_returns benchmark_returns = Return beta /\
    (length portfolio_returns = length benchmark_returns ->
     RiskAnalyzer.calculate_alpha risk_free_rate portfolio_returns benchmark_returns None
     = Return alpha).
Proof.
  unfold AttributionAnalyzer.calculate_alpha_beta_decomposition,
    RiskAnalyzer.calculate_alpha, RiskAnalyzer.calculate_beta.
  destruct (length portfolio_returns =? length benchmark_returns)%nat eqn:E; cbn [negb].
  - apply Nat.eqb_eq in E.
    destruct (np_cov01_returns _ _ E) as [cov Hcov]. rewrite Hcov. simpl mbind.
    eexists _, _, _. split; [reflexivity |]. split.
    + destruct (f_is_zero _); reflexivity.
    + intros _. destruct (f_is_zero _); reflexivity.
  - pose proof (firstn_min_lengths portfolio_returns benchmark_returns) as Hlen.
    cbv zeta in Hlen.
    destruct (np_cov01_returns _ _ Hlen) as [cov Hcov]. rewrite Hcov. simpl mbind.
    eexists _, _, _. split; [reflexivity |]. split.
    + destruct (f_is_zero _); reflexivity.
    + intros Heq. apply Nat.eqb_neq in E. contradiction.
Qed.

Lemma np_mean_cases (l : list Q) : np_mean l = NaN \/ exists m, np_mean l = Fin m.
Proof. destruct l; [now left | right; eexists; reflexivity]. Qed.

(** X5.  When the three numbers are finite, alpha and the beta contribution
    add up to the annualised mean portfolio return less the share
    [(1 - beta)] of the risk-free rate. *)
Theorem alpha_plus_beta_contribution
    (risk_free_rate : Q) (portfolio_returns benchmark_returns : list Q)
    (alpha beta beta_contribution : Q) :
  AttributionAnalyzer.calculate_alpha_beta_decomposition risk_free_rate
    portfolio_returns benchmark_returns
  = Return (Fin alpha, Fin beta, Fin beta_contribution) ->
  let min_len := Nat.min (length portfolio_returns) (length benchmark_returns) in
  exists mean_portfolio,
    np_mean (firstn min_len portfolio_returns) = Fin mean_portfolio /\
    alpha + beta_contribution
    == 252 * mean_portfolio - (1 - beta) * risk_free_rate.
Proof.
  unfold AttributionAnalyzer.calculate_alpha_beta_decomposition.
  rewrite truncated_pair. cbv zeta.
  set (p := firstn _ portfolio_returns). set (b := firstn _ benchmark_returns).
  destruct (np_cov01 p b) as [cov | e]; [| discriminate]. simpl mbind.
  set (beta' := if f_is_zero (np_var_ddof1 b) then Fin 0 else f_div cov (np_var_ddof1 b)).
  clearbody beta'. intros H. injection H as Ha Hb Hc. subst beta'.
  unfold AttributionAnalyzer.trading_days_per_year in *.
  destruct (np_mean_cases p) as [Ep | [mp Ep]], (np_mean_cases b) as [Eb | [mb Eb]];
    rewrite Ep, Eb in *; cbn in Ha, Hc; try discriminate;
    try (destruct (Qeq_bool beta 0); cbn in Ha, Hc; discriminate).
  exists mp. split; [reflexivity |].
  injection Ha as <-. injection Hc as <-. field.
Qed.

Lemma alpha_plus_beta_contribution_witness :
  exists alpha beta beta_contribution,
    AttributionAnalyzer.calculate_alpha_beta_decomposition 0.05
      [0.01; 0.03; -0.01] [0.02; 0.01; 0; 0.04]
    = Return (Fin alpha, Fin beta, Fin beta_contribution) /\
    exists mean_portfolio,
      np_mean (firstn 3 [0.01; 0.03; -0.01]) = Fin mean_portfolio /\
      alpha + beta_contribution == 252 * mean_portfolio - (1 - beta) * 0.05.
Proof.
  eexists _, _, _. split; [vm_compute; reflexivity |].
  apply (alpha_plus_beta_contribution 0.05 [0.01; 0.03; -0.01] [0.02; 0.01; 0; 0.04]).
  vm_compute. reflexivity.
Defined.

(** ** Timing contribution *)

Lemma timing_period_unchanged_weights (w returns : gmap string Q) (acc : Q) :
  AttributionAnalyzer.timing_period w w returns acc == acc.
Proof.
  unfold AttributionAnalyzer.timing_period.
  generalize (List.map fst (map_to_list w)). intros sectors. revert acc.
  induction sectors as [| s sectors IH]; intros acc; [reflexivity |].
  cbn [fold_left]. rewrite IH. ring.
Qed.

Lemma timing_step_none (ws rs : list (gmap string Q)) (indices : list nat) :
  fold_left (AttributionAnalyzer.timing_step ws rs) indices None = None.
Proof. induction indices as [| i indices IH]; [reflexivity | exact IH]. Qed.

(** X6.  With fewer than two weight snapshots the timing contribution is 0, and
    with at least two it fails with [IndexError] (modelled by [None]) when
    there are fewer return snapshots than weight snapshots. *)
Theorem timing_contribution_short_series
    (portfolio_weights_series sector_returns_series : list (gmap string Q)) :
  ((length portfolio_weights_series < 2)%nat ->
   AttributionAnalyzer.calculate_timing_contribution
     portfolio_weights_series sector_returns_series = Some 0) /\
  ((2 <= length portfolio_weights_series)%nat ->
   (length sector_returns_series < length portfolio_weights_series)%nat ->
   AttributionAnalyzer.calculate_timing_contribution
     portfolio_weights_series sector_returns_series = None).
Proof.
  unfold AttributionAnalyzer.calculate_timing_contribution. split.
  - intros Hlen. now rewrite (proj2 (Nat.ltb_lt _ _) Hlen).
  - intros Hlen Hshort. rewrite (proj2 (Nat.ltb_ge _ _) Hlen).
    set (ws := portfolio_weights_series) in *. set (rs := sector_returns_series) in *.
    (* the indices split at the first one the returns lack *)
    assert (Hgen : forall start count acc,
               (start <= Nat.max 1 (length rs) < start + count)%nat ->
               (start + count <= length ws)%nat -> (1 <= start)%nat ->
               fold_left (AttributionAnalyzer.timing_step ws rs) (seq start count) acc = None).
    { intros start count. revert start.
      induction count as [| count IH]; intros start acc Hrange Hws Hstart; [lia |].
      cbn [seq fold_left].
      destruct (decide (start = Nat.max 1 (length rs))) as [E | E].
      - assert (Hstep : AttributionAnalyzer.timing_step ws rs acc start = None).
        { unfold AttributionAnalyzer.timing_step.
          destruct acc as [acc |]; [| reflexivity]. cbn [mbind option_bind].
          destruct (ws !! start); [| reflexivity]. cbn [mbind option_bind].
          destruct (ws !! (start - 1)%nat); [| reflexivity]. cbn [mbind option_bind].
          rewrite (proj2 (lookup_ge_None rs start)) by lia. reflexivity. }
        rewrite Hstep. apply timing_step_none.
      - apply IH; lia. }
    apply Hgen; lia.
Qed.

Lemma lookup_repeat_lt {A : Type} (x : A) (n i : nat) :
  (i < n)%nat -> repeat x n !! i = Some x.
Proof.
  revert i. induction n as [| n IH]; intros i Hi; [lia |].
  destruct i as [| i]; [reflexivity |]. cbn [repeat]. apply IH. lia.
Qed.

(** X7.  Weights that never change earn no timing contribution, whatever the
    sector returns, provided there is a return snapshot for every period. *)
Theorem timing_contribution_of_constant_weights
    (w : gmap string Q) (periods : nat) (sector_returns_series : list (gmap string Q)) :
  (periods <= length sector_returns_series)%nat ->
  exists timing,
    AttributionAnalyzer.calculate_timing_contribution (repeat w periods) sector_returns_series
      = Some timing /\
    timing == 0.
Proof.
  intros Hlen. unfold AttributionAnalyzer.calculate_timing_contribution.
  rewrite repeat_length.
  destruct (periods <? 2)%nat eqn:E; [exists 0; split; reflexivity |].
  apply Nat.ltb_ge in E.
  assert (Hgen : forall start count acc,
             (start + count <= periods)%nat -> (1 <= start)%nat -> acc == 0 ->
             exists timing,
               fold_left (AttributionAnalyzer.timing_step (repeat w periods)
                            sector_returns_series) (seq start count) (Some acc)
               = Some timing /\ timing == 0).
  { intros start count. revert start.
    induction count as [| count IH]; intros start acc Hrange Hstart Hacc.
    - exists acc. split; [reflexivity | exact Hacc].
    - cbn [seq fold_left]. unfold AttributionAnalyzer.timing_step at 2.
      cbn [mbind option_bind].
      assert (Hw : forall i, (i < periods)%nat -> repeat w periods !! i = Some w).
      { intros i Hi. apply lookup_repeat_lt. exact Hi. }
      rewrite (Hw start), (Hw (start - 1)%nat) by lia. cbn [mbind option_bind].
      destruct (lookup_lt_is_Some_2 sector_returns_series start ltac:(lia)) as [r Hr].
      rewrite Hr. cbn [mbind option_bind].
      apply IH; [lia | lia |]. rewrite timing_period_unchanged_weights. exact Hacc. }
  apply Hgen; [lia | lia | reflexivity].
Qed.

Lemma timing_contribution_of_constant_weights_witness :
  exists timing,
    AttributionAnalyzer.calculate_timing_contribution
      (repeat {["Tech"%string := 0.6; "Energy"%string := 0.4]} 3)
      [∅; {["Tech"%string := 0.02]}; {["Energy"%string := -0.01]}]
    = Some timing /\ timing == 0.
Proof.
  apply (timing_contribution_of_constant_weights
           {["Tech"%string := 0.6; "Energy"%string := 0.4]} 3
           [∅; {["Tech"%string := 0.02]}; {["Energy"%string := -0.01]}]).
  simpl. lia.
Defined.

(** ** Transaction costs *)

Lemma py_sum_nonneg (l : list Q) : List.Forall (fun x => 0 <= x) l -> 0 <= py_sum l.
Proof.
  induction 1 as [| x l Hx Hl IH]; [unfold py_sum; simpl; lra |].
  rewrite py_sum_cons. simpl in Hx. lra.
Qed.

(** The trades with the direction of each reversed. *)
Definition reverse_trades (trades : list (string * Q * Q)) : list (string * Q * Q) :=
  List.map (fun t => (t.1.1, - t.1.2, t.2)) trades.

Lemma reverse_trades_costs (trades : list (string * Q * Q)) :
  py_sum (List.map (fun t => Qabs (t.1.2) * t.2) (reverse_trades trades))
  == py_sum (List.map (fun t => Qabs (t.1.2) * t.2) trades).
Proof.
  induction trades as [| [[s shares] cost] trades IH]; [reflexivity |].
  cbn [reverse_trades List.map fst snd] in *. rewrite !py_sum_cons, IH, Qabs_opp.
  reflexivity.
Qed.

(** X8.  For a positive NAV and costs per share that are not negative the cost
    drag is never positive, and it is the same whether the shares were
    bought or sold. *)
Theorem transaction_cost_drag_sign (trades : list (string * Q * Q)) (total_nav : Q) :
  0 < total_nav -> (forall t, In t trades -> 0 <= t.2) ->
  AttributionAnalyzer.calculate_transaction_cost_impact trades total_nav <= 0 /\
  AttributionAnalyzer.calculate_transaction_cost_impact (reverse_trades trades) total_nav
  == AttributionAnalyzer.calculate_transaction_cost_impact trades total_nav.
Proof.
  intros Hnav Hcost. unfold AttributionAnalyzer.calculate_transaction_cost_impact.
  destruct (Qeq_bool total_nav 0) eqn:E; [apply Qeq_bool_iff in E; lra |].
  split.
  - assert (Hsum : 0 <= py_sum (List.map (fun t => Qabs (t.1.2) * t.2) trades)).
    { apply py_sum_nonneg, List.Forall_forall. intros x Hx.
      apply List.in_map_iff in Hx as (t & <- & Ht).
      apply Qmult_le_0_compat; [apply Qabs_nonneg | now apply Hcost]. }
    apply Qle_shift_div_r; [exact Hnav |]. lra.
  - rewrite reverse_trades_costs. reflexivity.
Qed.

Lemma transaction_cost_drag_sign_witness :
  AttributionAnalyzer.calculate_transaction_cost_impact
    [("AAPL"%string, 100, 0.01); ("MSFT"%string, -50, 0.02)] 1000000 <= 0 /\
  AttributionAnalyzer.calculate_transaction_cost_impact
    (reverse_trades [("AAPL"%string, 100, 0.01); ("MSFT"%string, -50, 0.02)]) 1000000
  == AttributionAnalyzer.calculate_transaction_cost_impact
       [("AAPL"%string, 100, 0.01); ("MSFT"%string, -50, 0.02)] 1000000.
Proof.
  apply (transaction_cost_drag_sign
           [("AAPL"%string, 100, 0.01); ("MSFT"%string, -50, 0.02)] 1000000).
  - reflexivity.
  - intros t Ht. simpl in Ht. destruct Ht as [<- | [<- | []]]; discriminate.
Defined.

(** ** The Brinson-Fachler effects add up *)

Lemma effects_sum (a b c d : string -> Q) (T : Q) (l : list string) :
  py_sum (List.map (fun s => (a s - b s) * (d s - T) + b s * (c s - d s)
                             + (a s - b s) * (c s - d s)) l)
  == py_sum (List.map (fun s => a s * c s) l) - py_sum (List.map (fun s => b s * d s) l)
     - (py_sum (List.map a l) - py_sum (List.map b l)) * T.
Proof.
  induction l as [| s l IH]; [unfold py_sum; simpl; ring |].
  cbn [List.map]. rewrite !py_sum_cons, IH. ring.
Qed.

(** X9.  Summed over the sectors, the total effects are the sector-weighted
    portfolio return less the benchmark return, less the benchmark return
    times the difference of the two weight totals; with equal weight totals
    (two fully invested portfolios) they are exactly the excess return. *)
Theorem brinson_fachler_effects_add_up
    (portfolio_weights benchmark_weights portfolio_returns benchmark_returns
       : gmap string Q) :
  let sectors :=
    elements (AttributionAnalyzer.all_sectors portfolio_weights benchmark_weights) in
  let total f := py_sum (List.map f sectors) in
  let result :=
    AttributionAnalyzer.calculate_brinson_fachler_attribution
      portfolio_weights benchmark_weights portfolio_returns benchmark_returns in
  let portfolio_return :=
    total (fun s => dict_get portfolio_weights s * dict_get portfolio_returns s) in
  let benchmark_return :=
    total (fun s => dict_get benchmark_weights s * dict_get benchmark_returns s) in
  py_sum (List.map AttributionAnalyzer.total_effect result)
  == portfolio_return - benchmark_return
     - (total (dict_get portfolio_weights) - total (dict_get benchmark_weights))
       * benchmark_return /\
  (total (dict_get portfolio_weights) == total (dict_get benchmark_weights) ->
   py_sum (List.map AttributionAnalyzer.total_effect result)
   == portfolio_return - benchmark_return).
Proof.
  cbv zeta.
  assert (Hsum : py_sum (List.map AttributionAnalyzer.total_effect
                   (AttributionAnalyzer.calculate_brinson_fachler_attribution
                      portfolio_weights benchmark_weights portfolio_returns
                      benchmark_returns))
                 == _) by
    (unfold AttributionAnalyzer.calculate_brinson_fachler_attribution;
     rewrite List.map_map; cbn [AttributionAnalyzer.total_effect];
     apply (effects_sum (dict_get portfolio_weights) (dict_get benchmark_weights)
              (dict_get portfolio_returns) (dict_get benchmark_returns))).
  unfold AttributionAnalyzer.total_benchmark_return in Hsum.
  split; [exact Hsum |]. intros Heq. rewrite Hsum, Heq. ring.
Qed.

(** * Further properties of the stress engine *)

(** The sum of the values of a dictionary. *)
Definition map_total (m : gmap string Q) : Q := py_sum (List.map snd (map_to_list m)).

Lemma map_total_empty : map_total ∅ == 0.
Proof. unfold map_total. rewrite map_to_list_empty. reflexivity. Qed.

Lemma map_total_insert (m : gmap string Q) (k : string) (x : Q) :
  m !! k = None -> map_total (<[k := x]> m) == x + map_total m.
Proof.
  intros Hk. unfold map_total.
  rewrite (py_sum_perm _ _ (Permutation_map snd (map_to_list_insert m k x Hk))).
  cbn [List.map snd]. apply py_sum_cons.
Qed.

Lemma map_total_union (m1 m2 : gmap string Q) :
  m1 ##ₘ m2 -> map_total (m1 ∪ m2) == map_total m1 + map_total m2.
Proof.
  induction m1 as [| k x m1 Hk IH] using map_ind; intros Hdisj.
  - rewrite (left_id_L ∅ (∪)), map_total_empty. ring.
  - apply map_disjoint_insert_l in Hdisj as [Hk2 Hdisj].
    rewrite <- insert_union_l.
    rewrite map_total_insert by (apply lookup_union_None; split; assumption).
    rewrite map_total_insert by exact Hk. rewrite IH by exact Hdisj. ring.
Qed.

Section ImpactLoop.

(** A loop that adds the impact [f key value] of every item to a running
    total and stores it under the item's key. *)
Context {V : Type}.
Variable f : string -> V -> Q.
Variable step : Q * gmap string Q -> string * V -> Q * gmap string Q.
Hypothesis step_spec :
  forall acc k v, step acc (k, v) = (acc.1 + f k v, <[k := f k v]> acc.2).

Lemma impact_loop (items : list (string * V)) (total : Q) (d : gmap string Q) :
  NoDup items.*1 -> (forall k, k ∈ items.*1 -> d !! k = None) ->
  total == map_total d ->
  let r := fold_left step items (total, d) in
  r.1 == map_total r.2 /\
  forall s, r.2 !! s
            = match (list_to_map items : gmap string V) !! s with
              | Some v => Some (f s v)
              | None => d !! s
              end.
Proof.
  revert total d. induction items as [| [k v] items IH]; intros total d Hnd Hfresh Htotal.
  - cbv zeta. cbn [fold_left fst snd]. split; [exact Htotal |].
    intros s. rewrite list_to_map_nil, lookup_empty. reflexivity.
  - rewrite fmap_cons in Hnd, Hfresh. cbn [fst] in Hnd, Hfresh.
    apply NoDup_cons in Hnd as [Hk Hnd].
    cbv zeta. cbn [fold_left]. rewrite step_spec. cbn [fst snd].
    destruct (IH (total + f k v) (<[k := f k v]> d) Hnd) as [IHt IHd].
    + intros k' Hk'. rewrite lookup_insert_ne; [apply Hfresh; now right |].
      intros ->. contradiction.
    + rewrite map_total_insert by (apply Hfresh; now left). rewrite Htotal. ring.
    + split; [exact IHt |]. intros s. rewrite IHd, list_to_map_cons.
      destruct (decide (k = s)) as [-> | Hne].
      * rewrite (not_elem_of_list_to_map_1 _ _ Hk), !lookup_insert_eq. reflexivity.
      * rewrite !lookup_insert_ne by exact Hne. reflexivity.
Qed.

(** Run over the items of a dictionary from an empty result: every key
    gets its impact, no other key appears, and the total is the sum of the
    stored impacts. *)
Lemma impact_loop_on_dict (positions : gmap string V) :
  let r := fold_left step (map_to_list positions) (0, ∅) in
  (forall s, r.2 !! s = f s <$> positions !! s) /\ r.1 == map_total r.2.
Proof.
  destruct (impact_loop (map_to_list positions) 0 ∅ (NoDup_fst_map_to_list positions))
    as [Ht Hd].
  - intros k _. apply lookup_empty.
  - rewrite map_total_empty. reflexivity.
  - cbv zeta in *. split; [| exact Ht].
    intros s. rewrite Hd, list_to_map_to_list, lookup_empty.
    destruct (positions !! s); reflexivity.
Qed.

End ImpactLoop.

(** The impact of one bond position [(value, duration, convexity)] under a
    shock given as a decimal. *)
Definition bond_impact (total_shock_decimal : Q) (position : Q * Q * Q) : Q :=
  - position.1.2 * total_shock_decimal * position.1.1
  + 0.5 * position.2 * (total_shock_decimal ^ 2) * position.1.1.

Lemma fixed_income_loop (positions : gmap string (Q * Q * Q)) (rates credit : Q) :
  let r := StressTestEngine.calculate_fixed_income_impact positions rates credit in
  (forall s, r.2 !! s = bond_impact ((rates + credit) / 10000) <$> positions !! s) /\
  r.1 == map_total r.2.
Proof.
  apply (impact_loop_on_dict (fun _ => bond_impact ((rates + credit) / 10000))).
  intros acc k [[value duration] convexity]. reflexivity.
Qed.

Lemma map_total_zero (m : gmap string Q) :
  (forall k x, m !! k = Some x -> x == 0) -> map_total m == 0.
Proof.
  induction m as [| k x m Hk IH] using map_ind; intros Hzero.
  - apply map_total_empty.
  - rewrite map_total_insert by exact Hk. rewrite IH.
    + rewrite (Hzero k x) by apply lookup_insert_eq. ring.
    + intros k' x' Hk'. apply (Hzero k' x').
      rewrite lookup_insert_ne; [exact Hk' |]. intros ->. congruence.
Qed.

(** X10.  Every bond position moves by the duration term [-D * s * V] plus the
    convexity term [0.5 * C * s^2 * V], where [s] is the sum of the rate and
    credit shocks over 10000; the total is the sum of these impacts; and
    shocks that cancel leave the total at 0. *)
Theorem fixed_income_impact_per_position_and_total
    (positions : gmap string (Q * Q * Q)) (rates_shock_bps credit_spread_shock_bps : Q) :
  let result :=
    StressTestEngine.calculate_fixed_income_impact positions
      rates_shock_bps credit_spread_shock_bps in
  let shock := (rates_shock_bps + credit_spread_shock_bps) / 10000 in
  (forall symbol value duration convexity,
     positions !! symbol = Some (value, duration, convexity) ->
     result.2 !! symbol
     = Some (- duration * shock * value + 0.5 * convexity * (shock ^ 2) * value)) /\
  (forall symbol, positions !! symbol = None -> result.2 !! symbol = None) /\
  result.1 == map_total result.2 /\
  (rates_shock_bps + credit_spread_shock_bps == 0 -> result.1 == 0).
Proof.
  cbv zeta.
  destruct (fixed_income_loop positions rates_shock_bps credit_spread_shock_bps)
    as [Hd Ht]. cbv zeta in Hd, Ht.
  split; [| split; [| split]].
  - intros s v d c Hs. rewrite Hd, Hs. reflexivity.
  - intros s Hs. rewrite Hd, Hs. reflexivity.
  - exact Ht.
  - intros Hzero. rewrite Ht. apply map_total_zero. intros k x Hk.
    rewrite Hd in Hk. destruct (positions !! k) as [[[v d] c] |]; [| discriminate].
    injection Hk as <-. unfold bond_impact. cbn [fst snd]. rewrite Hzero.
    unfold Qdiv. rewrite !Qmult_0_l. simpl Qpower. ring.
Qed.

(** ** Currency and commodity exposures *)

Lemma fx_loop (exposures fx_shocks : gmap string Q) :
  let r := StressTestEngine.calculate_fx_impact exposures fx_shocks in
  (forall s, r.2 !! s = (fun e => e * dict_get fx_shocks s) <$> exposures !! s) /\
  r.1 == map_total r.2.
Proof.
  apply (impact_loop_on_dict (fun s e => e * dict_get fx_shocks s)).
  intros acc k e. reflexivity.
Qed.

(** X11.  Every exposure gets an entry, its amount times the shock of its key; an
    exposure whose key has no shock gets the impact 0 (and still an entry);
    the total is the sum of the entries.  Commodity exposures are treated
    by the same computation. *)
Theorem fx_impact_defaults_to_zero (exposures fx_shocks : gmap string Q) :
  let result := StressTestEngine.calculate_fx_impact exposures fx_shocks in
  (forall key exposure shock,
     exposures !! key = Some exposure -> fx_shocks !! key = Some shock ->
     result.2 !! key = Some (exposure * shock)) /\
  (forall key exposure,
     exposures !! key = Some exposure -> fx_shocks !! key = None ->
     exists impact, result.2 !! key = Some impact /\ impact == 0) /\
  (forall key, exposures !! key = None -> result.2 !! key = None) /\
  result.1 == map_total result.2 /\
  StressTestEngine.calculate_commodity_impact exposures fx_shocks = result.
Proof.
  cbv zeta. destruct (fx_loop exposures fx_shocks) as [Hd Ht]. cbv zeta in Hd, Ht.
  split; [| split; [| split; [| split]]].
  - intros k e s He Hs. rewrite Hd, He. unfold dict_get. rewrite Hs. reflexivity.
  - intros k e He Hs. rewrite Hd, He. unfold dict_get. rewrite Hs.
    eexists. split; [reflexivity |]. cbn [default]. ring.
  - intros k He. rewrite Hd, He. reflexivity.
  - exact Ht.
  - reflexivity.
Qed.

(** ** One scenario over all channels *)

(** What each channel of [run_scenario] contributes: the total and the
    impacts of its calculation when it runs, nothing otherwise. *)
Definition equity_channel (sc : StressTestEngine.Scenario)
    (positions : option (gmap string (Q * Q))) : Q * gmap string Q :=
  match positions with
  | Some p =>
    if StressTestEngine.dict_truthy p
    then StressTestEngine.calculate_equity_impact p (StressTestEngine.equity_shock sc)
    else (0, ∅)
  | None => (0, ∅)
  end.

Definition fixed_income_channel (sc : StressTestEngine.Scenario)
    (positions : option (gmap string (Q * Q * Q))) : Q * gmap string Q :=
  match positions with
  | Some p =>
    if StressTestEngine.dict_truthy p
    then StressTestEngine.calculate_fixed_income_impact p
           (StressTestEngine.rates_shock_bps sc)
           (StressTestEngine.credit_spread_shock_bps sc)
    else (0, ∅)
  | None => (0, ∅)
  end.

Definition shock_channel (shocks : gmap string Q) (exposures : option (gmap string Q))
    : Q * gmap string Q :=
  match exposures with
  | Some e =>
    if StressTestEngine.dict_truthy e && StressTestEngine.dict_truthy shocks
    then StressTestEngine.calculate_fx_impact e shocks
    else (0, ∅)
  | None => (0, ∅)
  end.

Lemma run_scenario_channels sc equity_positions fixed_income_positions
    fx_exposures commodity_exposures :
  let e := equity_channel sc equity_positions in
  let f := fixed_income_channel sc fixed_income_positions in
  let x := shock_channel (StressTestEngine.fx_shocks sc) fx_exposures in
  let c := shock_channel (StressTestEngine.commodity_shocks sc) commodity_exposures in
  StressTestEngine.run_scenario sc equity_positions fixed_income_positions
    fx_exposures commodity_exposures
  = {| StressTestEngine.ScenarioResult.scenario := sc;
       StressTestEngine.ScenarioResult.portfolio_impact := e.1 + f.1 + x.1 + c.1;
       StressTestEngine.ScenarioResult.equity_impact := e.1;
       StressTestEngine.ScenarioResult.fixed_income_impact := f.1;
       StressTestEngine.ScenarioResult.fx_impact := x.1;
       StressTestEngine.ScenarioResult.commodity_impact := c.1;
       StressTestEngine.ScenarioResult.position_impacts := c.2 ∪ (x.2 ∪ (f.2 ∪ e.2));
       StressTestEngine.ScenarioResult.risk_metrics_change := ∅ |}.
Proof.
  cbv zeta.
  unfold StressTestEngine.run_scenario, equity_channel, fixed_income_channel,
    shock_channel, dict_update.
  change (StressTestEngine.calculate_commodity_impact ?e ?s)
    with (StressTestEngine.calculate_fx_impact e s).
  destruct equity_positions as [ep |];
    [destruct (StressTestEngine.dict_truthy ep);
     [destruct (StressTestEngine.calculate_equity_impact _ _) as [et em] |] |];
  (destruct fixed_income_positions as [fp |];
    [destruct (StressTestEngine.dict_truthy fp);
     [destruct (StressTestEngine.calculate_fixed_income_impact _ _ _) as [ft fm] |] |]);
  (destruct fx_exposures as [xe |];
    [destruct (StressTestEngine.dict_truthy xe && _);
     [destruct (StressTestEngine.calculate_fx_impact xe _) as [xt xm] |] |]);
  (destruct commodity_exposures as [ce |];
    [destruct (StressTestEngine.dict_truthy ce && _);
     [destruct (StressTestEngine.calculate_fx_impact ce _) as [ct cm] |] |]);
  cbn [fst snd]; rewrite ?(left_id_L ∅ (∪)), ?(right_id_L ∅ (∪)); reflexivity.
Qed.

(** The keys of an optional dictionary. *)
Definition keys_of {V : Type} (d : option (gmap string V)) : gset string :=
  match d with
  | Some d => dom d
  | None => ∅
  end.

Lemma dict_truthy_false {V : Type} (d : gmap string V) :
  StressTestEngine.dict_truthy d = false -> d = ∅.
Proof.
  unfold StressTestEngine.dict_truthy. intros H.
  apply negb_false_iff, Nat.eqb_eq in H. now apply map_size_empty_inv.
Qed.

Lemma dict_truthy_lookup {V : Type} (d : gmap string V) (k : string) (v : V) :
  d !! k = Some v -> StressTestEngine.dict_truthy d = true.
Proof.
  intros Hk. destruct (StressTestEngine.dict_truthy d) eqn:E; [reflexivity |].
  apply dict_truthy_false in E. subst d. rewrite lookup_empty in Hk. discriminate.
Qed.

Lemma equity_loop_on_dict (positions : gmap string (Q * Q)) (shock : Q) :
  let r := StressTestEngine.calculate_equity_impact positions shock in
  (forall s, r.2 !! s = (fun vb => vb.1 * vb.2 * shock) <$> positions !! s) /\
  r.1 == map_total r.2.
Proof.
  apply (impact_loop_on_dict (fun _ vb => vb.1 * vb.2 * shock)).
  intros acc k [v b]. reflexivity.
Qed.

(** Each channel's total is the sum of its impacts, and it has no impact
    for a key that is not among its exposures. *)
Lemma equity_channel_spec sc positions :
  let c := equity_channel sc positions in
  c.1 == map_total c.2 /\ forall s, s ∉ keys_of positions -> c.2 !! s = None.
Proof.
  cbv zeta. unfold equity_channel, keys_of.
  destruct positions as [p |];
    [destruct (StressTestEngine.dict_truthy p) |];
    try (cbn [fst snd]; split; [now rewrite map_total_empty | intros; apply lookup_empty]).
  destruct (equity_loop_on_dict p (StressTestEngine.equity_shock sc)) as [Hd Ht].
  cbv zeta in Hd, Ht. split; [exact Ht |].
  intros s Hs. rewrite Hd. apply not_elem_of_dom in Hs. now rewrite Hs.
Qed.

Lemma fixed_income_channel_spec sc positions :
  let c := fixed_income_channel sc positions in
  c.1 == map_total c.2 /\ forall s, s ∉ keys_of positions -> c.2 !! s = None.
Proof.
  cbv zeta. unfold fixed_income_channel, keys_of.
  destruct positions as [p |];
    [destruct (StressTestEngine.dict_truthy p) |];
    try (cbn [fst snd]; split; [now rewrite map_total_empty | intros; apply lookup_empty]).
  destruct (fixed_income_loop p (StressTestEngine.rates_shock_bps sc)
              (StressTestEngine.credit_spread_shock_bps sc)) as [Hd Ht].
  cbv zeta in Hd, Ht. split; [exact Ht |].
  intros s Hs. rewrite Hd. apply not_elem_of_dom in Hs. now rewrite Hs.
Qed.

Lemma shock_channel_spec shocks exposures :
  let c := shock_channel shocks exposures in
  c.1 == map_total c.2 /\ forall s, s ∉ keys_of exposures -> c.2 !! s = None.
Proof.
  cbv zeta. unfold shock_channel, keys_of.
  destruct exposures as [e |];
    [destruct (StressTestEngine.dict_truthy e && StressTestEngine.dict_truthy shocks) |];
    try (cbn [fst snd]; split; [now rewrite map_total_empty | intros; apply lookup_empty]).
  destruct (fx_loop e shocks) as [Hd Ht].
  cbv zeta in Hd, Ht. split; [exact Ht |].
  intros s Hs. rewrite Hd. apply not_elem_of_dom in Hs. now rewrite Hs.
Qed.

(** X12.  A symbol held both as an equity and as a bond position (and that names
    no currency or commodity exposure) keeps only its bond impact in the
    per-position breakdown, although its equity impact is part of the equity
    total. *)
Theorem shared_symbol_keeps_the_bond_impact
    sc (equity_positions : gmap string (Q * Q))
    (fixed_income_positions : gmap string (Q * Q * Q))
    (fx_exposures commodity_exposures : option (gmap string Q))
    (symbol : string) (value beta : Q) (bond : Q * Q * Q) :
  equity_positions !! symbol = Some (value, beta) ->
  fixed_income_positions !! symbol = Some bond ->
  symbol ∉ keys_of fx_exposures -> symbol ∉ keys_of commodity_exposures ->
  let result :=
    StressTestEngine.run_scenario sc (Some equity_positions)
      (Some fixed_income_positions) fx_exposures commodity_exposures in
  let equity :=
    StressTestEngine.calculate_equity_impact equity_positions
      (StressTestEngine.equity_shock sc) in
  let shock :=
    (StressTestEngine.rates_shock_bps sc + StressTestEngine.credit_spread_shock_bps sc)
    / 10000 in
  StressTestEngine.ScenarioResult.position_impacts result !! symbol
    = Some (bond_impact shock bond) /\
  StressTestEngine.ScenarioResult.equity_impact result = equity.1 /\
  equity.2 !! symbol = Some (value * beta * StressTestEngine.equity_shock sc).
Proof.
  intros He Hf Hx Hc. cbv zeta. rewrite run_scenario_channels. cbv zeta.
  cbn [StressTestEngine.ScenarioResult.position_impacts
       StressTestEngine.ScenarioResult.equity_impact].
  destruct (shock_channel_spec (StressTestEngine.commodity_shocks sc) commodity_exposures)
    as [_ Hcm].
  destruct (shock_channel_spec (StressTestEngine.fx_shocks sc) fx_exposures) as [_ Hxm].
  cbv zeta in Hcm, Hxm.
  unfold equity_channel, fixed_income_channel.
  rewrite (dict_truthy_lookup _ _ _ He), (dict_truthy_lookup _ _ _ Hf).
  destruct (fixed_income_loop fixed_income_positions (StressTestEngine.rates_shock_bps sc)
              (StressTestEngine.credit_spread_shock_bps sc)) as [Hfd _].
  destruct (equity_loop_on_dict equity_positions (StressTestEngine.equity_shock sc))
    as [Hed _].
  cbv zeta in Hfd, Hed. split; [| split].
  - rewrite lookup_union_r by (apply Hcm; exact Hc).
    rewrite lookup_union_r by (apply Hxm; exact Hx).
    apply lookup_union_Some_l. rewrite Hfd, Hf. reflexivity.
  - reflexivity.
  - rewrite Hed, He. reflexivity.
Qed.

Lemma shared_symbol_witness :
  let result :=
    StressTestEngine.run_scenario
      (StressTestEngine.scenario "Shock" StressTestEngine.CUSTOM "" (-0.1) 100 0 [] [] 0
         StressTestEngine.no_period)
      (Some {["XYZ"%string := (1000, 1)]}) (Some {["XYZ"%string := (2000, 5, 0)]})
      None None in
  StressTestEngine.ScenarioResult.position_impacts result !! "XYZ"%string
    = Some (bond_impact ((100 + 0) / 10000) (2000, 5, 0)) /\
  StressTestEngine.ScenarioResult.equity_impact result
    = (StressTestEngine.calculate_equity_impact {["XYZ"%string := (1000, 1)]} (-0.1)).1 /\
  (StressTestEngine.calculate_equity_impact {["XYZ"%string := (1000, 1)]} (-0.1)).2
    !! "XYZ"%string = Some (1000 * 1 * -0.1).
Proof.
  apply (shared_symbol_keeps_the_bond_impact
           (StressTestEngine.scenario "Shock" StressTestEngine.CUSTOM "" (-0.1) 100 0 [] [] 0
              StressTestEngine.no_period)
           {["XYZ"%string := (1000, 1)]} {["XYZ"%string := (2000, 5, 0)]} None None
           "XYZ" 1000 1 (2000, 5, 0)).
  - apply lookup_singleton_eq.
  - apply lookup_singleton_eq.
  - apply not_elem_of_empty.
  - apply not_elem_of_empty.
Defined.

(** X13.  When no key is shared between the four dictionaries of exposures, the
    portfolio impact is the sum of the per-position breakdown. *)
Theorem disjoint_exposures_breakdown_adds_up
    sc (equity_positions : option (gmap string (Q * Q)))
    (fixed_income_positions : option (gmap string (Q * Q * Q)))
    (fx_exposures commodity_exposures : option (gmap string Q)) :
  keys_of equity_positions ## keys_of fixed_income_positions ->
  keys_of equity_positions ## keys_of fx_exposures ->
  keys_of equity_positions ## keys_of commodity_exposures ->
  keys_of fixed_income_positions ## keys_of fx_exposures ->
  keys_of fixed_income_positions ## keys_of commodity_exposures ->
  keys_of fx_exposures ## keys_of commodity_exposures ->
  let result :=
    StressTestEngine.run_scenario sc equity_positions fixed_income_positions
      fx_exposures commodity_exposures in
  StressTestEngine.ScenarioResult.portfolio_impact result
  == map_total (StressTestEngine.ScenarioResult.position_impacts result).
Proof.
  intros Hef Hex Hec Hfx Hfc Hxc. cbv zeta. rewrite run_scenario_channels. cbv zeta.
  cbn [StressTestEngine.ScenarioResult.position_impacts
       StressTestEngine.ScenarioResult.portfolio_impact].
  destruct (equity_channel_spec sc equity_positions) as [Het Hed].
  destruct (fixed_income_channel_spec sc fixed_income_positions) as [Hft Hfd].
  destruct (shock_channel_spec (StressTestEngine.fx_shocks sc) fx_exposures) as [Hxt Hxd].
  destruct (shock_channel_spec (StressTestEngine.commodity_shocks sc) commodity_exposures)
    as [Hct Hcd].
  cbv zeta in *.
  set (e := equity_channel sc equity_positions) in *.
  set (f := fixed_income_channel sc fixed_income_positions) in *.
  set (x := shock_channel (StressTestEngine.fx_shocks sc) fx_exposures) in *.
  set (c := shock_channel (StressTestEngine.commodity_shocks sc) commodity_exposures) in *.
  assert (Hdisj : forall (m1 m2 : gmap string Q) (k1 k2 : gset string),
             (forall s, s ∉ k1 -> m1 !! s = None) -> (forall s, s ∉ k2 -> m2 !! s = None) ->
             k1 ## k2 -> m1 ##ₘ m2).
  { intros m1 m2 k1 k2 H1 H2 Hk. apply map_disjoint_alt. intros s.
    destruct (decide (s ∈ k1)) as [Hin | Hout]; [right | left; now apply H1].
    apply H2. intros Hin2. exact (Hk s Hin Hin2). }
  assert (Hfe : f.2 ##ₘ e.2) by (eapply Hdisj; eauto; now symmetry).
  assert (Hxf : x.2 ##ₘ f.2) by (eapply Hdisj; eauto; now symmetry).
  assert (Hxe : x.2 ##ₘ e.2) by (eapply Hdisj; eauto; now symmetry).
  assert (Hcx : c.2 ##ₘ x.2) by (eapply Hdisj; eauto; now symmetry).
  assert (Hcf : c.2 ##ₘ f.2) by (eapply Hdisj; eauto; now symmetry).
  assert (Hce : c.2 ##ₘ e.2) by (eapply Hdisj; eauto; now symmetry).
  rewrite !map_total_union.
  - rewrite Het, Hft, Hxt, Hct. ring.
  - exact Hfe.
  - apply map_disjoint_union_r. split; assumption.
  - apply map_disjoint_union_r. split; [assumption |].
    apply map_disjoint_union_r. split; assumption.
Qed.

Lemma disjoint_exposures_witness :
  let result :=
    StressTestEngine.run_scenario
      (StressTestEngine.scenario "Shock" StressTestEngine.CUSTOM "" (-0.1) 100 0 [] [] 0
         StressTestEngine.no_period)
      (Some {["XYZ"%string := (1000, 1)]}) (Some {["UST"%string := (2000, 5, 0)]})
      None None in
  StressTestEngine.ScenarioResult.portfolio_impact result
  == map_total (StressTestEngine.ScenarioResult.position_impacts result).
Proof.
  apply (disjoint_exposures_breakdown_adds_up
           (StressTestEngine.scenario "Shock" StressTestEngine.CUSTOM "" (-0.1) 100 0 [] [] 0
              StressTestEngine.no_period)
           (Some {["XYZ"%string := (1000, 1)]}) (Some {["UST"%string := (2000, 5, 0)]})
           None None); cbn [keys_of]; rewrite ?dom_singleton_L; set_solver.
Defined.

Lemma map_fst_fmap {A B : Type} (l : list (A * B)) : List.map fst l = l.*1.
Proof. induction l as [| a l IH]; [reflexivity |]. cbn. now rewrite IH. Qed.

Lemma NoDup_map_fst_filter {A B : Type} (P : A * B -> bool) (l : list (A * B)) :
  NoDup (List.map fst l) -> NoDup (List.map fst (List.filter P l)).
Proof.
  induction l as [| a l IH]; [intros; constructor |].
  cbn [List.map List.filter]. intros Hnd. apply NoDup_cons in Hnd as [Hnotin Hnd].
  destruct (P a).
  - cbn [List.map]. apply NoDup_cons. split; [| now apply IH].
    intros Hin. apply Hnotin. apply list_elem_of_In in Hin. apply list_elem_of_In.
    apply in_map_iff in Hin as [kv [Hk Hin]]. apply filter_In in Hin as [Hin _].
    apply in_map_iff. now exists kv.
  - now apply IH.
Qed.

Lemma list_scenarios_spec (self : StressTestEngine.t)
    (ty : option StressTestEngine.ScenarioType) (key : string) :
  key ∈ StressTestEngine.list_scenarios self ty <->
  exists sc, StressTestEngine.scenarios self !! key = Some sc /\
    match ty with
    | Some ty => StressTestEngine.scenario_type sc = ty
    | None => True
    end.
Proof.
  assert (Heqb : forall a b, StressTestEngine.scenario_type_eqb a b = true <-> a = b).
  { intros [] []; cbn; split; congruence. }
  unfold StressTestEngine.list_scenarios. rewrite list_elem_of_In.
  destruct ty as [ty |]; rewrite in_map_iff; split.
  - intros [[k sc] [Hk Hin]]. cbn in Hk. subst k.
    apply filter_In in Hin as [Hin Hty]. cbn in Hty.
    apply list_elem_of_In, elem_of_map_to_list in Hin.
    exists sc. split; [exact Hin | now apply Heqb].
  - intros [sc [Hk Hty]]. exists (key, sc). split; [reflexivity |].
    apply filter_In. split; [| now apply Heqb].
    now apply list_elem_of_In, elem_of_map_to_list.
  - intros [[k sc] [Hk Hin]]. cbn in Hk. subst k.
    apply list_elem_of_In, elem_of_map_to_list in Hin. now exists sc.
  - intros [sc [Hk _]]. exists (key, sc). split; [reflexivity |].
    now apply list_elem_of_In, elem_of_map_to_list.
Qed.

Lemma list_scenarios_NoDup (self : StressTestEngine.t)
    (ty : option StressTestEngine.ScenarioType) :
  NoDup (StressTestEngine.list_scenarios self ty).
Proof.
  unfold StressTestEngine.list_scenarios.
  pose proof (NoDup_fst_map_to_list (StressTestEngine.scenarios self)) as Hnd.
  rewrite <- map_fst_fmap in Hnd.
  destruct ty as [ty |]; [now apply NoDup_map_fst_filter | exact Hnd].
Qed.

Lemma run_keys_present (self : StressTestEngine.t) (keys : list string)
    equity_positions fixed_income_positions fx_exposures commodity_exposures :
  (forall key, key ∈ keys -> is_Some (StressTestEngine.scenarios self !! key)) ->
  exists results,
    StressTestEngine.run_keys self keys equity_positions fixed_income_positions
      fx_exposures commodity_exposures = Some results /\
    Forall2 (fun key result =>
               exists sc, StressTestEngine.scenarios self !! key = Some sc /\
                 result = StressTestEngine.run_scenario sc equity_positions
                            fixed_income_positions fx_exposures commodity_exposures)
            keys results.
Proof.
  induction keys as [| key keys IH]; intros Hk.
  - exists []. split; [reflexivity | constructor].
  - destruct IH as [results [Hrun Hall]].
    { intros k Hin. apply Hk. now right. }
    destruct (Hk key) as [sc Hsc]; [now left |].
    exists (StressTestEngine.run_scenario sc equity_positions fixed_income_positions
              fx_exposures commodity_exposures :: results).
    split.
    + cbn [StressTestEngine.run_keys]. rewrite Hsc. cbn. rewrite Hrun. reflexivity.
    + constructor; [now exists sc | exact Hall].
Qed.

(** X14.  Running all scenarios never fails on a missing key: it returns one result
    per listed key, each the run of the scenario stored under that key; the
    listed keys are, without repetition, exactly the keys of the catalog whose
    scenario has the requested type (all keys when no type is given). *)
Theorem run_all_scenarios_runs_each_listed_scenario
    (self : StressTestEngine.t)
    (equity_positions : option (gmap string (Q * Q)))
    (fixed_income_positions : option (gmap string (Q * Q * Q)))
    (fx_exposures commodity_exposures : option (gmap string Q))
    (scenario_type : option StressTestEngine.ScenarioType) :
  let scenario_keys := StressTestEngine.list_scenarios self scenario_type in
  NoDup scenario_keys /\
  (forall key, key ∈ scenario_keys <->
     exists sc, StressTestEngine.scenarios self !! key = Some sc /\
       match scenario_type with
       | Some ty => StressTestEngine.scenario_type sc = ty
       | None => True
       end) /\
  exists results,
    StressTestEngine.run_all_scenarios self equity_positions fixed_income_positions
      fx_exposures commodity_exposures scenario_type = Some results /\
    length results = length scenario_keys /\
    Forall2 (fun key result =>
               exists sc, StressTestEngine.scenarios self !! key = Some sc /\
                 result = StressTestEngine.run_scenario sc equity_positions
                            fixed_income_positions fx_exposures commodity_exposures)
            scenario_keys results.
Proof.
  cbv zeta. split; [apply list_scenarios_NoDup |].
  split; [apply list_scenarios_spec |].
  destruct (run_keys_present self (StressTestEngine.list_scenarios self scenario_type)
              equity_positions fixed_income_positions fx_exposures commodity_exposures)
    as [results [Hrun Hall]].
  { intros key Hin. apply list_scenarios_spec in Hin as [sc [Hsc _]]. now exists sc. }
  exists results. split; [exact Hrun |]. split; [| exact Hall].
  symmetry. exact (Forall2_length _ _ _ Hall).
Qed.

(** * Further properties of the optimiser *)

Lemma py_dict_fold_total (items : list (string * Q)) (d : gmap string Q) :
  NoDup items.*1 -> (forall k, k ∈ items.*1 -> d !! k = None) ->
  map_total (fold_left (fun d kv => <[kv.1 := kv.2]> d) items d)
  == map_total d + np_sum items.*2.
Proof.
  revert d. induction items as [| [k v] items IH]; intros d Hnd Hfresh.
  - cbn. unfold np_sum. cbn. ring.
  - cbn [fold_left fst snd]. rewrite fmap_cons in Hnd. cbn [fst] in Hnd.
    apply NoDup_cons in Hnd as [Hk Hnd].
    rewrite IH.
    + rewrite map_total_insert by (apply Hfresh; rewrite fmap_cons; now left).
      rewrite fmap_cons. cbn [snd]. rewrite np_sum_cons. ring.
    + exact Hnd.
    + intros k' Hk'. rewrite lookup_insert_ne by (intros ->; contradiction).
      apply Hfresh. rewrite fmap_cons. now right.
Qed.

Lemma dict_zip_total (symbols : list string) (values : list Q) :
  NoDup symbols -> length values = length symbols ->
  map_total (dict_zip symbols values) == np_sum values.
Proof.
  intros Hnd Hlen. unfold dict_zip, py_dict.
  rewrite py_dict_fold_total.
  - rewrite map_total_empty, snd_zip by lia. ring.
  - rewrite fst_zip by lia. exact Hnd.
  - intros k _. apply lookup_empty.
Qed.

(** The shapes the optimiser's arguments must have for numpy's products to
    be defined: one expected return per symbol and a square covariance
    matrix of that size. *)
Definition conforming (n : nat) (expected_returns : list Q) (cov_matrix : list (list Q))
    : Prop :=
  length expected_returns = n /\ length cov_matrix = n /\
  List.Forall (fun row => length row = n) cov_matrix.

(** What is assumed of a solver: given one bound per initial weight, it
    answers with as many weights as it was given. *)
Definition keeps_shape (minimize : scipy.minimize_t) : Prop :=
  forall f x0 method bnds cons maxiter ftol,
    length bnds = length x0 ->
    length (scipy.x (minimize f x0 method bnds cons maxiter ftol)) = length x0.

Lemma conforming_shapes_aligned (w expected_returns : list Q) (cov_matrix : list (list Q)) :
  conforming (length w) expected_returns cov_matrix ->
  PortfolioOptimizer.shapes_aligned w expected_returns cov_matrix = true.
Proof.
  intros [Her [Hcov Hrows]]. unfold PortfolioOptimizer.shapes_aligned.
  rewrite Her, Hcov, Nat.eqb_refl. cbn [andb].
  apply forallb_forall. intros row Hrow. apply Nat.eqb_eq.
  exact (proj1 (List.Forall_forall _ _) Hrows row Hrow).
Qed.

Lemma exact_solver_keeps_shape : keeps_shape exact_solver.minimize.
Proof.
  intros f x0 method bnds cons maxiter ftol Hlen. unfold exact_solver.minimize.
  destruct bnds as [| [l1 u1] [| [l2 u2] [| b bnds]]]; try reflexivity.
  destruct x0 as [| a [| b [| c x0]]]; try discriminate Hlen.
  repeat match goal with
         | |- context [match ?c with _ => _ end] => destruct c
         end; reflexivity.
Qed.

Section OptimizerFurther.

Import PortfolioOptimizer.

Variable np_sqrt : Q -> Q.
Variable minimize : scipy.minimize_t.
Variable risk_free_rate : Q.

Let mvo := mean_variance_optimization np_sqrt minimize risk_free_rate.
Let solver := solver_call np_sqrt minimize risk_free_rate.
Let frontier := efficient_frontier np_sqrt minimize risk_free_rate.

(** The call in terms of the solver's answer: the statistics of the answer
    when it reports success, the equal weights otherwise. *)
Lemma mvo_after_solver symbols expected_returns cov_matrix objective constraints res :
  solver symbols expected_returns cov_matrix objective constraints = Return res ->
  mvo symbols expected_returns cov_matrix objective constraints
  = if scipy.success res then
      '(exp_ret, exp_vol, sharpe) ←
        calculate_portfolio_stats np_sqrt risk_free_rate (scipy.x res)
          expected_returns cov_matrix;
      Return {| weights := dict_zip symbols (scipy.x res);
                expected_return := exp_ret;
                expected_volatility := exp_vol;
                sharpe_ratio := sharpe;
                success := true;
                message := "Optimization successful";
                iterations := scipy.nit res |}
    else
      Return {| weights :=
                  dict_zip symbols
                    (repeat (1 / inject_Z (Z.of_nat (length symbols))) (length symbols));
                expected_return := 0;
                expected_volatility := 0;
                sharpe_ratio := 0;
                success := false;
                message := scipy.message res;
                iterations := scipy.nit res |}.
Proof.
  intros Hcall. unfold solver, solver_call in Hcall.
  unfold mvo, mean_variance_optimization. unfold init_weights in *.
  destruct (length symbols =? 0)%nat; [discriminate |].
  cbn [mbind outcome_bind] in *.
  destruct (obj_func _ _ _ _ objective) as [f | e]; [| discriminate].
  cbn [mbind outcome_bind] in *. injection Hcall as ->. reflexivity.
Qed.

Lemma mvo_returns symbols expected_returns cov_matrix objective constraints res :
  solver symbols expected_returns cov_matrix objective constraints = Return res ->
  conforming (length symbols) expected_returns cov_matrix ->
  length (scipy.x res) = length symbols ->
  exists result,
    mvo symbols expected_returns cov_matrix objective constraints = Return result /\
    success result = scipy.success res /\
    (scipy.success res = false -> expected_return result = 0).
Proof.
  intros Hcall Hshape Hlen. rewrite (mvo_after_solver _ _ _ _ _ _ Hcall).
  destruct (scipy.success res).
  - unfold calculate_portfolio_stats.
    rewrite conforming_shapes_aligned by (rewrite Hlen; exact Hshape).
    cbn [negb mbind outcome_bind]. eexists. split; [reflexivity |].
    split; [reflexivity | discriminate].
  - eexists. split; [reflexivity |]. split; reflexivity.
Qed.

(** X15.  What a call of the optimiser does before and after the solver.
    Without assets the initial weights divide by zero (whatever the
    objective), and with assets the risk-parity objective is rejected as
    unsupported: both before the solver is called.  For every other call,
    whenever the solver gives an answer: if the answer has one weight per
    symbol and the expected returns and the covariance matrix have the
    shapes of the symbols, the call returns a result with the solver's
    success flag; and if the answer reports success on weights whose shape
    does not agree with the expected returns or the covariance matrix, the
    call raises [ValueError] from the portfolio statistics. *)
Theorem optimization_errors_around_the_solver
    symbols expected_returns cov_matrix objective constraints :
  (symbols = [] ->
   mvo symbols expected_returns cov_matrix objective constraints
   = Raise ZeroDivisionError) /\
  (symbols <> [] -> objective = RISK_PARITY ->
   mvo symbols expected_returns cov_matrix objective constraints
   = Raise (ValueError "Unsupported objective: OptimizationObjective.RISK_PARITY")) /\
  (forall res,
     solver symbols expected_returns cov_matrix objective constraints = Return res ->
     (conforming (length symbols) expected_returns cov_matrix ->
      length (scipy.x res) = length symbols ->
      exists result,
        mvo symbols expected_returns cov_matrix objective constraints = Return result /\
        success result = scipy.success res) /\
     (scipy.success res = true ->
      shapes_aligned (scipy.x res) expected_returns cov_matrix = false ->
      exists msg,
        mvo symbols expected_returns cov_matrix objective constraints
        = Raise (ValueError msg)) /\
     (scipy.success res = false ->
      exists result,
        mvo symbols expected_returns cov_matrix objective constraints = Return result /\
        success result = false)).
Proof.
  split; [| split].
  - intros ->. reflexivity.
  - intros Hs ->. destruct symbols as [| s symbols]; [congruence | reflexivity].
  - intros res Hres. split; [| split].
    + intros Hshape Hlen.
      destruct (mvo_returns _ _ _ _ _ _ Hres Hshape Hlen) as [result [Hr [Hok _]]].
      now exists result.
    + intros Hok Hbad. rewrite (mvo_after_solver _ _ _ _ _ _ Hres), Hok.
      unfold calculate_portfolio_stats. rewrite Hbad. cbn. now eexists.
    + intros Hfail. rewrite (mvo_after_solver _ _ _ _ _ _ Hres), Hfail.
      eexists. split; reflexivity.
Qed.

(** X16.  When the expected returns and the covariance matrix have the
    shapes of the symbols and the solver reports success with one weight per
    symbol and an answer that meets the budget constraint, the weights of the
    result, read per symbol, sum to one, provided no symbol is listed twice;
    the expected return of the result is that of the solver's weights. *)
Theorem successful_weights_sum_to_one
    symbols expected_returns cov_matrix objective constraints res :
  NoDup symbols ->
  conforming (length symbols) expected_returns cov_matrix ->
  solver symbols expected_returns cov_matrix objective constraints = Return res ->
  scipy.success res = true ->
  length (scipy.x res) = length symbols ->
  scipy.cfun budget_constraint (scipy.x res) == 0 ->
  exists result,
    mvo symbols expected_returns cov_matrix objective constraints = Return result /\
    success result = true /\
    weights result = dict_zip symbols (scipy.x res) /\
    map_total (weights result) == 1 /\
    expected_return result = np_dot (scipy.x res) expected_returns.
Proof.
  intros Hnd Hshape Hcall Hok Hlen Hbudget.
  rewrite (mvo_after_solver _ _ _ _ _ _ Hcall), Hok.
  unfold calculate_portfolio_stats.
  rewrite conforming_shapes_aligned by (rewrite Hlen; exact Hshape).
  cbn [negb mbind outcome_bind].
  eexists. split; [reflexivity |]. cbn [success weights expected_return].
  split; [reflexivity |]. split; [reflexivity |]. split; [| reflexivity].
  rewrite dict_zip_total by assumption.
  cbn [budget_constraint scipy.cfun] in Hbudget. lra.
Qed.

Hypothesis minimize_keeps_shape : keeps_shape minimize.

Lemma solver_answer_shape symbols expected_returns cov_matrix objective constraints res :
  solver symbols expected_returns cov_matrix objective constraints = Return res ->
  length (scipy.x res) = length symbols.
Proof.
  unfold solver, solver_call, init_weights. intros Hcall.
  destruct (length symbols =? 0)%nat; [discriminate |].
  cbn [mbind outcome_bind] in Hcall.
  destruct (obj_func _ _ _ _ objective) as [f | e]; [| discriminate].
  cbn [mbind outcome_bind] in Hcall. injection Hcall as <-.
  rewrite minimize_keeps_shape; [apply repeat_length |].
  unfold bounds. destruct (long_only _); now rewrite !repeat_length.
Qed.

Lemma mvo_returns_with_solver symbols expected_returns cov_matrix objective constraints :
  symbols <> [] -> objective <> RISK_PARITY ->
  conforming (length symbols) expected_returns cov_matrix ->
  exists result,
    mvo symbols expected_returns cov_matrix objective constraints = Return result /\
    (success result = false -> expected_return result = 0).
Proof.
  intros Hs Ho Hshape.
  destruct (solver_call_reached np_sqrt minimize risk_free_rate symbols expected_returns
              cov_matrix objective constraints Hs Ho) as [res Hres].
  destruct (mvo_returns _ _ _ _ _ _ Hres Hshape (solver_answer_shape _ _ _ _ _ _ Hres))
    as [result [Hr [Hok Hzero]]].
  exists result. split; [exact Hr |]. intros Hfail. apply Hzero. now rewrite <- Hok.
Qed.

Lemma frontier_loop_spec symbols expected_returns cov_matrix constraints acc targets :
  symbols <> [] -> conforming (length symbols) expected_returns cov_matrix ->
  exists kept,
    frontier_loop np_sqrt minimize risk_free_rate symbols expected_returns cov_matrix
      constraints acc targets = Return (acc ++ kept) /\
    Forall (fun r => success r = true) kept /\
    (length kept <= length targets)%nat.
Proof.
  intros Hs Hshape. revert acc. induction targets as [| target targets IH]; intros acc.
  - exists []. cbn. rewrite app_nil_r. repeat split; [constructor | lia].
  - cbn [frontier_loop]. unfold frontier_step.
    match goal with
    | |- context [mean_variance_optimization _ _ _ _ _ _ TARGET_RETURN ?c] =>
      destruct (mvo_returns_with_solver symbols expected_returns cov_matrix TARGET_RETURN c
                  Hs ltac:(discriminate) Hshape) as [result [Hresult _]]
    end.
    unfold mvo in Hresult. rewrite Hresult. cbn [mbind outcome_bind].
    destruct (success result) eqn:Hok.
    + destruct (IH (acc ++ [result])) as [kept [Hrun [Hall Hlen]]].
      exists (result :: kept). rewrite Hrun, <- app_assoc. cbn [app].
      repeat split; [constructor; assumption | cbn [length]; lia].
    + destruct (IH acc) as [kept [Hrun [Hall Hlen]]].
      exists kept. rewrite Hrun. repeat split; [assumption | cbn [length]; lia].
Qed.

Lemma np_linspace_length (start stop : Q) (num : Z) :
  (0 <= num)%Z ->
  exists points, np_linspace start stop num = Return points /\
                 length points = Z.to_nat num.
Proof.
  intros Hnum. unfold np_linspace.
  destruct (num <? 0)%Z eqn:E; [apply Z.ltb_lt in E; lia |].
  eexists. split; [reflexivity |].
  set (y := List.map _ (seq 0 (Z.to_nat num))).
  assert (Hy : length y = Z.to_nat num).
  { unfold y. now rewrite length_map, length_seq. }
  destruct (1 <? num)%Z eqn:E1; [| exact Hy].
  apply Z.ltb_lt in E1. rewrite length_app, removelast_firstn_len, length_firstn, Hy.
  cbn [length]. lia.
Qed.

(** X17.  With at least one asset, a non-negative number of points,
    expected returns and a covariance matrix of the shapes of the symbols,
    and a solver that answers every call with one weight per asset, the
    frontier is computed without an exception.  When the minimum-variance
    return is not below the maximum return - in particular when both end
    point solves fail, their returns being reported as zero - the frontier is
    the minimum-variance result alone, successful or not; otherwise it holds
    successful results only, at most one per requested point. *)
Theorem efficient_frontier_holds_successful_results
    symbols expected_returns cov_matrix n_points constraints :
  symbols <> [] -> (0 <= n_points)%Z ->
  conforming (length symbols) expected_returns cov_matrix ->
  exists min_ret_result max_ret_result results,
    mvo symbols expected_returns cov_matrix MIN_VARIANCE constraints
      = Return min_ret_result /\
    mvo symbols expected_returns cov_matrix MAX_RETURN constraints
      = Return max_ret_result /\
    frontier symbols expected_returns cov_matrix n_points constraints = Return results /\
    (if Qle_bool (expected_return max_ret_result) (expected_return min_ret_result)
     then results = [min_ret_result]
     else Forall (fun r => success r = true) results /\
          (length results <= Z.to_nat n_points)%nat) /\
    (success min_ret_result = false -> success max_ret_result = false ->
     results = [min_ret_result]).
Proof.
  intros Hs Hn Hshape.
  destruct (mvo_returns_with_solver symbols expected_returns cov_matrix MIN_VARIANCE
              constraints Hs ltac:(discriminate) Hshape) as [lo [Hlo Hlo0]].
  destruct (mvo_returns_with_solver symbols expected_returns cov_matrix MAX_RETURN
              constraints Hs ltac:(discriminate) Hshape) as [hi [Hhi Hhi0]].
  exists lo, hi.
  assert (Hrun : exists results,
             frontier symbols expected_returns cov_matrix n_points constraints
               = Return results /\
             if Qle_bool (expected_return hi) (expected_return lo)
             then results = [lo]
             else Forall (fun r => success r = true) results /\
                  (length results <= Z.to_nat n_points)%nat).
  { unfold frontier, efficient_frontier. unfold mvo in Hlo, Hhi. rewrite Hlo.
    cbn [mbind outcome_bind]. rewrite Hhi. cbn [mbind outcome_bind].
    destruct (Qle_bool (expected_return hi) (expected_return lo)) eqn:E.
    - exists [lo]. split; reflexivity.
    - destruct (np_linspace_length (expected_return lo) (expected_return hi) n_points Hn)
        as [points [Hpoints Hlen]].
      rewrite Hpoints. cbn [mbind outcome_bind].
      destruct (frontier_loop_spec symbols expected_returns cov_matrix constraints []
                  points Hs Hshape) as [kept [Hloop [Hall Hkept]]].
      exists kept. cbn [app] in Hloop. split; [exact Hloop |]. split; [exact Hall | lia]. }
  destruct Hrun as [results [Hrun Hform]]. exists results.
  split; [exact Hlo |]. split; [exact Hhi |]. split; [exact Hrun |].
  split; [exact Hform |].
  intros Hflo Hfhi. rewrite (Hlo0 Hflo), (Hhi0 Hfhi) in Hform. exact Hform.
Qed.

End OptimizerFurther.

(** An instance of the last case: two symbols but a single expected return;
    the minimum-variance solve succeeds and the statistics raise. *)
Lemma optimization_errors_witness :
  exists res,
    PortfolioOptimizer.solver_call sqrt_Q exact_solver.minimize 0.05
      ["A"; "B"]%string [1 # 2] [[1; 1]; [1; 4]] PortfolioOptimizer.MIN_VARIANCE None
      = Return res /\
    scipy.success res = true /\
    PortfolioOptimizer.shapes_aligned (scipy.x res) [1 # 2] [[1; 1]; [1; 4]] = false /\
    exists msg,
      PortfolioOptimizer.mean_variance_optimization sqrt_Q exact_solver.minimize 0.05
        ["A"; "B"]%string [1 # 2] [[1; 1]; [1; 4]] PortfolioOptimizer.MIN_VARIANCE None
      = Raise (ValueError msg).
Proof.
  eexists. split; [reflexivity |]. split; [vm_compute; reflexivity |].
  split; [vm_compute; reflexivity |].
  refine (proj1 (proj2 (proj2 (proj2
            (optimization_errors_around_the_solver sqrt_Q exact_solver.minimize 0.05
               ["A"; "B"]%string [1 # 2] [[1; 1]; [1; 4]]
               PortfolioOptimizer.MIN_VARIANCE None)) _ eq_refl)) _ _);
    vm_compute; reflexivity.
Defined.

Lemma example_conforming : conforming (length ["A"; "B"]%string) [-1; 1] [[1; 1]; [1; 4]].
Proof. repeat split. repeat constructor. Qed.

Lemma successful_weights_witness :
  exists result,
    PortfolioOptimizer.mean_variance_optimization sqrt_Q exact_solver.minimize 0.05
      ["A"; "B"]%string [-1; 1] [[1; 1]; [1; 4]] PortfolioOptimizer.MIN_VARIANCE None
      = Return result /\
    PortfolioOptimizer.success result = true /\
    PortfolioOptimizer.weights result
      = dict_zip ["A"; "B"]%string
          (scipy.x (exact_solver.minimize
                      (PortfolioOptimizer.portfolio_variance [[1; 1]; [1; 4]])
                      [1 / 2; 1 / 2] "SLSQP" [(0, 1); (0, 1)]
                      [PortfolioOptimizer.budget_constraint] 1000%Z (1 # 1000000000))) /\
    map_total (PortfolioOptimizer.weights result) == 1 /\
    PortfolioOptimizer.expected_return result
      = np_dot (scipy.x (exact_solver.minimize
                           (PortfolioOptimizer.portfolio_variance [[1; 1]; [1; 4]])
                           [1 / 2; 1 / 2] "SLSQP" [(0, 1); (0, 1)]
                           [PortfolioOptimizer.budget_constraint] 1000%Z (1 # 1000000000)))
          [-1; 1].
Proof.
  apply (successful_weights_sum_to_one sqrt_Q exact_solver.minimize 0.05
           ["A"; "B"]%string [-1; 1] [[1; 1]; [1; 4]]
           PortfolioOptimizer.MIN_VARIANCE None).
  - apply NoDup_cons. split; [| apply NoDup_singleton].
    intros Hin. apply list_elem_of_singleton in Hin. discriminate.
  - exact example_conforming.
  - reflexivity.
  - vm_compute. reflexivity.
  - vm_compute. reflexivity.
  - vm_compute. reflexivity.
Defined.

Lemma efficient_frontier_witness :
  exists min_ret_result max_ret_result results,
    PortfolioOptimizer.mean_variance_optimization sqrt_Q exact_solver.minimize 0.05
      ["A"; "B"]%string [-1; 1] [[1; 1]; [1; 4]] PortfolioOptimizer.MIN_VARIANCE None
      = Return min_ret_result /\
    PortfolioOptimizer.mean_variance_optimization sqrt_Q exact_solver.minimize 0.05
      ["A"; "B"]%string [-1; 1] [[1; 1]; [1; 4]] PortfolioOptimizer.MAX_RETURN None
      = Return max_ret_result /\
    PortfolioOptimizer.efficient_frontier sqrt_Q exact_solver.minimize 0.05
      ["A"; "B"]%string [-1; 1] [[1; 1]; [1; 4]] 5 None = Return results /\
    (if Qle_bool (PortfolioOptimizer.expected_return max_ret_result)
                 (PortfolioOptimizer.expected_return min_ret_result)
     then results = [min_ret_result]
     else Forall (fun r => PortfolioOptimizer.success r = true) results /\
          (length results <= Z.to_nat 5)%nat) /\
    (PortfolioOptimizer.success min_ret_result = false ->
     PortfolioOptimizer.success max_ret_result = false ->
     results = [min_ret_result]).
Proof.
  apply (efficient_frontier_holds_successful_results sqrt_Q exact_solver.minimize 0.05
           exact_solver_keeps_shape
           ["A"; "B"]%string [-1; 1] [[1; 1]; [1; 4]] 5 None);
    [discriminate | lia | exact example_conforming].
Defined.

(** * Further properties of the risk ratios *)

Lemma np_sum_const (l : list Q) (c : Q) :
  List.Forall (fun x => x == c) l -> np_sum l == np_len l * c.
Proof.
  induction 1 as [| x l Hx _ IH].
  - unfold np_sum, np_len. cbn. ring.
  - rewrite np_sum_cons, np_len_cons, IH, Hx. ring.
Qed.

Lemma np_len_pos (l : list Q) : l <> [] -> 0 < np_len l.
Proof.
  intros Hne. destruct l as [| x l]; [congruence |].
  unfold np_len. cbn [length]. rewrite Nat2Z.inj_succ.
  change 0 with (inject_Z 0). rewrite <- Zlt_Qlt. lia.
Qed.

Lemma np_mean_const (l : list Q) (c : Q) :
  l <> [] -> List.Forall (fun x => x == c) l ->
  exists m, np_mean l = Fin m /\ m == c.
Proof.
  intros Hne Hall. pose proof (np_len_pos l Hne) as Hlen.
  destruct l as [| x l]; [congruence |].
  eexists. split; [reflexivity |].
  rewrite (np_sum_const _ c Hall). field. lra.
Qed.

Lemma np_var_const (l : list Q) (c : Q) :
  (2 <= length l)%nat -> List.Forall (fun x => x == c) l ->
  exists v, np_var_ddof1 l = Fin v /\ v == 0.
Proof.
  intros Hlen Hall.
  assert (Hne : l <> []) by (destruct l; [cbn in Hlen; lia | discriminate]).
  destruct (np_mean_const l c Hne Hall) as [m [Hm Hmc]].
  unfold np_var_ddof1. rewrite Hm.
  destruct (length l <=? 1)%nat eqn:E; [apply Nat.leb_le in E; lia |].
  eexists. split; [reflexivity |].
  assert (Hsq : List.Forall (fun x => x == 0) (List.map (fun x => (x - m) * (x - m)) l)).
  { apply List.Forall_forall. intros y Hy. apply in_map_iff in Hy as [x [<- Hx]].
    rewrite (proj1 (List.Forall_forall _ _) Hall x Hx), Hmc. ring. }
  rewrite (np_sum_const _ 0 Hsq).
  assert (Hn : 1 < np_len l).
  { unfold np_len. change 1 with (inject_Z 1). rewrite <- Zlt_Qlt. lia. }
  field. lra.
Qed.

Lemma np_subtract_self (a : list Q) :
  List.Forall (fun x => x == 0) (np_subtract a a) /\ length (np_subtract a a) = length a.
Proof.
  induction a as [| x a [IH1 IH2]]; [split; [constructor | reflexivity] |].
  cbn [np_subtract length]. split; [| now rewrite IH2].
  constructor; [ring | exact IH1].
Qed.

(** X18.  A portfolio measured against itself, over at least two periods,
    has a tracking error of zero and an information ratio of [0.0]: every
    excess return is [r - r], exactly zero also in floating point, so the
    zero test on the tracking error succeeds and the ratio is not computed. *)
Theorem information_ratio_against_itself (np_sqrt : Q -> Q) (returns : list Q) :
  (forall v, v == 0 -> np_sqrt v == 0) ->
  (2 <= length returns)%nat ->
  (exists te,
     RiskAnalyzer.calculate_tracking_error np_sqrt returns returns = Fin te /\
     te == 0) /\
  RiskAnalyzer.calculate_information_ratio np_sqrt returns returns = Fin 0.
Proof.
  intros Hsqrt Hlen.
  destruct (np_subtract_self returns) as [Hall Hl].
  destruct (np_var_const _ 0 ltac:(rewrite Hl; exact Hlen) Hall) as [v [Hv Hv0]].
  assert (Hne : np_subtract returns returns <> []).
  { intros Hnil. rewrite Hnil in Hl. cbn in Hl. lia. }
  destruct (np_mean_const _ 0 Hne Hall) as [m [Hm Hm0]].
  unfold RiskAnalyzer.calculate_tracking_error, RiskAnalyzer.calculate_information_ratio.
  rewrite Nat.eqb_refl. cbn [negb].
  unfold RiskAnalyzer.np_std_ddof1. rewrite Hv, Hm. split.
  - eexists. split; [reflexivity |]. rewrite (Hsqrt v Hv0). ring.
  - cbn [f_is_zero f_ltb].
    rewrite (proj2 (Qeq_bool_iff _ _) (Hsqrt v Hv0)).
    assert (Hle : Qle_bool m 0 = true) by (apply Qle_bool_iff; rewrite Hm0; lra).
    now rewrite Hle.
Qed.

Lemma sqrt_Q_zero (v : Q) : v == 0 -> sqrt_Q v == 0.
Proof.
  intros Hv. unfold sqrt_Q. destruct v as [n d]. unfold Qeq in *. cbn in *.
  assert (n = 0%Z) by lia. subst n. reflexivity.
Qed.

Lemma information_ratio_against_itself_witness :
  (exists te,
     RiskAnalyzer.calculate_tracking_error sqrt_Q
       [0.02; -0.01; 0.03] [0.02; -0.01; 0.03] = Fin te /\
     te == 0) /\
  RiskAnalyzer.calculate_information_ratio sqrt_Q
    [0.02; -0.01; 0.03] [0.02; -0.01; 0.03] = Fin 0.
Proof.
  apply (information_ratio_against_itself sqrt_Q [0.02; -0.01; 0.03]).
  - exact sqrt_Q_zero.
  - cbn. lia.
Defined.

Lemma running_max_sorted (current : Q) (a : list Q) :
  Sorted Qle (current :: a) -> running_max current a = a.
Proof.
  revert current. induction a as [| x a IH]; intros current Hs; [reflexivity |].
  apply Sorted_inv in Hs as [Hs Hhd]. apply HdRel_inv in Hhd.
  cbn [running_max]. rewrite (proj2 (Qle_bool_iff _ _) Hhd). cbv zeta.
  now rewrite IH.
Qed.

Lemma no_decline_drawdowns (prices : list Q) :
  List.Forall (fun p => 0 < p) prices ->
  List.Forall (fun d => exists q, d = Fin q /\ q == 0)
    (np_divide (np_subtract prices prices) prices).
Proof.
  induction 1 as [| p prices Hp _ IH]; [constructor |].
  cbn [np_subtract np_divide]. constructor; [| exact IH].
  unfold np_true_divide.
  destruct (Qeq_bool p 0) eqn:E; [apply Qeq_bool_iff in E; lra |].
  eexists. split; [reflexivity |]. field. lra.
Qed.

Lemma fold_minimum_zero (a : list float64) (q : Q) :
  q == 0 -> List.Forall (fun d => exists q, d = Fin q /\ q == 0) a ->
  exists q', fold_left f_minimum a (Fin q) = Fin q' /\ q' == 0.
Proof.
  intros Hq Hall. revert q Hq. induction Hall as [| d a [qd [-> Hqd]] _ IH]; intros q Hq.
  - now exists q.
  - cbn [fold_left f_minimum f_ltb]. destruct (negb (Qle_bool q qd)); now apply IH.
Qed.

(** X19.  For prices that are positive and never fall, there is no drawdown: the
    Calmar ratio is infinite when the mean return is positive and [0.0]
    otherwise (also when the mean is [nan], for no returns). *)
Theorem calmar_ratio_without_decline (returns prices : list Q) :
  prices <> [] -> List.Forall (fun p => 0 < p) prices -> Sorted Qle prices ->
  RiskAnalyzer.calculate_calmar_ratio returns prices
  = Return (if f_ltb (Fin 0) (f_mul (np_mean returns) (Fin RiskAnalyzer.TRADING_DAYS_PER_YEAR))
            then PInf else Fin 0).
Proof.
  intros Hne Hpos Hsorted.
  unfold RiskAnalyzer.calculate_calmar_ratio, RiskAnalyzer.calculate_max_drawdown.
  assert (Hmax : np_maximum_accumulate prices = prices).
  { destruct prices as [| p prices]; [congruence |].
    cbn [np_maximum_accumulate]. now rewrite running_max_sorted. }
  rewrite Hmax. pose proof (no_decline_drawdowns prices Hpos) as Hdd.
  destruct prices as [| p prices]; [congruence |].
  cbn [np_subtract np_divide] in *.
  apply List.Forall_cons_iff in Hdd as [[q0 [Hd0 Hq0]] Hdd].
  rewrite Hd0. cbn [np_min np_argmin mbind outcome_bind].
  destruct (fold_minimum_zero _ q0 Hq0 Hdd) as [q' [Hfold Hq']].
  rewrite Hfold.
  match goal with
  | |- context [np_argmax (firstn (?n + 1) (p :: prices))] =>
    replace (n + 1)%nat with (S n) by lia
  end.
  cbn [firstn np_argmax mbind outcome_bind f_is_zero].
  now rewrite (proj2 (Qeq_bool_iff _ _) Hq').
Qed.

Lemma calmar_ratio_witness :
  RiskAnalyzer.calculate_calmar_ratio [0.1; 0.1] [100; 110; 121]
  = Return (if f_ltb (Fin 0) (f_mul (np_mean [0.1; 0.1])
                                (Fin RiskAnalyzer.TRADING_DAYS_PER_YEAR))
            then PInf else Fin 0).
Proof.
  apply (calmar_ratio_without_decline [0.1; 0.1] [100; 110; 121]).
  - discriminate.
  - repeat constructor.
  - repeat constructor; unfold Qle; cbn; lia.
Defined.

(** * Properties of the liquidity analyser *)

(** X20.  The market-impact estimate in its three cases, for share counts
    within the range of a float (beyond it Python's division of the two
    integers raises [OverflowError]).  Without volume it returns, whatever
    the participation rate, infinite trading times and the full spread as
    cost.  With volume, a zero participation rate raises
    [ZeroDivisionError]; otherwise the estimate returns, the spread cost is
    half the spread, the total cost is the spread cost plus the market
    impact, and both the impact and the total are [nan] for a negative
    fraction of the daily volume. *)
Theorem market_impact_cases
    (np_sqrt : Q -> Q) (shares_to_trade adv : Z)
    (spread_bps volatility participation_rate : Q) :
  (Z.abs shares_to_trade < 2 ^ 1000)%Z -> (Z.abs adv < 2 ^ 1000)%Z ->
  let estimate :=
    LiquidityAnalyzer.estimate_market_impact np_sqrt shares_to_trade adv spread_bps
      volatility participation_rate in
  (adv = 0%Z ->
   estimate = Return {| LiquidityAnalyzer.pct_adv := PInf;
                        LiquidityAnalyzer.days_to_trade := PInf;
                        LiquidityAnalyzer.spread_cost_bps := spread_bps;
                        LiquidityAnalyzer.market_impact_bps := Fin 0;
                        LiquidityAnalyzer.total_cost_bps := Fin spread_bps |}) /\
  (adv <> 0%Z -> participation_rate == 0 -> estimate = Raise ZeroDivisionError) /\
  (adv <> 0%Z -> ~ participation_rate == 0 ->
   exists result,
     estimate = Return result /\
     LiquidityAnalyzer.spread_cost_bps result = spread_bps / 2 /\
     LiquidityAnalyzer.total_cost_bps result
     = f_add (Fin (LiquidityAnalyzer.spread_cost_bps result))
             (LiquidityAnalyzer.market_impact_bps result) /\
     (inject_Z shares_to_trade / inject_Z adv < 0 ->
      LiquidityAnalyzer.market_impact_bps result = NaN /\
      LiquidityAnalyzer.total_cost_bps result = NaN)).
Proof.
  intros _ _. cbv zeta. unfold LiquidityAnalyzer.estimate_market_impact.
  split; [| split].
  - intros ->. reflexivity.
  - intros Hadv Hrate.
    destruct (adv =? 0)%Z eqn:E; [apply Z.eqb_eq in E; contradiction |].
    assert (Hz : inject_Z adv * participation_rate == 0) by (rewrite Hrate; ring).
    now rewrite (proj2 (Qeq_bool_iff _ _) Hz).
  - intros Hadv Hrate.
    destruct (adv =? 0)%Z eqn:E; [apply Z.eqb_eq in E; contradiction |].
    assert (Hadv' : ~ inject_Z adv == 0).
    { change 0 with (inject_Z 0). rewrite inject_Z_injective. exact Hadv. }
    destruct (Qeq_bool (inject_Z adv * participation_rate) 0) eqn:Ez.
    { apply Qeq_bool_iff in Ez. apply Qmult_integral in Ez as [Ez | Ez]; contradiction. }
    eexists. split; [reflexivity |].
    cbn [LiquidityAnalyzer.spread_cost_bps LiquidityAnalyzer.total_cost_bps
         LiquidityAnalyzer.market_impact_bps].
    split; [reflexivity |]. split; [reflexivity |].
    intros Hneg.
    destruct (Qle_bool 0 (inject_Z shares_to_trade / inject_Z adv)) eqn:El;
      [apply Qle_bool_iff in El; lra | split; reflexivity].
Qed.

Lemma market_impact_cases_witness :
  let estimate :=
    LiquidityAnalyzer.estimate_market_impact sqrt_Q 40000 1000000 10 0.02 0.10 in
  (1000000%Z = 0%Z ->
   estimate = Return {| LiquidityAnalyzer.pct_adv := PInf;
                        LiquidityAnalyzer.days_to_trade := PInf;
                        LiquidityAnalyzer.spread_cost_bps := 10;
                        LiquidityAnalyzer.market_impact_bps := Fin 0;
                        LiquidityAnalyzer.total_cost_bps := Fin 10 |}) /\
  (1000000%Z <> 0%Z -> 0.10 == 0 -> estimate = Raise ZeroDivisionError) /\
  (1000000%Z <> 0%Z -> ~ 0.10 == 0 ->
   exists result,
     estimate = Return result /\
     LiquidityAnalyzer.spread_cost_bps result = 10 / 2 /\
     LiquidityAnalyzer.total_cost_bps result
     = f_add (Fin (LiquidityAnalyzer.spread_cost_bps result))
             (LiquidityAnalyzer.market_impact_bps result) /\
     (inject_Z 40000 / inject_Z 1000000 < 0 ->
      LiquidityAnalyzer.market_impact_bps result = NaN /\
      LiquidityAnalyzer.total_cost_bps result = NaN)).
Proof.
  apply (market_impact_cases sqrt_Q 40000 1000000 10 0.02 0.10);
    apply Z.ltb_lt; vm_compute; reflexivity.
Defined.

Lemma finite_entries_without_volume (total_value : Q) (items : list (string * (Q * Z))) :
  List.Forall (fun kv => (kv.2.2 <= 0)%Z) items ->
  LiquidityAnalyzer.finite_entries
    (List.map (fun kv => LiquidityAnalyzer.pct_adv_entry total_value kv.2) items) = [].
Proof.
  induction 1 as [| [k [v adv]] items Hadv _ IH]; [reflexivity |].
  cbn [List.map snd fst LiquidityAnalyzer.pct_adv_entry] in *.
  destruct (0 <? adv)%Z eqn:E; [apply Z.ltb_lt in E; lia |].
  cbn [LiquidityAnalyzer.finite_entries]. exact IH.
Qed.

(** X21.  A portfolio in which no position has a positive daily volume is scored
    as fully liquid: score 100, no days to liquidate. *)
Theorem positions_without_volume_score_fully_liquid
    (positions : gmap string (Q * Z)) :
  (forall symbol value adv, positions !! symbol = Some (value, adv) -> (adv <= 0)%Z) ->
  let result := LiquidityAnalyzer.calculate_liquidity_score positions in
  LiquidityAnalyzer.liquidity_score result = 100%Z /\
  LiquidityAnalyzer.weighted_pct_adv result == 0 /\
  LiquidityAnalyzer.max_pct_adv result == 0 /\
  exists days, LiquidityAnalyzer.days_to_liquidate_10pct_participation result = Fin days /\
               days == 0.
Proof.
  intros Hadv. cbv zeta. unfold LiquidityAnalyzer.calculate_liquidity_score.
  destruct (size positions =? 0)%nat;
    [cbn; repeat split; try reflexivity; now exists 0 |].
  destruct (Qeq_bool _ 0); [cbn; repeat split; try reflexivity; now exists 0 |].
  rewrite finite_entries_without_volume.
  - cbn. repeat split; try reflexivity. eexists. split; reflexivity.
  - apply List.Forall_forall. intros [k [v adv]] Hin. cbn [snd].
    apply list_elem_of_In, elem_of_map_to_list in Hin. exact (Hadv k v adv Hin).
Qed.

Lemma positions_without_volume_witness :
  let result :=
    LiquidityAnalyzer.calculate_liquidity_score
      {["XYZ"%string := (1000000, 0%Z)]} in
  LiquidityAnalyzer.liquidity_score result = 100%Z /\
  LiquidityAnalyzer.weighted_pct_adv result == 0 /\
  LiquidityAnalyzer.max_pct_adv result == 0 /\
  exists days, LiquidityAnalyzer.days_to_liquidate_10pct_participation result = Fin days /\
               days == 0.
Proof.
  apply (positions_without_volume_score_fully_liquid {["XYZ"%string := (1000000, 0%Z)]}).
  intros symbol value adv Hin. apply lookup_singleton_Some in Hin as [_ Hin].
  injection Hin as _ <-. lia.
Defined.

Lemma crowding_loop (hedge_fund_ownership : gmap string Q) (items : list (string * Q))
    (scores : gmap string Z) (s : string) :
  fold_left (LiquidityAnalyzer.crowding_step hedge_fund_ownership) items scores !! s
  = if decide (s ∈ items.*1)
    then Some (LiquidityAnalyzer.crowding_score (dict_get hedge_fund_ownership s))
    else scores !! s.
Proof.
  revert scores. induction items as [| [k v] items IH]; intros scores.
  - cbn [fold_left]. rewrite decide_False; [reflexivity |].
    rewrite fmap_nil. apply not_elem_of_nil.
  - cbn [fold_left]. rewrite IH. unfold LiquidityAnalyzer.crowding_step. cbn [fst].
    rewrite fmap_cons. cbn [fst].
    destruct (decide (s ∈ items.*1)) as [Hin | Hnin].
    + rewrite decide_True by (now right). reflexivity.
    + destruct (decide (s = k)) as [-> | Hne].
      * rewrite decide_True by (now left). apply lookup_insert_eq.
      * rewrite decide_False by (intros Hin; apply elem_of_cons in Hin as [? | ?]; tauto).
        now rewrite lookup_insert_ne.
Qed.

Lemma crowding_score_monotone (a b : Q) :
  a <= b -> (LiquidityAnalyzer.crowding_score a <= LiquidityAnalyzer.crowding_score b)%Z.
Proof.
  intros Hab. unfold LiquidityAnalyzer.crowding_score.
  repeat match goal with
         | |- context [Qle_bool ?x ?y] =>
           let E := fresh "E" in
           destruct (Qle_bool x y) eqn:E;
           [apply Qle_bool_iff in E
           | apply not_true_iff_false in E; rewrite Qle_bool_iff in E]
         end; cbn [negb]; try lia; exfalso; lra.
Qed.

(** X23.  The crowding scores have the keys of the portfolio; the score of a
    symbol is decided by its hedge-fund ownership alone (the position value
    plays no part), a symbol without ownership data scores 10, the lowest
    grade, and a higher ownership never gives a lower score. *)
Theorem crowding_scores_follow_ownership
    (portfolio_positions hedge_fund_ownership : gmap string Q) :
  let scores :=
    LiquidityAnalyzer.crowding_analysis portfolio_positions hedge_fund_ownership in
  (forall symbol,
     scores !! symbol
     = (fun _ => LiquidityAnalyzer.crowding_score (dict_get hedge_fund_ownership symbol))
       <$> portfolio_positions !! symbol) /\
  (forall symbol value,
     portfolio_positions !! symbol = Some value ->
     hedge_fund_ownership !! symbol = None -> scores !! symbol = Some 10%Z) /\
  (forall other_ownership symbol score other_score,
     dict_get hedge_fund_ownership symbol <= dict_get other_ownership symbol ->
     scores !! symbol = Some score ->
     LiquidityAnalyzer.crowding_analysis portfolio_positions other_ownership !! symbol
     = Some other_score ->
     (score <= other_score)%Z).
Proof.
  cbv zeta.
  assert (Hlookup : forall ownership symbol,
             LiquidityAnalyzer.crowding_analysis portfolio_positions ownership !! symbol
             = (fun _ => LiquidityAnalyzer.crowding_score (dict_get ownership symbol))
               <$> portfolio_positions !! symbol).
  { intros ownership symbol. unfold LiquidityAnalyzer.crowding_analysis.
    rewrite crowding_loop, lookup_empty.
    destruct (portfolio_positions !! symbol) as [v |] eqn:Hs.
    - rewrite decide_True; [reflexivity |].
      apply list_elem_of_fmap. exists (symbol, v). split; [reflexivity |].
      now apply elem_of_map_to_list.
    - rewrite decide_False; [reflexivity |].
      intros Hin. apply list_elem_of_fmap in Hin as [[k v] [Hk Hin]]. cbn in Hk. subst k.
      apply elem_of_map_to_list in Hin. congruence. }
  split; [apply Hlookup |]. split.
  - intros symbol value Hpos Hown. rewrite Hlookup, Hpos. cbn.
    unfold dict_get. rewrite Hown. reflexivity.
  - intros other symbol score other_score Hle Hs Ho.
    rewrite Hlookup in Hs, Ho. destruct (portfolio_positions !! symbol); [| discriminate].
    cbn in Hs, Ho. injection Hs as <-. injection Ho as <-.
    now apply crowding_score_monotone.
Qed.

(** * Properties of the idea tracker *)

(** X24.  After an idea is added and the prices are updated with a price for its
    symbol, the stored idea carries that price and nothing else is changed;
    its return is measured from the entry price, except that a price of zero
    gives no return at all rather than a loss of 100%. *)
Theorem updated_price_drives_return
    (tracker : IdeaTracker.t) (idea : IdeaTracker.Idea) (prices : gmap string Q)
    (price entry : Q) :
  prices !! IdeaTracker.symbol idea = Some price ->
  IdeaTracker.entry_price idea = Some entry ->
  ~ entry == 0 ->
  let updated := IdeaTracker.update_prices (IdeaTracker.add_idea tracker idea) prices in
  IdeaTracker.get_idea updated (IdeaTracker.id idea)
  = Some (IdeaTracker.set_current_price idea price) /\
  IdeaTracker.return_pct (IdeaTracker.set_current_price idea price)
  = if Qeq_bool price 0 then None else Some ((price - entry) / entry).
Proof.
  intros Hprice Hentry Hne. cbv zeta. split.
  - unfold IdeaTracker.get_idea, IdeaTracker.update_prices, IdeaTracker.add_idea.
    cbn [IdeaTracker.ideas]. rewrite lookup_fmap, lookup_insert_eq. cbn.
    unfold IdeaTracker.update_idea. now rewrite Hprice.
  - unfold IdeaTracker.return_pct, IdeaTracker.set_current_price.
    cbn [IdeaTracker.entry_price IdeaTracker.current_price]. rewrite Hentry.
    unfold PortfolioOptimizer.truthy.
    destruct (Qeq_bool entry 0) eqn:E; [apply Qeq_bool_iff in E; contradiction |].
    cbn [negb andb]. destruct (Qeq_bool price 0); reflexivity.
Qed.

Definition example_idea : IdeaTracker.Idea :=
  {| IdeaTracker.id := "idea-1"; IdeaTracker.symbol := "XYZ";
     IdeaTracker.thesis := "Margin expansion"; IdeaTracker.catalysts := [];
     IdeaTracker.kpis := ∅; IdeaTracker.conviction := 3;
     IdeaTracker.entry_date := None; IdeaTracker.entry_price := Some 100;
     IdeaTracker.target_price := Some 130; IdeaTracker.stop_price := Some 90;
     IdeaTracker.current_price := None; IdeaTracker.status := "active";
     IdeaTracker.analyst := None; IdeaTracker.notes := "" |}.

Lemma updated_price_witness :
  let updated :=
    IdeaTracker.update_prices (IdeaTracker.add_idea IdeaTracker.__init__ example_idea)
      {["XYZ"%string := 110]} in
  IdeaTracker.get_idea updated (IdeaTracker.id example_idea)
  = Some (IdeaTracker.set_current_price example_idea 110) /\
  IdeaTracker.return_pct (IdeaTracker.set_current_price example_idea 110)
  = if Qeq_bool 110 0 then None else Some ((110 - 100) / 100).
Proof.
  apply (updated_price_drives_return IdeaTracker.__init__ example_idea
           {["XYZ"%string := 110]} 110 100).
  - apply lookup_singleton_eq.
  - reflexivity.
  - intros H. vm_compute in H. discriminate.
Defined.

(** X25.  A risk/reward ratio is reported only when entry, target and stop prices
    are all set and non-zero and the stop lies below the entry; it is then
    the upside over the downside, positive exactly when the target is above
    the entry. *)
Theorem risk_reward_ratio_needs_stop_below_entry (idea : IdeaTracker.Idea) (ratio : Q) :
  IdeaTracker.risk_reward_ratio idea = Some ratio ->
  exists entry target stop,
    IdeaTracker.entry_price idea = Some entry /\
    IdeaTracker.target_price idea = Some target /\
    IdeaTracker.stop_price idea = Some stop /\
    ~ entry == 0 /\ ~ target == 0 /\ ~ stop == 0 /\
    stop < entry /\
    ratio == (target - entry) / (entry - stop) /\
    (0 < ratio <-> entry < target).
Proof.
  unfold IdeaTracker.risk_reward_ratio, PortfolioOptimizer.truthy.
  destruct (IdeaTracker.entry_price idea) as [entry |]; [| discriminate].
  destruct (IdeaTracker.target_price idea) as [target |]; [| discriminate].
  destruct (IdeaTracker.stop_price idea) as [stop |]; [| discriminate].
  destruct (Qeq_bool entry 0) eqn:Ee; [discriminate |].
  destruct (Qeq_bool target 0) eqn:Et; [discriminate |].
  destruct (Qeq_bool stop 0) eqn:Es; [discriminate |].
  cbn [negb andb]. unfold Qpos_bool.
  destruct (Qle_bool (entry - stop) 0) eqn:Ed; [discriminate |].
  cbn [negb]. intros H. injection H as <-.
  assert (Hd : 0 < entry - stop).
  { assert (~ entry - stop <= 0) by (rewrite <- Qle_bool_iff; congruence). lra. }
  exists entry, target, stop.
  repeat (split; [first [reflexivity | rewrite <- Qeq_bool_iff; congruence | lra] |]).
  assert (Hr : (target - entry) / (entry - stop) * (entry - stop) == target - entry)
    by (field; lra).
  set (ratio := (target - entry) / (entry - stop)) in *.
  split; intros H.
  - assert (0 < ratio * (entry - stop)) by (apply Qmult_lt_0_compat; assumption). lra.
  - destruct (Qlt_le_dec 0 ratio) as [Hpos | Hneg]; [exact Hpos |].
    assert (ratio * (entry - stop) <= 0) by nra. lra.
Qed.

Lemma risk_reward_ratio_witness :
  exists entry target stop,
    IdeaTracker.entry_price example_idea = Some entry /\
    IdeaTracker.target_price example_idea = Some target /\
    IdeaTracker.stop_price example_idea = Some stop /\
    ~ entry == 0 /\ ~ target == 0 /\ ~ stop == 0 /\
    stop < entry /\
    (130 - 100) / (100 - 90) == (target - entry) / (entry - stop) /\
    (0 < (130 - 100) / (100 - 90) <-> entry < target).
Proof.
  apply (risk_reward_ratio_needs_stop_below_entry example_idea ((130 - 100) / (100 - 90))).
  reflexivity.
Defined.

(** X26.  Updating the prices keeps the identifiers of the ideas, leaves every
    idea whose symbol has no price as it was, and changes nothing when the
    same prices are applied a second time. *)
Theorem update_prices_touches_priced_symbols_only
    (tracker : IdeaTracker.t) (prices : gmap string Q) :
  let updated := IdeaTracker.update_prices tracker prices in
  dom (IdeaTracker.ideas updated) = dom (IdeaTracker.ideas tracker) /\
  (forall idea_id idea,
     IdeaTracker.get_idea tracker idea_id = Some idea ->
     prices !! IdeaTracker.symbol idea = None ->
     IdeaTracker.get_idea updated idea_id = Some idea) /\
  IdeaTracker.update_prices updated prices = updated.
Proof.
  cbv zeta. unfold IdeaTracker.update_prices, IdeaTracker.get_idea.
  cbn [IdeaTracker.ideas]. split; [apply dom_fmap_L |]. split.
  - intros idea_id idea Hidea Hprice. rewrite lookup_fmap, Hidea. cbn.
    unfold IdeaTracker.update_idea. now rewrite Hprice.
  - f_equal. rewrite <- map_fmap_compose. apply map_fmap_ext.
    intros idea_id idea _. cbn. unfold IdeaTracker.update_idea.
    destruct (prices !! IdeaTracker.symbol idea) as [price |] eqn:E.
    + cbn [IdeaTracker.set_current_price IdeaTracker.symbol]. rewrite E. reflexivity.
    + now rewrite E.
Qed.
